(** * Monevo: budget ledger, services and free-text intent parser

    A shallow embedding of [models.py], [database.py], [services.py] and
    [message_parser.py], followed by the properties of the ledger and of
    the parser.

    Conventions of the embedding.
    - A Python [str] is a list of Unicode code points ([list N]).  The
      library functions [str.lower], [str.strip], [str.isspace] and the
      regular-expression classes [\s], [\d], [\w] are tabulated for the
      code points U+0000..U+00FF (Basic Latin and Latin-1 Supplement, the
      range of the Spanish text the bot handles); other code points are
      left unchanged by [lower] and belong to no class.
    - A monetary amount (Python [float], SQLite [REAL]) is an exact
      rational ([Q]).
    - A [datetime] is an integer count of microseconds ([Z]); its
      [isoformat()] text is fixed-width up to the seconds, so the textual
      order SQLite uses coincides with the order on [Z].  The value that
      [datetime.now()] returns is an explicit argument [ahora].
    - The SQLite file is a record of two row lists and the two
      AUTOINCREMENT counters; every repository method is a function in a
      state-and-exception monad over it.
    - Binding the parameters of a statement is total in the embedding.
      In the code it raises for an integer from [2 ** 63] up, for a NaN
      (stored as NULL in a NOT NULL column) and for a text with a lone
      surrogate, and [int] raises for a run of more than 4300 digits.
      The properties that depend on a call returning carry the bounds
      [limite_entero], [max_str_digits], [texto_utf8] and [latin1] as
      hypotheses. *)

From Stdlib Require Import List NArith ZArith QArith Bool Lia.
From Stdlib Require Import String Ascii.
From Stdlib Require Import Permutation Sorted.
Import ListNotations.

Set Implicit Arguments.

(* ================================================================= *)
(** ** Python strings *)

Module Str.

Definition str := list N.

Fixpoint bytes (s : string) : list N :=
  match s with
  | EmptyString => []
  | String a s' => N_of_ascii a :: bytes s'
  end.

(** UTF-8 decoding of the bytes of a source literal. *)
Fixpoint utf8_decode (bs : list N) : str :=
  match bs with
  | [] => []
  | b0 :: r0 =>
    if (b0 <? 128)%N then b0 :: utf8_decode r0
    else match r0 with
    | [] => [b0]
    | b1 :: r1 =>
      if (b0 <? 224)%N
      then ((b0 - 192) * 64 + (b1 - 128))%N :: utf8_decode r1
      else match r1 with
      | [] => [b0; b1]
      | b2 :: r2 =>
        if (b0 <? 240)%N
        then ((b0 - 224) * 4096 + (b1 - 128) * 64 + (b2 - 128))%N
               :: utf8_decode r2
        else match r2 with
        | [] => [b0; b1; b2]
        | b3 :: r3 =>
          ((b0 - 240) * 262144 + (b1 - 128) * 4096
             + (b2 - 128) * 64 + (b3 - 128))%N :: utf8_decode r3
        end
      end
    end
  end.

(** [py "..."] is the Python literal ["..."]. *)
Definition py (s : string) : str := utf8_decode (bytes s).
Arguments py s%_string.

Fixpoint eqb (s t : str) : bool :=
  match s, t with
  | [], [] => true
  | a :: s', b :: t' => (a =? b)%N && eqb s' t'
  | _, _ => false
  end.

(** [x in [s1, ..., sn]] on a list of strings. *)
Fixpoint mem (x : str) (l : list str) : bool :=
  match l with
  | [] => false
  | y :: l' => eqb x y || mem x l'
  end.

(** [str.isspace] of one code point (also the class [\s]). *)
Definition isspace (c : N) : bool :=
  ((9 <=? c) && (c <=? 13) || (28 <=? c) && (c <=? 32)
   || (c =? 133) || (c =? 160))%N.

(** [str.lower] of one code point: A-Z, and the Latin-1 capitals
    U+00C0..U+00DE without the multiplication sign U+00D7. *)
Definition lower_cp (c : N) : N :=
  if ((65 <=? c) && (c <=? 90))%N then (c + 32)%N
  else if ((192 <=? c) && (c <=? 222) && negb (c =? 215))%N then (c + 32)%N
  else c.

Definition lower (s : str) : str := map lower_cp s.

Fixpoint lstrip (s : str) : str :=
  match s with
  | c :: s' => if isspace c then lstrip s' else s
  | [] => []
  end.

Definition rstrip (s : str) : str := rev (lstrip (rev s)).

Definition strip (s : str) : str := rstrip (lstrip s).

(** Truth value of a string: non-empty. *)
Definition truthy (s : str) : bool :=
  match s with [] => false | _ => true end.

(** [str.isdecimal] in the tabulated range (the class [\d]). *)
Definition isdecimal (c : N) : bool := ((48 <=? c) && (c <=? 57))%N.

(** [str.isalnum] in the tabulated range. *)
Definition isalnum (c : N) : bool :=
  (isdecimal c
   || (65 <=? c) && (c <=? 90) || (97 <=? c) && (c <=? 122)
   || (c =? 170) || (c =? 178) || (c =? 179) || (c =? 181)
   || (c =? 185) || (c =? 186) || (188 <=? c) && (c <=? 190)
   || (192 <=? c) && (c <=? 214) || (216 <=? c) && (c <=? 246)
   || (248 <=? c) && (c <=? 255))%N.

(** [int(s)] for a string of decimal digits. *)
Definition int_of_digits (s : str) : Z :=
  fold_left (fun acc c => (acc * 10 + Z.of_N (c - 48))%Z) s 0%Z.

(** Decimal digits of a natural number, most significant first. *)
Fixpoint digits_fuel (fuel : nat) (n : N) (acc : str) : str :=
  match fuel with
  | O => acc
  | S f =>
    let acc' := (48 + n mod 10)%N :: acc in
    if (n <? 10)%N then acc' else digits_fuel f (n / 10)%N acc'
  end.

Definition digits (n : N) : str := digits_fuel (S (N.to_nat (N.log2 n))) n [].

(** Thousands separator of the format specification [,]: a comma
    before every group of three digits counted from the right. *)
Fixpoint group3_rev (ds : str) : str :=
  match ds with
  | a :: b :: c :: ((_ :: _) as r) => a :: b :: c :: 44%N :: group3_rev r
  | _ => ds
  end.

Definition group3 (ds : str) : str := rev (group3_rev (rev ds)).

(** Round half to even, the rounding of the presentation type [f]. *)
Definition round_half_even (q : Q) : Z :=
  let n := Qnum q in
  let d := Zpos (Qden q) in
  let fl := (n / d)%Z in
  let r2 := (2 * (n mod d))%Z in
  if (r2 <? d)%Z then fl
  else if (d <? r2)%Z then (fl + 1)%Z
  else if Z.even fl then fl else (fl + 1)%Z.

(** [f"{q:,.0f}"] *)
Definition format_miles (q : Q) : str :=
  let z := round_half_even q in
  let body := group3 (digits (Z.abs_N z)) in
  if (z <? 0)%Z then 45%N :: body
  else if Qle_bool 0 q then body else 45%N :: body.

End Str.

Import Str.

(* ================================================================= *)
(** ** Exceptions and the repository monad *)

Inductive exn : Type :=
| ValueError (msg : str)
| IntegrityError
| OperationalError.

Inductive res (A : Type) : Type :=
| Ok (a : A)
| Raise (e : exn).

Arguments Ok {A} a.
Arguments Raise {A} e.

(** A computation over a store [S]: it returns a value and the committed
    store, or raises.  [get_connection] rolls back and closes on an
    exception, so a raising computation leaves the store as it found it
    and [Raise] carries no store. *)
Definition M (S A : Type) : Type := S -> res (A * S).

Definition ret {S A} (a : A) : M S A := fun s => Ok (a, s).

Definition bind {S A B} (c : M S A) (k : A -> M S B) : M S B :=
  fun s => match c s with
           | Ok (a, s') => k a s'
           | Raise e => Raise e
           end.

Definition raise {S A} (e : exn) : M S A := fun _ => Raise e.

(** The result of a constructor call inside a computation. *)
Definition lift {S A} (r : res A) : M S A :=
  fun s => match r with
           | Ok a => Ok (a, s)
           | Raise e => Raise e
           end.

(** A query: reads the store, changes nothing. *)
Definition query {S A} (f : S -> A) : M S A := fun s => Ok (f s, s).

(** [try: c except ValueError as e: h e] *)
Definition try_ValueError {S A} (c : M S A) (h : str -> M S A) : M S A :=
  fun s => match c s with
           | Raise (ValueError msg) => h msg s
           | r => r
           end.

Declare Scope monad_scope.
Delimit Scope monad_scope with monad.
Notation "x <- c ;; k" := (bind c (fun x => k))
  (at level 61, c at next level, right associativity) : monad_scope.

(* ================================================================= *)
(** ** models.py *)

Definition datetime := Z.

Module Presupuesto.

Record t : Type := mk {
  categoria : str;
  monto : Q;
  periodicidad : str;
  usuario_id : str;
  id : option N;
  creado_en : datetime
}.

(** The generated [__init__] followed by [__post_init__]. *)
Definition init (ahora : datetime) (categoria : str) (monto : Q)
    (periodicidad : str) (usuario_id : str) (id : option N)
    (creado_en : option datetime) : t :=
  let creado_en := match creado_en with
                   | None => ahora
                   | Some d => d
                   end in
  mk (strip (lower categoria)) monto periodicidad usuario_id id creado_en.

End Presupuesto.

Module Movimiento.

Record t : Type := mk {
  categoria : str;
  tipo : str;
  monto : Q;
  usuario_id : str;
  concepto : str;
  fecha : datetime;
  id : option N
}.

Definition init (ahora : datetime) (categoria tipo : str) (monto : Q)
    (usuario_id concepto : str) (fecha : option datetime) (id : option N)
    : res t :=
  let fecha := match fecha with
               | None => ahora
               | Some d => d
               end in
  let categoria := strip (lower categoria) in
  if negb (Str.mem tipo [py "gasto"; py "ingreso"])
  then Raise (ValueError (py "Tipo debe ser 'gasto' o 'ingreso'"))
  else Ok (mk categoria tipo monto usuario_id concepto fecha id).

End Movimiento.

Module ResumenPresupuesto.

Record t : Type := mk {
  categoria : str;
  monto_inicial : Q;
  gastos : Q;
  ingresos : Q;
  saldo : Q;
  periodicidad : str
}.

Definition porcentaje_usado (self : t) : Q :=
  if Qeq_bool (monto_inicial self) 0 then 0
  else (gastos self / monto_inicial self) * 100.

End ResumenPresupuesto.

(* ================================================================= *)
(** ** database.py *)

Module SQLiteRepository.

Open Scope monad_scope.

(** A row of the table [presupuestos]. *)
Record FilaPresupuesto : Type := mkFilaP {
  p_id : N;
  p_usuario_id : str;
  p_categoria : str;
  p_monto : Q;
  p_periodicidad : str;
  p_creado_en : datetime
}.

(** A row of the table [movimientos]. *)
Record FilaMovimiento : Type := mkFilaM {
  m_id : N;
  m_usuario_id : str;
  m_categoria : str;
  m_tipo : str;
  m_monto : Q;
  m_concepto : str;
  m_fecha : datetime
}.

(** The database file: both tables in rowid order, and for each the
    largest rowid AUTOINCREMENT has handed out. *)
Record DB : Type := mkDB {
  presupuestos : list FilaPresupuesto;
  movimientos : list FilaMovimiento;
  seq_presupuestos : N;
  seq_movimientos : N
}.

(** [init_db] on a fresh file. *)
Definition init_db : DB := mkDB [] [] 0 0.

(** [WHERE usuario_id = ? AND categoria = ?] on either table. *)
Definition where_p (usuario_id categoria : str) (r : FilaPresupuesto) : bool :=
  Str.eqb (p_usuario_id r) usuario_id && Str.eqb (p_categoria r) categoria.

Definition where_m (usuario_id categoria : str) (r : FilaMovimiento) : bool :=
  Str.eqb (m_usuario_id r) usuario_id && Str.eqb (m_categoria r) categoria.

Definition presupuesto_existe (db : DB) (usuario_id categoria : str) : bool :=
  existsb (where_p usuario_id (strip (lower categoria))) (presupuestos db).

(** [INSERT INTO presupuestos]: the constraint [UNIQUE(usuario_id,
    categoria)] raises, otherwise the row gets the next rowid. *)
Definition insert_presupuesto (p : Presupuesto.t) : M DB unit :=
  fun db =>
    if existsb (where_p (Presupuesto.usuario_id p) (Presupuesto.categoria p))
               (presupuestos db)
    then Raise IntegrityError
    else
      let n := (seq_presupuestos db + 1)%N in
      let fila := mkFilaP n (Presupuesto.usuario_id p)
                    (Presupuesto.categoria p) (Presupuesto.monto p)
                    (Presupuesto.periodicidad p) (Presupuesto.creado_en p) in
      Ok (tt, mkDB (presupuestos db ++ [fila]) (movimientos db)
                   n (seq_movimientos db)).

Definition crear_presupuesto (presupuesto : Presupuesto.t) : M DB bool :=
  existe <- query (fun db =>
              presupuesto_existe db (Presupuesto.usuario_id presupuesto)
                                    (Presupuesto.categoria presupuesto)) ;;
  if existe then ret false
  else
    _ <- insert_presupuesto presupuesto ;;
    ret true.

(** [UPDATE presupuestos SET ... WHERE usuario_id = ? AND categoria = ?] *)
Definition update_presupuestos (set : FilaPresupuesto -> FilaPresupuesto)
    (usuario_id categoria : str) : M DB unit :=
  fun db =>
    Ok (tt, mkDB (map (fun r => if where_p usuario_id categoria r
                                then set r else r) (presupuestos db))
                 (movimientos db) (seq_presupuestos db) (seq_movimientos db)).

Definition set_monto (monto : Q) (r : FilaPresupuesto) : FilaPresupuesto :=
  mkFilaP (p_id r) (p_usuario_id r) (p_categoria r) monto
          (p_periodicidad r) (p_creado_en r).

Definition set_monto_periodicidad (monto : Q) (periodicidad : str)
    (r : FilaPresupuesto) : FilaPresupuesto :=
  mkFilaP (p_id r) (p_usuario_id r) (p_categoria r) monto
          periodicidad (p_creado_en r).

(** Truth value of an [Optional[str]]. *)
Definition truthy_opt (o : option str) : bool :=
  match o with
  | Some s => truthy s
  | None => false
  end.

Definition actualizar_presupuesto (usuario_id categoria : str) (monto : Q)
    (periodicidad : option str) : M DB bool :=
  existe <- query (fun db => presupuesto_existe db usuario_id categoria) ;;
  if negb existe then ret false
  else
    _ <- match periodicidad with
         | Some p =>
           if truthy p
           then update_presupuestos (set_monto_periodicidad monto p)
                                    usuario_id categoria
           else update_presupuestos (set_monto monto) usuario_id categoria
         | None => update_presupuestos (set_monto monto) usuario_id categoria
         end ;;
    ret true.

(** [DELETE FROM presupuestos WHERE usuario_id = ? AND categoria = ?] *)
Definition delete_presupuestos (usuario_id categoria : str) : M DB unit :=
  fun db =>
    Ok (tt, mkDB (filter (fun r => negb (where_p usuario_id categoria r))
                         (presupuestos db))
                 (movimientos db) (seq_presupuestos db) (seq_movimientos db)).

(** [DELETE FROM movimientos WHERE usuario_id = ? AND categoria = ?] *)
Definition delete_movimientos (usuario_id categoria : str) : M DB unit :=
  fun db =>
    Ok (tt, mkDB (presupuestos db)
                 (filter (fun r => negb (where_m usuario_id categoria r))
                         (movimientos db))
                 (seq_presupuestos db) (seq_movimientos db)).

Definition eliminar_presupuesto (usuario_id categoria : str) : M DB bool :=
  existe <- query (fun db => presupuesto_existe db usuario_id categoria) ;;
  if negb existe then ret false
  else
    _ <- delete_presupuestos usuario_id categoria ;;
    _ <- delete_movimientos usuario_id categoria ;;
    ret true.

(** [INSERT INTO movimientos]: the constraint
    [CHECK (tipo IN ('gasto', 'ingreso'))] raises, otherwise the row is
    appended under the next rowid. *)
Definition insert_movimiento (m : Movimiento.t) : M DB unit :=
  fun db =>
    if negb (Str.mem (Movimiento.tipo m) [py "gasto"; py "ingreso"])
    then Raise IntegrityError
    else
      let n := (seq_movimientos db + 1)%N in
      let fila := mkFilaM n (Movimiento.usuario_id m)
                    (Movimiento.categoria m) (Movimiento.tipo m)
                    (Movimiento.monto m) (Movimiento.concepto m)
                    (Movimiento.fecha m) in
      Ok (tt, mkDB (presupuestos db) (movimientos db ++ [fila])
                   (seq_presupuestos db) n).

Definition registrar_movimiento (movimiento : Movimiento.t) : M DB bool :=
  _ <- insert_movimiento movimiento ;;
  ret true.

(** [ORDER BY fecha DESC]: a stable insertion sort, later dates first.
    SQLite leaves the order of rows with equal [fecha] unspecified; the
    properties below do not depend on the choice made here. *)
Fixpoint insert_desc (x : FilaMovimiento) (l : list FilaMovimiento)
    : list FilaMovimiento :=
  match l with
  | [] => [x]
  | y :: l' => if (m_fecha y <=? m_fecha x)%Z then x :: l
               else y :: insert_desc x l'
  end.

Definition order_by_fecha_desc (l : list FilaMovimiento)
    : list FilaMovimiento :=
  fold_right insert_desc [] l.

(** The loop over [cur.fetchall()] that builds the result objects. *)
Fixpoint construir (ahora : datetime) (usuario_id categoria : str)
    (rows : list FilaMovimiento) : res (list Movimiento.t) :=
  match rows with
  | [] => Ok []
  | row :: rows' =>
    match Movimiento.init ahora categoria (m_tipo row) (m_monto row)
            usuario_id (m_concepto row) (Some (m_fecha row))
            (Some (m_id row)) with
    | Raise e => Raise e
    | Ok movimiento =>
      match construir ahora usuario_id categoria rows' with
      | Raise e => Raise e
      | Ok movimientos => Ok (movimiento :: movimientos)
      end
    end
  end.

Definition obtener_historial (ahora : datetime) (usuario_id categoria : str)
    : M DB (list Movimiento.t) :=
  fun db =>
    let rows := order_by_fecha_desc
                  (filter (where_m usuario_id (strip (lower categoria)))
                          (movimientos db)) in
    match construir ahora usuario_id categoria rows with
    | Raise e => Raise e
    | Ok movimientos => Ok (movimientos, db)
    end.

(** [SUM(monto)]: NULL over no rows, else the sum in row order. *)
Definition sql_sum (l : list Q) : option Q :=
  match l with
  | [] => None
  | x :: l' => Some (fold_left Qplus l' x)
  end.

Definition coalesce (o : option Q) (d : Q) : Q :=
  match o with
  | Some q => q
  | None => d
  end.

(** [SELECT COALESCE(SUM(monto), 0) FROM movimientos
     WHERE usuario_id = ? AND categoria = ? AND tipo = ?] *)
Definition suma_movimientos (db : DB) (usuario_id categoria tipo : str) : Q :=
  coalesce
    (sql_sum (map m_monto
       (filter (fun r => where_m usuario_id categoria r
                         && Str.eqb (m_tipo r) tipo)
               (movimientos db))))
    0.

Definition obtener_resumen (db : DB) (usuario_id : str)
    : list ResumenPresupuesto.t :=
  map (fun r =>
         let categoria := p_categoria r in
         let monto := p_monto r in
         let periodicidad := p_periodicidad r in
         let gastos := suma_movimientos db usuario_id categoria (py "gasto") in
         let ingresos :=
           suma_movimientos db usuario_id categoria (py "ingreso") in
         let saldo := monto + ingresos - gastos in
         ResumenPresupuesto.mk categoria monto gastos ingresos saldo
                               periodicidad)
      (filter (fun r => Str.eqb (p_usuario_id r) usuario_id)
              (presupuestos db)).

(** The body of [eliminar_presupuesto] under a storage fault: [fallo]
    is the index of the statement of the transaction that raises, if
    any.  The two DELETE statements run on the connection's working
    copy; [conn.commit()] publishes it, and an exception rolls it back. *)
Definition eliminar_presupuesto_fallo (fallo : option nat)
    (usuario_id categoria : str) : M DB bool :=
  fun db =>
    if negb (presupuesto_existe db usuario_id categoria) then Ok (false, db)
    else
      match fallo with
      | Some 0%nat => Raise OperationalError
      | _ =>
        match delete_presupuestos usuario_id categoria db with
        | Raise e => Raise e
        | Ok (_, conn1) =>
          match fallo with
          | Some 1%nat => Raise OperationalError
          | _ =>
            match delete_movimientos usuario_id categoria conn1 with
            | Raise e => Raise e
            | Ok (_, conn2) => Ok (true, conn2)
            end
          end
        end
      end.

End SQLiteRepository.

(* ================================================================= *)
(** ** services.py *)

Definition periodicidades : list str :=
  [py "diario"; py "semanal"; py "mensual"; py "anual"].

Module PresupuestoService.

Open Scope monad_scope.

Definition crear_presupuesto (ahora : datetime) (usuario_id categoria : str)
    (monto : Q) (periodicidad : str) : M SQLiteRepository.DB (bool * str) :=
  if negb (truthy (strip categoria))
  then ret (false, py "La categoría no puede estar vacía")
  else if Qle_bool monto 0
  then ret (false, py "El monto debe ser mayor a 0")
  else if negb (Str.mem (lower periodicidad) periodicidades)
  then ret (false,
            py "Periodicidad debe ser: diario, semanal, mensual, anual")
  else
    let presupuesto :=
      Presupuesto.init ahora categoria monto (lower periodicidad)
                       usuario_id None None in
    success <- SQLiteRepository.crear_presupuesto presupuesto ;;
    if success
    then ret (true, py "Presupuesto '" ++ categoria
                      ++ py "' creado exitosamente")
    else ret (false, py "Ya existe un presupuesto para '" ++ categoria
                       ++ py "'").

Definition actualizar_presupuesto (usuario_id categoria : str) (monto : Q)
    (periodicidad : option str) : M SQLiteRepository.DB (bool * str) :=
  if Qle_bool monto 0
  then ret (false, py "El monto debe ser mayor a 0")
  else if match periodicidad with
          | Some p => truthy p && negb (Str.mem (lower p) periodicidades)
          | None => false
          end
  then ret (false,
            py "Periodicidad debe ser: diario, semanal, mensual, anual")
  else
    success <- SQLiteRepository.actualizar_presupuesto
                 usuario_id categoria monto periodicidad ;;
    if success
    then ret (true, py "Presupuesto '" ++ categoria
                      ++ py "' actualizado exitosamente")
    else ret (false, py "No existe presupuesto '" ++ categoria ++ py "'").

Definition eliminar_presupuesto (usuario_id categoria : str)
    : M SQLiteRepository.DB (bool * str) :=
  success <- SQLiteRepository.eliminar_presupuesto usuario_id categoria ;;
  if success
  then ret (true, py "Presupuesto '" ++ categoria
                    ++ py "' eliminado exitosamente")
  else ret (false, py "No existe presupuesto '" ++ categoria ++ py "'").

Definition obtener_resumen (db : SQLiteRepository.DB) (usuario_id : str)
    : list ResumenPresupuesto.t :=
  SQLiteRepository.obtener_resumen db usuario_id.

Definition presupuesto_existe (db : SQLiteRepository.DB)
    (usuario_id categoria : str) : bool :=
  SQLiteRepository.presupuesto_existe db usuario_id categoria.

End PresupuestoService.

Module MovimientoService.

Open Scope monad_scope.

Definition _registrar_movimiento (ahora : datetime)
    (usuario_id categoria tipo : str) (monto : Q) (concepto : str)
    : M SQLiteRepository.DB (bool * str) :=
  existe <- query (fun db =>
              PresupuestoService.presupuesto_existe db usuario_id categoria) ;;
  if negb existe
  then ret (false, py "No existe presupuesto '" ++ categoria
                     ++ py "'. Créalo primero con /crear")
  else if Qle_bool monto 0
  then ret (false, py "El monto debe ser mayor a 0")
  else
    try_ValueError
      (movimiento <- lift (Movimiento.init ahora categoria tipo monto
                             usuario_id concepto None None) ;;
       success <- SQLiteRepository.registrar_movimiento movimiento ;;
       if success
       then
         let accion := if Str.eqb tipo (py "gasto")
                       then py "Gasto registrado"
                       else py "Ingreso registrado" in
         ret (true,
              (py "💸 " ++ accion ++ py ": $" ++ format_miles monto
                 ++ py " en " ++ categoria)
              ++ (if truthy concepto then py " - " ++ concepto else []))
       else ret (false, py "Error al registrar el movimiento"))
      (fun e => ret (false, e)).

Definition registrar_gasto (ahora : datetime) (usuario_id categoria : str)
    (monto : Q) (concepto : str) : M SQLiteRepository.DB (bool * str) :=
  _registrar_movimiento ahora usuario_id categoria (py "gasto") monto concepto.

Definition registrar_ingreso (ahora : datetime) (usuario_id categoria : str)
    (monto : Q) (concepto : str) : M SQLiteRepository.DB (bool * str) :=
  _registrar_movimiento ahora usuario_id categoria (py "ingreso") monto
                        concepto.

Definition obtener_historial (ahora : datetime) (usuario_id categoria : str)
    : M SQLiteRepository.DB (bool * str * list Movimiento.t) :=
  existe <- query (fun db =>
              PresupuestoService.presupuesto_existe db usuario_id categoria) ;;
  if negb existe
  then ret (false, py "No existe presupuesto '" ++ categoria ++ py "'", [])
  else
    movimientos <- SQLiteRepository.obtener_historial
                     ahora usuario_id categoria ;;
    match movimientos with
    | [] => ret (false, py "No hay movimientos registrados para '"
                          ++ categoria ++ py "'", [])
    | _ => ret (true, py "Historial obtenido exitosamente", movimientos)
    end.

End MovimientoService.

Module MonevoFacade.

Definition crear_presupuesto := PresupuestoService.crear_presupuesto.
Definition actualizar_presupuesto := PresupuestoService.actualizar_presupuesto.
Definition eliminar_presupuesto := PresupuestoService.eliminar_presupuesto.
Definition obtener_resumen := PresupuestoService.obtener_resumen.
Definition registrar_gasto := MovimientoService.registrar_gasto.
Definition registrar_ingreso := MovimientoService.registrar_ingreso.
Definition obtener_historial := MovimientoService.obtener_historial.
Definition presupuesto_existe := PresupuestoService.presupuesto_existe.

End MonevoFacade.

(* ================================================================= *)
(** ** Regular expressions, as [re] runs the patterns of the parser

    The fragment the three patterns use: literals, bracket sets, the
    classes [\s], [\d], [\w] and [.], sequence, alternation, greedy [+]
    on a single-character item, greedy [?] and numbered groups, all
    under [re.IGNORECASE].  The matcher backtracks as [re] does: the
    first alternative and the longest repetition are tried first. *)

Module Re.

Inductive atom : Type :=
| Chr (c : N)
| Set_ (cs : list N)
| Space
| Digit
| Word
| Dot.

Inductive regex : Type :=
| At (a : atom)
| Seq (r1 r2 : regex)
| Alt (r1 r2 : regex)
| Plus (a : atom)
| Opt (r : regex)
| Group (n : nat) (r : regex).

(** One character against one item, ignoring case. *)
Definition atom_matches (a : atom) (x : N) : bool :=
  match a with
  | Chr c => (lower_cp x =? lower_cp c)%N
  | Set_ cs => existsb (fun c => (lower_cp x =? lower_cp c)%N) cs
  | Space => isspace x
  | Digit => isdecimal x
  | Word => isalnum x || (x =? 95)%N
  | Dot => negb (x =? 10)%N
  end.

(** The groups that took part in a match, most recent binding first. *)
Definition groups := list (nat * str).

Fixpoint group (n : nat) (g : groups) : option str :=
  match g with
  | [] => None
  | (k, s) :: g' => if Nat.eqb k n then Some s else group n g'
  end.

(** The text consumed between the suffix [s] and its suffix [s']. *)
Definition consumed (s s' : str) : str :=
  firstn (List.length s - List.length s') s.

(** Zero or more further characters of item [a], longest first. *)
Fixpoint star {A} (a : atom) (s : str) (k : str -> option A) : option A :=
  match s with
  | c :: s' =>
    if atom_matches a c
    then match star a s' k with
         | Some x => Some x
         | None => k s
         end
    else k s
  | [] => k s
  end.

(** [m r s g k]: match [r] at the head of [s] with groups [g], then
    hand the rest of the text and the groups to [k]; [None] makes the
    matcher backtrack. *)
Fixpoint m {A} (r : regex) (s : str) (g : groups)
    (k : str -> groups -> option A) : option A :=
  match r with
  | At a =>
    match s with
    | c :: s' => if atom_matches a c then k s' g else None
    | [] => None
    end
  | Seq r1 r2 => m r1 s g (fun s' g' => m r2 s' g' k)
  | Alt r1 r2 =>
    match m r1 s g k with
    | Some x => Some x
    | None => m r2 s g k
    end
  | Plus a =>
    match s with
    | c :: s' => if atom_matches a c then star a s' (fun s'' => k s'' g)
                 else None
    | [] => None
    end
  | Opt r1 =>
    match m r1 s g k with
    | Some x => Some x
    | None => k s g
    end
  | Group n r1 => m r1 s g (fun s' g' => k s' ((n, consumed s s') :: g'))
  end.

(** [pattern.search]: the match at the leftmost position that has one. *)
Fixpoint search (r : regex) (s : str) : option groups :=
  match m r s [] (fun _ g => Some g) with
  | Some g => Some g
  | None =>
    match s with
    | [] => None
    | _ :: s' => search r s'
    end
  end.

(** A literal word of the pattern. *)
Fixpoint lit (s : str) : regex :=
  match s with
  | [] => Opt (At (Set_ []))
  | [c] => At (Chr c)
  | c :: s' => Seq (At (Chr c)) (lit s')
  end.

Fixpoint seq (rs : list regex) : regex :=
  match rs with
  | [] => Opt (At (Set_ []))
  | [r] => r
  | r :: rs' => Seq r (seq rs')
  end.

End Re.

(* ================================================================= *)
(** ** message_parser.py *)

Inductive value : Type :=
| VInt (z : Z)
| VStr (s : str).

(** The dictionary [extract_data] builds: keys in insertion order. *)
Definition dict := list (str * value).

(** The interface [MessagePattern]. *)
Record MessagePattern : Type := {
  can_handle : str -> bool;
  extract_data : str -> option dict;
  get_action : str
}.

Definition is_some {A} (o : option A) : bool :=
  match o with Some _ => true | None => false end.

(** [match.group(n)] of a group every match binds. *)
Definition group_str (n : nat) (g : Re.groups) : str :=
  match Re.group n g with
  | Some s => s
  | None => []
  end.

(** The dictionary both movement patterns extract. *)
Definition extract_movimiento (pattern : Re.regex) (mensaje : str)
    : option dict :=
  match Re.search pattern mensaje with
  | Some g =>
    Some [ (py "monto", VInt (int_of_digits (group_str 2 g)));
           (py "categoria", VStr (strip (lower (group_str 4 g))));
           (py "concepto",
            VStr (match Re.group 6 g with
                  | Some s => if truthy s then strip s else []
                  | None => []
                  end)) ]
  | None => None
  end.

Module GastoPattern.

Import Re.

(** [(gast[ée]|saqué)\s+(\d+)\s+(de)\s+(\w+)(\s+por\s+(.+))?] *)
Definition pattern : regex :=
  seq [ Group 1 (Alt (Seq (lit (py "gast")) (At (Set_ (py "ée"))))
                     (lit (py "saqué")));
        Plus Space; Group 2 (Plus Digit);
        Plus Space; Group 3 (lit (py "de"));
        Plus Space; Group 4 (Plus Word);
        Opt (Group 5 (seq [ Plus Space; lit (py "por"); Plus Space;
                            Group 6 (Plus Dot) ])) ].

Definition self : MessagePattern := {|
  can_handle := fun mensaje => is_some (search pattern mensaje);
  extract_data := extract_movimiento pattern;
  get_action := py "gasto"
|}.

End GastoPattern.

Module IngresoPattern.

Import Re.

(** [(añad[íi]|agregu[ée]|sum[ée])\s+(\d+)\s+(a)\s+(\w+)(\s+por\s+(.+))?] *)
Definition pattern : regex :=
  seq [ Group 1 (Alt (Seq (lit (py "añad")) (At (Set_ (py "íi"))))
                (Alt (Seq (lit (py "agregu")) (At (Set_ (py "ée"))))
                     (Seq (lit (py "sum")) (At (Set_ (py "ée"))))));
        Plus Space; Group 2 (Plus Digit);
        Plus Space; Group 3 (lit (py "a"));
        Plus Space; Group 4 (Plus Word);
        Opt (Group 5 (seq [ Plus Space; lit (py "por"); Plus Space;
                            Group 6 (Plus Dot) ])) ].

Definition self : MessagePattern := {|
  can_handle := fun mensaje => is_some (search pattern mensaje);
  extract_data := extract_movimiento pattern;
  get_action := py "ingreso"
|}.

End IngresoPattern.

Module VerPresupuestoPattern.

Import Re.

(** [ver\s+(presupuesto\s+)?(\w+)] *)
Definition pattern : regex :=
  seq [ lit (py "ver"); Plus Space;
        Opt (Group 1 (Seq (lit (py "presupuesto")) (Plus Space)));
        Group 2 (Plus Word) ].

Definition self : MessagePattern := {|
  can_handle := fun mensaje => is_some (search pattern mensaje);
  extract_data := fun mensaje =>
    match search pattern mensaje with
    | Some g => Some [ (py "categoria",
                        VStr (strip (lower (group_str 2 g)))) ]
    | None => None
    end;
  get_action := py "ver_presupuesto"
|}.

End VerPresupuestoPattern.

Module MessageParser.

(** What [parse] returns when a pattern matched:
    [{'action': ..., 'data': ...}]. *)
Record Intent : Type := mkIntent {
  action : str;
  data : dict
}.

Definition patterns : list MessagePattern :=
  [ GastoPattern.self; IngresoPattern.self; VerPresupuestoPattern.self ].

(** Truth value of a dictionary: non-empty. *)
Definition truthy_dict (d : dict) : bool :=
  match d with [] => false | _ => true end.

(** The [for pattern in self.patterns] loop. *)
Fixpoint parse_loop (ps : list MessagePattern) (mensaje : str)
    : option Intent :=
  match ps with
  | [] => None
  | pattern :: ps' =>
    if can_handle pattern mensaje
    then match extract_data pattern mensaje with
         | Some d =>
           if truthy_dict d then Some (mkIntent (get_action pattern) d)
           else parse_loop ps' mensaje
         | None => parse_loop ps' mensaje
         end
    else parse_loop ps' mensaje
  end.

Definition parse (mensaje : str) : option Intent :=
  parse_loop patterns (strip mensaje).

End MessageParser.

(* ================================================================= *)
(** ** The public operations as commands

    What a caller of the facade can do to the store.  A call that
    raises leaves the store as it was. *)

Inductive operacion : Type :=
| OpCrear (ahora : datetime) (usuario_id categoria : str) (monto : Q)
          (periodicidad : str)
| OpActualizar (usuario_id categoria : str) (monto : Q)
               (periodicidad : option str)
| OpEliminar (usuario_id categoria : str)
| OpGasto (ahora : datetime) (usuario_id categoria : str) (monto : Q)
          (concepto : str)
| OpIngreso (ahora : datetime) (usuario_id categoria : str) (monto : Q)
            (concepto : str)
| OpHistorial (ahora : datetime) (usuario_id categoria : str).

Definition store_of {A} (db : SQLiteRepository.DB)
    (r : res (A * SQLiteRepository.DB)) : SQLiteRepository.DB :=
  match r with
  | Ok (_, db') => db'
  | Raise _ => db
  end.

Definition ejecutar (op : operacion) (db : SQLiteRepository.DB)
    : SQLiteRepository.DB :=
  match op with
  | OpCrear ahora u c monto per =>
    store_of db (MonevoFacade.crear_presupuesto ahora u c monto per db)
  | OpActualizar u c monto per =>
    store_of db (MonevoFacade.actualizar_presupuesto u c monto per db)
  | OpEliminar u c =>
    store_of db (MonevoFacade.eliminar_presupuesto u c db)
  | OpGasto ahora u c monto concepto =>
    store_of db (MonevoFacade.registrar_gasto ahora u c monto concepto db)
  | OpIngreso ahora u c monto concepto =>
    store_of db (MonevoFacade.registrar_ingreso ahora u c monto concepto db)
  | OpHistorial ahora u c =>
    store_of db (MonevoFacade.obtener_historial ahora u c db)
  end.

(** The store after a sequence of calls, first call first. *)
Definition ejecutar_todas (ops : list operacion) (db : SQLiteRepository.DB)
    : SQLiteRepository.DB :=
  fold_left (fun db op => ejecutar op db) ops db.

(** The normal form of a category: [categoria.lower().strip()]. *)
Definition normalizar (categoria : str) : str := strip (lower categoria).

(** Every stored category is in normal form. *)
Definition categorias_normalizadas (db : SQLiteRepository.DB) : Prop :=
  Forall (fun r => normalizar (SQLiteRepository.p_categoria r)
                   = SQLiteRepository.p_categoria r)
         (SQLiteRepository.presupuestos db)
  /\ Forall (fun r => normalizar (SQLiteRepository.m_categoria r)
                      = SQLiteRepository.m_categoria r)
            (SQLiteRepository.movimientos db).

(** The constraint [CHECK (tipo IN ('gasto', 'ingreso'))] holds of the
    table [movimientos]. *)
Definition tipos_validos (db : SQLiteRepository.DB) : Prop :=
  Forall (fun r => Str.mem (SQLiteRepository.m_tipo r)
                           [py "gasto"; py "ingreso"] = true)
         (SQLiteRepository.movimientos db).

(** The messages of the validation class. *)
Definition mensajes_validacion : list str :=
  [ py "La categoría no puede estar vacía";
    py "El monto debe ser mayor a 0";
    py "Periodicidad debe ser: diario, semanal, mensual, anual";
    py "Tipo debe ser 'gasto' o 'ingreso'" ].

(** The sum of a list of amounts, [0] for the empty list. *)
Definition suma (l : list Q) : Q := fold_right Qplus 0 l.

(** Equality of two texts, decided on the lists of code points. *)
Definition igual (a b : str) : bool :=
  if list_eq_dec N.eq_dec a b then true else false.

(** The movement rows stored under the key [(usuario_id, categoria)]:
    the rows whose user is [usuario_id] and whose category is
    [categoria], in the order of the table. *)
Definition movimientos_clave (db : SQLiteRepository.DB)
    (usuario_id categoria : str) : list SQLiteRepository.FilaMovimiento :=
  filter (fun r => igual (SQLiteRepository.m_usuario_id r) usuario_id
                   && igual (SQLiteRepository.m_categoria r) categoria)
         (SQLiteRepository.movimientos db).

(** The amounts of the movements of kind [tipo] stored under the key
    [(usuario_id, categoria)]. *)
Definition montos_de (db : SQLiteRepository.DB) (usuario_id categoria : str)
    (tipo : str) : list Q :=
  map SQLiteRepository.m_monto
    (filter (fun r => igual (SQLiteRepository.m_tipo r) tipo)
            (movimientos_clave db usuario_id categoria)).

(** The budgets a user owns. *)
Definition presupuestos_de (db : SQLiteRepository.DB) (usuario_id : str)
    : list SQLiteRepository.FilaPresupuesto :=
  filter (fun r => igual (SQLiteRepository.p_usuario_id r) usuario_id)
         (SQLiteRepository.presupuestos db).

(** A budget is stored for the key: some budget row carries the user
    and the normal form of the category. *)
Definition hay_presupuesto (db : SQLiteRepository.DB)
    (usuario_id categoria : str) : Prop :=
  exists r, In r (SQLiteRepository.presupuestos db)
            /\ SQLiteRepository.p_usuario_id r = usuario_id
            /\ SQLiteRepository.p_categoria r = normalizar categoria.

(** The object [obtener_historial] builds from a stored row when asked
    for [categoria]. *)
Definition movimiento_de_fila (usuario_id categoria : str)
    (row : SQLiteRepository.FilaMovimiento) : Movimiento.t :=
  Movimiento.mk (normalizar categoria) (SQLiteRepository.m_tipo row)
    (SQLiteRepository.m_monto row) usuario_id
    (SQLiteRepository.m_concepto row) (SQLiteRepository.m_fecha row)
    (Some (SQLiteRepository.m_id row)).

(* ================================================================= *)
(** ** message_parser.py: the message processor *)

(** [str.capitalize] of one leading code point (its title case) in the
    tabulated range. *)
Definition title_cp (c : N) : str :=
  if ((97 <=? c) && (c <=? 122))%N then [(c - 32)%N]
  else if (c =? 181)%N then [924%N]
  else if (c =? 223)%N then [83%N; 115%N]
  else if ((224 <=? c) && (c <=? 254) && negb (c =? 247))%N
  then [(c - 32)%N]
  else if (c =? 255)%N then [376%N]
  else [c].

Definition capitalize (s : str) : str :=
  match s with
  | [] => []
  | c :: r => title_cp c ++ lower r
  end.

(** [f"{q:.1f}"] *)
Definition format_1f (q : Q) : str :=
  let z := round_half_even (q * 10) in
  let n := Z.abs_N z in
  let body := digits (n / 10)%N ++ py "." ++ digits (n mod 10)%N in
  if (z <? 0)%Z then 45%N :: body
  else if Qle_bool 0 q then body else 45%N :: body.

(** The line break of the replies. *)
Definition nl : str := [10%N].

Module MessageProcessor.

(** What a call of the processor can raise: the exception of a
    subscript on a missing key, an exception of the store, or the
    exception Python raises when a value of the dictionary has not the
    type the built-in patterns give it.  The last two never occur on
    the output of the built-in parser. *)
Inductive error : Type :=
| KeyError (k : str)
| TipoInesperado
| Repositorio (e : exn).

Inductive resultado (A : Type) : Type :=
| Hecho (a : A) (db : SQLiteRepository.DB)
| Falla (e : error).

Arguments Hecho {A} a db.
Arguments Falla {A} e.

(** [data[k]] *)
Fixpoint getitem (data : dict) (k : str) : option value :=
  match data with
  | [] => None
  | (k', v) :: data' => if Str.eqb k' k then Some v else getitem data' k
  end.

(** The reply of a service call: its message, and the store it left. *)
Definition mensaje_de (r : res ((bool * str) * SQLiteRepository.DB))
    : resultado str :=
  match r with
  | Ok ((_, message), db') => Hecho message db'
  | Raise e => Falla (Repositorio e)
  end.

(** The three subscripts of [_handle_gasto] and [_handle_ingreso], in
    the order Python evaluates them, then the call of the service. *)
Definition con_datos_movimiento (data : dict)
    (k : str -> Q -> str -> resultado str) : resultado str :=
  match getitem data (py "categoria") with
  | None => Falla (KeyError (py "categoria"))
  | Some categoria =>
    match getitem data (py "monto") with
    | None => Falla (KeyError (py "monto"))
    | Some monto =>
      match getitem data (py "concepto") with
      | None => Falla (KeyError (py "concepto"))
      | Some concepto =>
        match categoria, monto, concepto with
        | VStr categoria, VInt monto, VStr concepto =>
          k categoria (inject_Z monto) concepto
        | _, _, _ => Falla TipoInesperado
        end
      end
    end
  end.

Definition _handle_gasto (ahora : datetime) (usuario_id : str) (data : dict)
    (db : SQLiteRepository.DB) : resultado str :=
  con_datos_movimiento data (fun categoria monto concepto =>
    mensaje_de (MonevoFacade.registrar_gasto ahora usuario_id categoria
                  monto concepto db)).

Definition _handle_ingreso (ahora : datetime) (usuario_id : str)
    (data : dict) (db : SQLiteRepository.DB) : resultado str :=
  con_datos_movimiento data (fun categoria monto concepto =>
    mensaje_de (MonevoFacade.registrar_ingreso ahora usuario_id categoria
                  monto concepto db)).

(** The [for resumen in resumenes] loop of [_handle_ver_presupuesto]. *)
Fixpoint buscar_resumen (categoria : str)
    (resumenes : list ResumenPresupuesto.t) : str :=
  match resumenes with
  | [] => py "⚠️ No se encontró presupuesto '" ++ categoria ++ py "'"
  | resumen :: resumenes' =>
    if Str.eqb (ResumenPresupuesto.categoria resumen) categoria
    then py "📊 Presupuesto " ++ capitalize categoria ++ py ":" ++ nl
         ++ py "💰 Saldo: $"
         ++ format_miles (ResumenPresupuesto.saldo resumen) ++ nl
         ++ py "📅 Periodicidad: "
         ++ ResumenPresupuesto.periodicidad resumen ++ nl
         ++ py "📈 Usado: "
         ++ format_1f (ResumenPresupuesto.porcentaje_usado resumen)
         ++ py "%"
    else buscar_resumen categoria resumenes'
  end.

Definition _handle_ver_presupuesto (usuario_id : str) (data : dict)
    (db : SQLiteRepository.DB) : resultado str :=
  match getitem data (py "categoria") with
  | None => Falla (KeyError (py "categoria"))
  | Some (VStr categoria) =>
    Hecho (buscar_resumen categoria
             (MonevoFacade.obtener_resumen db usuario_id)) db
  | Some _ => Falla TipoInesperado
  end.

Definition _get_help_message : str :=
  py "❌ No entendí el mensaje. Ejemplos:" ++ nl
  ++ py "• 'Gasté 3000 de moto por gasolina'" ++ nl
  ++ py "• 'Añadí 5000 a inversión por salario'" ++ nl
  ++ py "• 'Ver presupuesto moto'".

Definition process_message (ahora : datetime) (usuario_id mensaje : str)
    (db : SQLiteRepository.DB) : resultado str :=
  match MessageParser.parse mensaje with
  | None => Hecho _get_help_message db
  | Some result =>
    let action := MessageParser.action result in
    let data := MessageParser.data result in
    if Str.eqb action (py "gasto")
    then _handle_gasto ahora usuario_id data db
    else if Str.eqb action (py "ingreso")
    then _handle_ingreso ahora usuario_id data db
    else if Str.eqb action (py "ver_presupuesto")
    then _handle_ver_presupuesto usuario_id data db
    else Hecho _get_help_message db
  end.

End MessageProcessor.

(* ================================================================= *)
(** ** Stores, steps and predicates the properties are stated with *)

(** A string that does not begin with white space. *)
Definition sin_espacio_inicial (s : str) : Prop :=
  match s with
  | c :: _ => isspace c = false
  | [] => True
  end.

(** The store with one more budget row, under the next rowid. *)
Definition con_presupuesto (db : SQLiteRepository.DB) (ahora : datetime)
    (usuario_id categoria : str) (monto : Q) (periodicidad : str)
    : SQLiteRepository.DB :=
  let n := (SQLiteRepository.seq_presupuestos db + 1)%N in
  SQLiteRepository.mkDB
    (SQLiteRepository.presupuestos db
       ++ [SQLiteRepository.mkFilaP n usuario_id (normalizar categoria)
             monto periodicidad ahora])
    (SQLiteRepository.movimientos db) n
    (SQLiteRepository.seq_movimientos db).

(** The store with one more movement row, under the next rowid. *)
Definition con_movimiento (db : SQLiteRepository.DB) (ahora : datetime)
    (usuario_id categoria tipo : str) (monto : Q) (concepto : str)
    : SQLiteRepository.DB :=
  let n := (SQLiteRepository.seq_movimientos db + 1)%N in
  SQLiteRepository.mkDB
    (SQLiteRepository.presupuestos db)
    (SQLiteRepository.movimientos db
       ++ [SQLiteRepository.mkFilaM n usuario_id (normalizar categoria)
             tipo monto concepto ahora])
    (SQLiteRepository.seq_presupuestos db) n.

(** The store after the UPDATE statement that applies [set] to the rows
    of the key. *)
Definition con_update (db : SQLiteRepository.DB)
    (set : SQLiteRepository.FilaPresupuesto
           -> SQLiteRepository.FilaPresupuesto)
    (usuario_id categoria : str) : SQLiteRepository.DB :=
  SQLiteRepository.mkDB
    (map (fun r => if SQLiteRepository.where_p usuario_id categoria r
                   then set r else r)
         (SQLiteRepository.presupuestos db))
    (SQLiteRepository.movimientos db)
    (SQLiteRepository.seq_presupuestos db)
    (SQLiteRepository.seq_movimientos db).

(** The store after both DELETE statements for the key. *)
Definition sin_clave (db : SQLiteRepository.DB) (usuario_id categoria : str)
    : SQLiteRepository.DB :=
  SQLiteRepository.mkDB
    (filter (fun r => negb (SQLiteRepository.where_p usuario_id categoria r))
            (SQLiteRepository.presupuestos db))
    (filter (fun r => negb (SQLiteRepository.where_m usuario_id categoria r))
            (SQLiteRepository.movimientos db))
    (SQLiteRepository.seq_presupuestos db)
    (SQLiteRepository.seq_movimientos db).

(** One step of the store: every budget row afterwards either keeps
    the rowid and the category of a row that was there before, or
    carries a category in normal form; every movement row afterwards
    either was there before, or carries a category in normal form. *)
Definition paso_categorias (db db' : SQLiteRepository.DB) : Prop :=
  Forall (fun r' =>
            (exists r, In r (SQLiteRepository.presupuestos db)
                       /\ SQLiteRepository.p_id r = SQLiteRepository.p_id r'
                       /\ SQLiteRepository.p_categoria r
                          = SQLiteRepository.p_categoria r')
            \/ normalizar (SQLiteRepository.p_categoria r')
               = SQLiteRepository.p_categoria r')
         (SQLiteRepository.presupuestos db')
  /\ Forall (fun r' =>
               In r' (SQLiteRepository.movimientos db)
               \/ normalizar (SQLiteRepository.m_categoria r')
                  = SQLiteRepository.m_categoria r')
            (SQLiteRepository.movimientos db').

(** Later rows first. *)
Definition fecha_desc (a b : SQLiteRepository.FilaMovimiento) : Prop :=
  (SQLiteRepository.m_fecha b <= SQLiteRepository.m_fecha a)%Z.

(** The rows [obtener_historial] selects for a key. *)
Definition filas_de (db : SQLiteRepository.DB) (u c : str)
    : list SQLiteRepository.FilaMovimiento :=
  filter (SQLiteRepository.where_m u (normalizar c))
         (SQLiteRepository.movimientos db).

(** A store reached through the facade: user [u1] creates the budget
    ["  Moto "] of 100000, spends 15000 at time 10 and adds 5000 at
    time 20. *)
Definition db_ejemplo : SQLiteRepository.DB :=
  ejecutar_todas
    [ OpCrear 1%Z (py "u1") (py "  Moto ") 100000 (py "mensual");
      OpGasto 10%Z (py "u1") (py "moto") 15000 (py "gasolina");
      OpIngreso 20%Z (py "u1") (py "MOTO ") 5000 [] ]
    SQLiteRepository.init_db.

(** A store with two users and two categories, reached through the
    facade: [u1] and [u2] each hold a budget ["moto"], [u1] also holds
    ["comida"], and each budget has movements of its own. *)
Definition ops_varios : list operacion :=
  [ OpCrear 1%Z (py "u1") (py "  Moto ") 100000 (py "mensual");
    OpCrear 2%Z (py "u2") (py "moto") 500 (py "semanal");
    OpCrear 3%Z (py "u1") (py "comida") 300 (py "diario");
    OpGasto 10%Z (py "u1") (py "moto") 15000 (py "gasolina");
    OpGasto 11%Z (py "u2") (py "moto") 70 (py "aceite");
    OpIngreso 20%Z (py "u1") (py "MOTO ") 5000 [];
    OpGasto 21%Z (py "u1") (py "comida") 20 (py "pan");
    OpIngreso 22%Z (py "u2") (py "moto") 9 [] ].

Definition db_varios : SQLiteRepository.DB :=
  ejecutar_todas ops_varios SQLiteRepository.init_db.

(** The text can be bound as a parameter of a statement: it encodes in
    UTF-8, that is, no code point is a surrogate or lies beyond
    U+10FFFF. *)
Definition texto_utf8 (s : str) : bool :=
  forallb (fun c => ((c <? 55296) || (57343 <? c)) && (c <=? 1114111))%N s.

(** The text stays within U+0000..U+00FF, the range for which
    [lower], [strip] and the character classes are tabulated. *)
Definition latin1 (s : str) : bool := forallb (fun c => (c <=? 255)%N) s.


(** The bound of an INTEGER SQLite can bind: [2 ** 63]. *)
Definition limite_entero : Z := (2 ^ 63)%Z.

(** The number of digits [int] converts by default. *)
Definition max_str_digits : nat := 4300.

(** What the summary of one budget row must be: each field stated
    from the stored rows. *)
Definition resumen_correcto (db : SQLiteRepository.DB) (u : str)
    (p : SQLiteRepository.FilaPresupuesto) (r : ResumenPresupuesto.t)
    : Prop :=
  let c := SQLiteRepository.p_categoria p in
  ResumenPresupuesto.categoria r = c
  /\ ResumenPresupuesto.monto_inicial r = SQLiteRepository.p_monto p
  /\ ResumenPresupuesto.periodicidad r = SQLiteRepository.p_periodicidad p
  /\ ResumenPresupuesto.gastos r == suma (montos_de db u c (py "gasto"))
  /\ ResumenPresupuesto.ingresos r == suma (montos_de db u c (py "ingreso"))
  /\ (montos_de db u c (py "gasto") = [] -> ResumenPresupuesto.gastos r = 0)
  /\ (montos_de db u c (py "ingreso") = [] ->
      ResumenPresupuesto.ingresos r = 0)
  /\ ResumenPresupuesto.saldo r
     = ResumenPresupuesto.monto_inicial r + ResumenPresupuesto.ingresos r
       - ResumenPresupuesto.gastos r
  /\ (ResumenPresupuesto.monto_inicial r == 0 ->
      ResumenPresupuesto.porcentaje_usado r = 0)
  /\ (~ ResumenPresupuesto.monto_inicial r == 0 ->
      ResumenPresupuesto.porcentaje_usado r
      = ResumenPresupuesto.gastos r / ResumenPresupuesto.monto_inicial r
        * 100).

(** The store after user [u1] created the budget ["  Moto "]. *)
Definition db_moto : SQLiteRepository.DB :=
  ejecutar (OpCrear 1%Z (py "u1") (py "  Moto ") 100000 (py "mensual"))
           SQLiteRepository.init_db.



(* ================================================================= *)
(** ** Further store invariants *)

(** The key of a budget row. *)
Definition clave_p (r : SQLiteRepository.FilaPresupuesto) : str * str :=
  (SQLiteRepository.p_usuario_id r, SQLiteRepository.p_categoria r).

(** The constraint [UNIQUE(usuario_id, categoria)] holds. *)
Definition claves_unicas (db : SQLiteRepository.DB) : Prop :=
  NoDup (map clave_p (SQLiteRepository.presupuestos db)).

(** Every movement row is stored under the key of some budget row. *)
Definition sin_huerfanos (db : SQLiteRepository.DB) : Prop :=
  Forall (fun m => existsb (SQLiteRepository.where_p
                              (SQLiteRepository.m_usuario_id m)
                              (SQLiteRepository.m_categoria m))
                           (SQLiteRepository.presupuestos db) = true)
         (SQLiteRepository.movimientos db).

(** Rowids grow along each table and stay below the table's counter. *)
Definition rowids_crecientes (db : SQLiteRepository.DB) : Prop :=
  StronglySorted N.lt
    (map SQLiteRepository.p_id (SQLiteRepository.presupuestos db))
  /\ Forall (fun r => (SQLiteRepository.p_id r
                       <= SQLiteRepository.seq_presupuestos db)%N)
            (SQLiteRepository.presupuestos db)
  /\ StronglySorted N.lt
       (map SQLiteRepository.m_id (SQLiteRepository.movimientos db))
  /\ Forall (fun r => (SQLiteRepository.m_id r
                       <= SQLiteRepository.seq_movimientos db)%N)
            (SQLiteRepository.movimientos db).

(** Whether a call returned rather than raised. *)
Definition retorna {A} (r : res A) : Prop :=
  match r with
  | Ok _ => True
  | Raise _ => False
  end.

(** The user on whose behalf a command runs. *)
Definition usuario_de (op : operacion) : str :=
  match op with
  | OpCrear _ u _ _ _ => u
  | OpActualizar u _ _ _ => u
  | OpEliminar u _ => u
  | OpGasto _ u _ _ _ => u
  | OpIngreso _ u _ _ _ => u
  | OpHistorial _ u _ => u
  end.

(** The rows of one user in each table. *)
Definition de_usuario_p (u : str) (r : SQLiteRepository.FilaPresupuesto)
    : bool :=
  Str.eqb (SQLiteRepository.p_usuario_id r) u.

Definition de_usuario_m (u : str) (r : SQLiteRepository.FilaMovimiento)
    : bool :=
  Str.eqb (SQLiteRepository.m_usuario_id r) u.

(** [MessageParser.add_pattern] on the list of patterns. *)
Definition add_pattern (patterns : list MessagePattern)
    (pattern : MessagePattern) : list MessagePattern :=
  patterns ++ [pattern].

(** The shape of the data of a movement intent. *)
Definition datos_movimiento (d : dict) : Prop :=
  exists monto categoria concepto,
    d = [ (py "monto", VInt monto); (py "categoria", VStr categoria);
          (py "concepto", VStr concepto) ]
    /\ (0 <= monto)%Z
    /\ normalizar categoria = categoria
    /\ strip concepto = concepto.

(** The shape of the data of a view intent. *)
Definition datos_ver (d : dict) : Prop :=
  exists categoria,
    d = [ (py "categoria", VStr categoria) ]
    /\ normalizar categoria = categoria.

(* ================================================================= *)
(** ** Strings: normalisation *)

Arguments py : simpl never.

Unset Implicit Arguments.

Lemma eqb_eq (s t : str) : Str.eqb s t = true <-> s = t.
Proof.
  revert t; induction s as [|a s IH]; intros [|b t]; simpl;
    try (split; [discriminate | discriminate]); try tauto.
  rewrite andb_true_iff, N.eqb_eq, IH.
  split; [intros [-> ->]; reflexivity | intros H; inversion H; auto].
Qed.

Lemma eqb_refl (s : str) : Str.eqb s s = true.
Proof. apply eqb_eq; reflexivity. Qed.

Lemma eqb_neq (s t : str) : Str.eqb s t = false <-> s <> t.
Proof.
  destruct (Str.eqb s t) eqn:E.
  - apply eqb_eq in E; split; [discriminate | congruence].
  - split; [intros _ H; apply eqb_eq in H; congruence | reflexivity].
Qed.

(** The comparison of the code agrees with equality of texts. *)
Lemma igual_eqb (a b : str) : igual a b = Str.eqb a b.
Proof.
  unfold igual. destruct (list_eq_dec N.eq_dec a b) as [->|Hne].
  - symmetry; apply eqb_refl.
  - symmetry; apply eqb_neq; exact Hne.
Qed.


(** The existence check of the code finds a budget exactly when one is
    stored for the key. *)
Lemma hay_presupuesto_existe (db : SQLiteRepository.DB) (u c : str) :
  hay_presupuesto db u c
  <-> SQLiteRepository.presupuesto_existe db u c = true.
Proof.
  unfold hay_presupuesto, SQLiteRepository.presupuesto_existe.
  fold (normalizar c). rewrite existsb_exists.
  split; intros [r [Hr H]]; exists r; (split; [exact Hr|]).
  - destruct H as [Hu Hc]. unfold SQLiteRepository.where_p.
    rewrite Hu, Hc, !eqb_refl. reflexivity.
  - unfold SQLiteRepository.where_p in H.
    apply andb_true_iff in H as [Hu Hc].
    apply eqb_eq in Hu, Hc. split; assumption.
Qed.

Lemma no_hay_presupuesto_existe (db : SQLiteRepository.DB) (u c : str) :
  ~ hay_presupuesto db u c
  <-> SQLiteRepository.presupuesto_existe db u c = false.
Proof.
  rewrite hay_presupuesto_existe.
  destruct (SQLiteRepository.presupuesto_existe db u c);
    split; congruence.
Qed.

(** The WHERE clause of the code selects the movement rows of the key. *)
Lemma movimientos_clave_where (db : SQLiteRepository.DB) (u c : str) :
  movimientos_clave db u c
  = filter (SQLiteRepository.where_m u c) (SQLiteRepository.movimientos db).
Proof.
  unfold movimientos_clave. apply filter_ext. intros r.
  unfold SQLiteRepository.where_m. rewrite !igual_eqb. reflexivity.
Qed.

Ltac bools :=
  repeat (match goal with
          | |- context [(?a <=? ?b)%N] =>
            lazymatch a with
            | context [if _ then _ else _] => fail
            | _ => lazymatch b with
                   | context [if _ then _ else _] => fail
                   | _ => destruct (N.leb_spec a b)
                   end
            end
          | |- context [(?a =? ?b)%N] =>
            lazymatch a with
            | context [if _ then _ else _] => fail
            | _ => destruct (N.eqb_spec a b)
            end
          end; simpl; try lia);
  try reflexivity; try lia.

Lemma lower_cp_idem (c : N) : lower_cp (lower_cp c) = lower_cp c.
Proof. unfold lower_cp. bools. Qed.

Lemma isspace_lower_cp (c : N) : isspace (lower_cp c) = isspace c.
Proof. unfold isspace, lower_cp. bools. Qed.

Lemma lower_idem (s : str) : lower (lower s) = lower s.
Proof.
  unfold lower; rewrite map_map.
  apply map_ext; intros; apply lower_cp_idem.
Qed.

Lemma lstrip_lower (s : str) : lstrip (lower s) = lower (lstrip s).
Proof.
  induction s as [|c s IH]; simpl; [reflexivity|].
  rewrite isspace_lower_cp; destruct (isspace c); auto.
Qed.

Lemma rstrip_lower (s : str) : rstrip (lower s) = lower (rstrip s).
Proof.
  unfold rstrip, lower.
  rewrite <- map_rev.
  change (map lower_cp (rev s)) with (lower (rev s)).
  rewrite lstrip_lower. unfold lower. rewrite map_rev. reflexivity.
Qed.

Lemma strip_lower (s : str) : strip (lower s) = lower (strip s).
Proof. unfold strip; rewrite lstrip_lower, rstrip_lower; reflexivity. Qed.

Lemma lstrip_idem (s : str) : lstrip (lstrip s) = lstrip s.
Proof.
  induction s as [|c s IH]; simpl; [reflexivity|].
  destruct (isspace c) eqn:E; [exact IH | simpl; rewrite E; reflexivity].
Qed.

Lemma rstrip_idem (s : str) : rstrip (rstrip s) = rstrip s.
Proof. unfold rstrip; rewrite rev_involutive, lstrip_idem; reflexivity. Qed.

Lemma rstrip_snoc (s : str) (c : N) :
  rstrip (s ++ [c]) = if isspace c then rstrip s else s ++ [c].
Proof.
  unfold rstrip; rewrite rev_app_distr; simpl.
  destruct (isspace c); [reflexivity|].
  simpl; rewrite rev_involutive; reflexivity.
Qed.

Lemma lstrip_sin_espacio (s : str) : sin_espacio_inicial (lstrip s).
Proof.
  induction s as [|c s IH]; simpl; [exact I|].
  destruct (isspace c) eqn:E; [exact IH | exact E].
Qed.

Lemma lstrip_fix (s : str) : sin_espacio_inicial s -> lstrip s = s.
Proof. destruct s as [|c s]; simpl; [reflexivity | intros ->; reflexivity]. Qed.

Lemma rstrip_sin_espacio (s : str) :
  sin_espacio_inicial s -> sin_espacio_inicial (rstrip s).
Proof.
  induction s as [|c s IH] using rev_ind; [intros _; exact I|].
  intros H; rewrite rstrip_snoc.
  destruct (isspace c) eqn:E; [|exact H].
  apply IH. destruct s as [|d s]; [exact I | exact H].
Qed.

Lemma strip_idem (s : str) : strip (strip s) = strip s.
Proof.
  unfold strip.
  rewrite lstrip_fix by apply rstrip_sin_espacio, lstrip_sin_espacio.
  apply rstrip_idem.
Qed.

Lemma normalizar_idem (c : str) : normalizar (normalizar c) = normalizar c.
Proof.
  unfold normalizar.
  rewrite strip_lower, strip_idem, <- strip_lower, lower_idem.
  reflexivity.
Qed.

(** Closed goals: split the conjunctions, then evaluate each side. *)
Ltac evalua :=
  repeat match goal with |- _ /\ _ => split end;
  vm_compute; reflexivity.

(* ================================================================= *)
(** ** The intent parser *)

(** C8.  The parser maps the four literal inputs as specified: the
    expense sentence to action [gasto] with amount 3000, category
    [moto] and memo [gasolina]; the income sentence to action [ingreso]
    with amount 5000, category [inversión] and the empty memo; the view
    sentence to action [ver_presupuesto] with category [moto]; and
    ["hola que tal"] to no intent, returned as [None]. *)
Theorem C8_parser_literals :
  MessageParser.parse (py "Gasté 3000 de moto por gasolina")
  = Some (MessageParser.mkIntent (py "gasto")
            [ (py "monto", VInt 3000);
              (py "categoria", VStr (py "moto"));
              (py "concepto", VStr (py "gasolina")) ])
  /\ MessageParser.parse (py "Añadí 5000 a inversión")
     = Some (MessageParser.mkIntent (py "ingreso")
               [ (py "monto", VInt 5000);
                 (py "categoria", VStr (py "inversión"));
                 (py "concepto", VStr []) ])
  /\ MessageParser.parse (py "Ver presupuesto moto")
     = Some (MessageParser.mkIntent (py "ver_presupuesto")
               [ (py "categoria", VStr (py "moto")) ])
  /\ MessageParser.parse (py "hola que tal") = None.
Proof. evalua. Qed.

(* ================================================================= *)
(** ** Movements against a budget that does not exist *)

Ltac run :=
  unfold MonevoFacade.crear_presupuesto, MonevoFacade.actualizar_presupuesto,
    MonevoFacade.eliminar_presupuesto, MonevoFacade.registrar_gasto,
    MonevoFacade.registrar_ingreso, MonevoFacade.obtener_historial,
    MonevoFacade.presupuesto_existe, MonevoFacade.obtener_resumen,
    MovimientoService.registrar_gasto, MovimientoService.registrar_ingreso,
    MovimientoService._registrar_movimiento,
    MovimientoService.obtener_historial,
    PresupuestoService.crear_presupuesto,
    PresupuestoService.actualizar_presupuesto,
    PresupuestoService.eliminar_presupuesto,
    PresupuestoService.presupuesto_existe,
    PresupuestoService.obtener_resumen,
    SQLiteRepository.crear_presupuesto,
    SQLiteRepository.actualizar_presupuesto,
    SQLiteRepository.eliminar_presupuesto,
    SQLiteRepository.registrar_movimiento,
    try_ValueError, bind, ret, query, lift, raise in *.

Lemma registrar_sin_presupuesto (ahora : datetime)
    (usuario_id categoria tipo : str) (monto : Q) (concepto : str)
    (db : SQLiteRepository.DB) :
  PresupuestoService.presupuesto_existe db usuario_id categoria = false ->
  MovimientoService._registrar_movimiento ahora usuario_id categoria tipo
    monto concepto db
  = Ok ((false, py "No existe presupuesto '" ++ categoria
                  ++ py "'. Créalo primero con /crear"), db).
Proof.
  intros H. unfold MovimientoService._registrar_movimiento, bind, query, ret.
  rewrite H. reflexivity.
Qed.

(** C5.  When the budget service reports that no budget exists for
    [(usuario_id, categoria)], recording an expense and recording an
    income both fail with the message that asks to create the budget
    first, whatever the amount and memo, and the store is returned as
    it was: no movement is stored. *)
Theorem C5_movement_requires_budget (ahora : datetime)
    (usuario_id categoria : str) (monto : Q) (concepto : str)
    (db : SQLiteRepository.DB) :
  PresupuestoService.presupuesto_existe db usuario_id categoria = false ->
  MonevoFacade.registrar_gasto ahora usuario_id categoria monto concepto db
  = Ok ((false, py "No existe presupuesto '" ++ categoria
                  ++ py "'. Créalo primero con /crear"), db)
  /\ MonevoFacade.registrar_ingreso ahora usuario_id categoria monto
       concepto db
     = Ok ((false, py "No existe presupuesto '" ++ categoria
                     ++ py "'. Créalo primero con /crear"), db).
Proof.
  intros H; split; apply registrar_sin_presupuesto; exact H.
Qed.

Lemma C5_movement_requires_budget_witness :
  PresupuestoService.presupuesto_existe SQLiteRepository.init_db
    (py "u1") (py "moto") = false
  /\ MonevoFacade.registrar_gasto 7%Z (py "u1") (py "moto") 3000
       (py "gasolina") SQLiteRepository.init_db
     = Ok ((false, py "No existe presupuesto '" ++ py "moto"
                     ++ py "'. Créalo primero con /crear"),
           SQLiteRepository.init_db).
Proof.
  split; [reflexivity|].
  apply (proj1 (C5_movement_requires_budget 7%Z (py "u1") (py "moto") 3000
                  (py "gasolina") SQLiteRepository.init_db eq_refl)).
Defined.

(* ================================================================= *)
(** ** Creating a budget *)

Lemma existe_normalizar (db : SQLiteRepository.DB) (u c : str) :
  SQLiteRepository.presupuesto_existe db u (normalizar c)
  = SQLiteRepository.presupuesto_existe db u c.
Proof.
  unfold SQLiteRepository.presupuesto_existe.
  fold (normalizar (normalizar c)); fold (normalizar c).
  rewrite normalizar_idem; reflexivity.
Qed.


Lemma where_p_refl (r : SQLiteRepository.FilaPresupuesto) :
  SQLiteRepository.where_p (SQLiteRepository.p_usuario_id r)
    (SQLiteRepository.p_categoria r) r = true.
Proof. unfold SQLiteRepository.where_p; rewrite !eqb_refl; reflexivity. Qed.


Lemma crear_repo_nuevo (db : SQLiteRepository.DB) (ahora : datetime)
    (u c : str) (monto : Q) (per : str) :
  SQLiteRepository.presupuesto_existe db u c = false ->
  SQLiteRepository.crear_presupuesto
    (Presupuesto.init ahora c monto per u None None) db
  = Ok (true, con_presupuesto db ahora u c monto per).
Proof.
  intros H.
  unfold SQLiteRepository.crear_presupuesto, bind, query, ret,
    Presupuesto.init; simpl.
  fold (normalizar c). rewrite existe_normalizar, H.
  unfold SQLiteRepository.insert_presupuesto; simpl.
  change (existsb (SQLiteRepository.where_p u (normalizar c))
            (SQLiteRepository.presupuestos db))
    with (SQLiteRepository.presupuesto_existe db u c).
  rewrite H. reflexivity.
Qed.

Lemma crear_repo_existente (db : SQLiteRepository.DB) (ahora : datetime)
    (u c : str) (monto : Q) (per : str) :
  SQLiteRepository.presupuesto_existe db u c = true ->
  SQLiteRepository.crear_presupuesto
    (Presupuesto.init ahora c monto per u None None) db
  = Ok (false, db).
Proof.
  intros H.
  unfold SQLiteRepository.crear_presupuesto, bind, query, ret,
    Presupuesto.init; simpl.
  fold (normalizar c). rewrite existe_normalizar, H. reflexivity.
Qed.


Lemma Qle_bool_false (q : Q) : 0 < q -> Qle_bool q 0 = false.
Proof.
  intros H. destruct (Qle_bool q 0) eqn:E; [|reflexivity].
  apply Qle_bool_iff in E. exfalso. apply (Qlt_not_le _ _ H E).
Qed.





(* ================================================================= *)
(** ** Amounts that are not positive *)

Lemma Qle_bool_true (q : Q) : q <= 0 -> Qle_bool q 0 = true.
Proof. intros H; apply Qle_bool_iff; exact H. Qed.

Lemma registrar_monto_invalido (ahora : datetime) (u c tipo : str)
    (monto : Q) (concepto : str) (db : SQLiteRepository.DB) :
  monto <= 0 ->
  PresupuestoService.presupuesto_existe db u c = true ->
  MovimientoService._registrar_movimiento ahora u c tipo monto concepto db
  = Ok ((false, py "El monto debe ser mayor a 0"), db).
Proof.
  intros Hm He.
  unfold MovimientoService._registrar_movimiento, bind, query, ret.
  rewrite He; simpl. rewrite (Qle_bool_true _ Hm). reflexivity.
Qed.

(** C6, as the code has it.  For every amount [<= 0]: budget creation
    fails with a validation message, budget update fails with the
    amount message, and recording an expense or an income fails with
    the amount message when the budget exists and with the
    create-the-budget-first message when it does not; every one of
    these calls returns the store as it was. *)
Theorem C6_nonpositive_amount (monto : Q) :
  monto <= 0 ->
  (forall ahora u c per db,
     exists msg,
       MonevoFacade.crear_presupuesto ahora u c monto per db
       = Ok ((false, msg), db)
       /\ In msg mensajes_validacion)
  /\ (forall u c per db,
        MonevoFacade.actualizar_presupuesto u c monto per db
        = Ok ((false, py "El monto debe ser mayor a 0"), db)
        /\ In (py "El monto debe ser mayor a 0") mensajes_validacion)
  /\ (forall ahora u c concepto db,
        PresupuestoService.presupuesto_existe db u c = true ->
        MonevoFacade.registrar_gasto ahora u c monto concepto db
        = Ok ((false, py "El monto debe ser mayor a 0"), db)
        /\ MonevoFacade.registrar_ingreso ahora u c monto concepto db
           = Ok ((false, py "El monto debe ser mayor a 0"), db))
  /\ (forall ahora u c concepto db,
        PresupuestoService.presupuesto_existe db u c = false ->
        MonevoFacade.registrar_gasto ahora u c monto concepto db
        = Ok ((false, py "No existe presupuesto '" ++ c
                        ++ py "'. Créalo primero con /crear"), db)
        /\ MonevoFacade.registrar_ingreso ahora u c monto concepto db
           = Ok ((false, py "No existe presupuesto '" ++ c
                           ++ py "'. Créalo primero con /crear"), db)).
Proof.
  intros Hm. pose proof (Qle_bool_true _ Hm) as Hb.
  split.
  { intros ahora u c per db.
    unfold MonevoFacade.crear_presupuesto,
      PresupuestoService.crear_presupuesto.
    destruct (truthy (strip c)); cbv beta iota delta [negb].
    - rewrite Hb. eexists; split; [reflexivity|].
      right; left; reflexivity.
    - eexists; split; [reflexivity|].
      left; reflexivity. }
  split.
  { intros u c per db.
    unfold MonevoFacade.actualizar_presupuesto,
      PresupuestoService.actualizar_presupuesto.
    rewrite Hb. split; [reflexivity|].
    right; left; reflexivity. }
  split.
  { intros ahora u c concepto db He.
    split; apply registrar_monto_invalido; assumption. }
  intros ahora u c concepto db He.
  split; apply registrar_sin_presupuesto; assumption.
Qed.

Lemma C6_nonpositive_amount_witness :
  (-5 : Q) <= 0
  /\ MonevoFacade.actualizar_presupuesto (py "u1") (py "moto") (-5)
       (Some (py "mensual")) SQLiteRepository.init_db
     = Ok ((false, py "El monto debe ser mayor a 0"),
           SQLiteRepository.init_db).
Proof.
  assert (H : (-5 : Q) <= 0) by (unfold Qle; simpl; lia).
  split; [exact H|].
  exact (proj1 (proj1 (proj2 (C6_nonpositive_amount (-5) H))
                  (py "u1") (py "moto") (Some (py "mensual"))
                  SQLiteRepository.init_db)).
Defined.

(** C6 as stated does not hold for movement recording: on a store with
    no budget, recording an expense of amount [0] fails with the
    create-the-budget-first message, which is not a validation
    message. *)
Lemma C6_counterexample :
  MonevoFacade.registrar_gasto 7%Z (py "u1") (py "moto") 0 []
    SQLiteRepository.init_db
  = Ok ((false, py "No existe presupuesto 'moto'. Créalo primero con /crear"),
        SQLiteRepository.init_db)
  /\ ~ In (py "No existe presupuesto 'moto'. Créalo primero con /crear")
          mensajes_validacion.
Proof.
  split; [vm_compute; reflexivity|].
  intros H. vm_compute in H.
  repeat (destruct H as [H|H]; [discriminate H|]). exact H.
Qed.

(* ================================================================= *)
(** ** What each public operation does to the store *)

Lemma crear_store (ahora : datetime) (u c : str) (monto : Q) (per : str)
    (db : SQLiteRepository.DB) :
  ejecutar (OpCrear ahora u c monto per) db = db
  \/ ejecutar (OpCrear ahora u c monto per) db
     = con_presupuesto db ahora u c monto (lower per).
Proof.
  unfold ejecutar, MonevoFacade.crear_presupuesto,
    PresupuestoService.crear_presupuesto.
  destruct (truthy (strip c)); [|left; reflexivity].
  destruct (Qle_bool monto 0); [left; reflexivity|].
  destruct (Str.mem (lower per) periodicidades); [|left; reflexivity].
  cbv beta iota delta [negb]. unfold bind.
  destruct (SQLiteRepository.presupuesto_existe db u c) eqn:He.
  - rewrite (crear_repo_existente db ahora u c monto (lower per) He).
    left; reflexivity.
  - rewrite (crear_repo_nuevo db ahora u c monto (lower per) He).
    right; reflexivity.
Qed.

Lemma actualizar_repo (u c : str) (monto : Q) (per : option str)
    (db : SQLiteRepository.DB) :
  SQLiteRepository.actualizar_presupuesto u c monto per db
  = if SQLiteRepository.presupuesto_existe db u c
    then Ok (true,
             con_update db
               (match per with
                | Some p => if truthy p
                            then SQLiteRepository.set_monto_periodicidad
                                   monto p
                            else SQLiteRepository.set_monto monto
                | None => SQLiteRepository.set_monto monto
                end) u c)
    else Ok (false, db).
Proof.
  unfold SQLiteRepository.actualizar_presupuesto, bind, query, ret.
  destruct (SQLiteRepository.presupuesto_existe db u c);
    [|reflexivity].
  cbv beta iota delta [negb].
  destruct per as [p|]; [destruct (truthy p)|]; reflexivity.
Qed.

Lemma eliminar_repo (u c : str) (db : SQLiteRepository.DB) :
  SQLiteRepository.eliminar_presupuesto u c db
  = if SQLiteRepository.presupuesto_existe db u c
    then Ok (true, sin_clave db u c)
    else Ok (false, db).
Proof.
  unfold SQLiteRepository.eliminar_presupuesto, bind, query, ret.
  destruct (SQLiteRepository.presupuesto_existe db u c); reflexivity.
Qed.

Lemma actualizar_store (u c : str) (monto : Q) (per : option str)
    (db : SQLiteRepository.DB) :
  ejecutar (OpActualizar u c monto per) db = db
  \/ exists set,
       (forall r, SQLiteRepository.p_id (set r) = SQLiteRepository.p_id r
                  /\ SQLiteRepository.p_categoria (set r)
                     = SQLiteRepository.p_categoria r)
       /\ ejecutar (OpActualizar u c monto per) db = con_update db set u c.
Proof.
  unfold ejecutar, MonevoFacade.actualizar_presupuesto,
    PresupuestoService.actualizar_presupuesto.
  destruct (Qle_bool monto 0); [left; reflexivity|].
  match goal with |- context [if ?b then ret _ else _] => destruct b end;
    [left; reflexivity|].
  unfold bind. rewrite actualizar_repo.
  destruct (SQLiteRepository.presupuesto_existe db u c);
    [|left; reflexivity].
  right. eexists; split; [|reflexivity].
  intros r; destruct per as [p|]; [destruct (truthy p)|]; split; reflexivity.
Qed.

Lemma eliminar_store (u c : str) (db : SQLiteRepository.DB) :
  ejecutar (OpEliminar u c) db = db
  \/ ejecutar (OpEliminar u c) db = sin_clave db u c.
Proof.
  unfold ejecutar, MonevoFacade.eliminar_presupuesto,
    PresupuestoService.eliminar_presupuesto, bind.
  rewrite eliminar_repo.
  destruct (SQLiteRepository.presupuesto_existe db u c);
    [right|left]; reflexivity.
Qed.

Lemma mem_tipos (tipo : str) :
  tipo = py "gasto" \/ tipo = py "ingreso" ->
  Str.mem tipo [py "gasto"; py "ingreso"] = true.
Proof. intros [-> | ->]; vm_compute; reflexivity. Qed.

Lemma registrar_ok (ahora : datetime) (u c tipo : str) (monto : Q)
    (concepto : str) (db : SQLiteRepository.DB) :
  tipo = py "gasto" \/ tipo = py "ingreso" ->
  PresupuestoService.presupuesto_existe db u c = true ->
  0 < monto ->
  exists msg,
    MovimientoService._registrar_movimiento ahora u c tipo monto concepto db
    = Ok ((true, msg), con_movimiento db ahora u c tipo monto concepto).
Proof.
  intros Ht He Hm.
  unfold MovimientoService._registrar_movimiento, bind, query, ret.
  rewrite He; cbv beta iota delta [negb].
  rewrite (Qle_bool_false _ Hm).
  unfold try_ValueError, lift, Movimiento.init.
  rewrite (mem_tipos _ Ht); cbv beta iota delta [negb].
  unfold SQLiteRepository.registrar_movimiento, bind, ret,
    SQLiteRepository.insert_movimiento.
  cbv beta iota delta [Movimiento.tipo Movimiento.categoria
    Movimiento.monto Movimiento.usuario_id Movimiento.concepto
    Movimiento.fecha].
  rewrite (mem_tipos _ Ht); cbv beta iota delta [negb].
  eexists; reflexivity.
Qed.

Lemma registrar_store (ahora : datetime) (u c tipo : str) (monto : Q)
    (concepto : str) (db : SQLiteRepository.DB) :
  tipo = py "gasto" \/ tipo = py "ingreso" ->
  store_of db (MovimientoService._registrar_movimiento ahora u c tipo monto
                 concepto db) = db
  \/ store_of db (MovimientoService._registrar_movimiento ahora u c tipo
                    monto concepto db)
     = con_movimiento db ahora u c tipo monto concepto.
Proof.
  intros Ht.
  destruct (PresupuestoService.presupuesto_existe db u c) eqn:He.
  - destruct (Qle_bool monto 0) eqn:Hm.
    + left. unfold MovimientoService._registrar_movimiento, bind, query, ret.
      rewrite He; cbv beta iota delta [negb]. rewrite Hm. reflexivity.
    + right.
      assert (Hpos : 0 < monto).
      { apply Qnot_le_lt; intros Hle.
        apply Qle_bool_iff in Hle; congruence. }
      destruct (registrar_ok ahora u c tipo monto concepto db Ht He Hpos)
        as [msg ->].
      reflexivity.
  - left. rewrite registrar_sin_presupuesto by exact He. reflexivity.
Qed.

Lemma historial_store (ahora : datetime) (u c : str)
    (db : SQLiteRepository.DB) :
  ejecutar (OpHistorial ahora u c) db = db.
Proof.
  unfold ejecutar, MonevoFacade.obtener_historial,
    MovimientoService.obtener_historial, bind, query, ret.
  destruct (PresupuestoService.presupuesto_existe db u c);
    cbv beta iota delta [negb]; [|reflexivity].
  unfold SQLiteRepository.obtener_historial.
  destruct (SQLiteRepository.construir _ _ _ _) as [[|m ms]|e]; reflexivity.
Qed.

(* ================================================================= *)
(** ** Stored categories are in normal form *)

Lemma paso_refl (db : SQLiteRepository.DB) : paso_categorias db db.
Proof.
  split; apply Forall_forall; intros r Hr; left; [|exact Hr].
  exists r; auto.
Qed.

Lemma paso_con_presupuesto (db : SQLiteRepository.DB) (ahora : datetime)
    (u c : str) (monto : Q) (per : str) :
  paso_categorias db (con_presupuesto db ahora u c monto per).
Proof.
  split; cbn [con_presupuesto SQLiteRepository.presupuestos
              SQLiteRepository.movimientos].
  - apply Forall_app; split.
    + apply Forall_forall; intros r Hr; left; exists r; auto.
    + constructor; [|constructor]. right.
      cbn [SQLiteRepository.p_categoria]. apply normalizar_idem.
  - apply Forall_forall; intros r Hr; left; exact Hr.
Qed.

Lemma paso_con_movimiento (db : SQLiteRepository.DB) (ahora : datetime)
    (u c tipo : str) (monto : Q) (concepto : str) :
  paso_categorias db (con_movimiento db ahora u c tipo monto concepto).
Proof.
  split; cbn [con_movimiento SQLiteRepository.presupuestos
              SQLiteRepository.movimientos].
  - apply Forall_forall; intros r Hr; left; exists r; auto.
  - apply Forall_app; split.
    + apply Forall_forall; intros r Hr; left; exact Hr.
    + constructor; [|constructor]. right.
      cbn [SQLiteRepository.m_categoria]. apply normalizar_idem.
Qed.

Lemma paso_con_update (db : SQLiteRepository.DB)
    (set : SQLiteRepository.FilaPresupuesto
           -> SQLiteRepository.FilaPresupuesto) (u c : str) :
  (forall r, SQLiteRepository.p_id (set r) = SQLiteRepository.p_id r
             /\ SQLiteRepository.p_categoria (set r)
                = SQLiteRepository.p_categoria r) ->
  paso_categorias db (con_update db set u c).
Proof.
  intros Hset.
  split; cbn [con_update SQLiteRepository.presupuestos
              SQLiteRepository.movimientos].
  - apply Forall_forall; intros r' Hr'.
    apply in_map_iff in Hr' as [r [<- Hr]].
    left; exists r; split; [exact Hr|].
    destruct (SQLiteRepository.where_p u c r); [|auto].
    destruct (Hset r) as [-> ->]; auto.
  - apply Forall_forall; intros r Hr; left; exact Hr.
Qed.

Lemma paso_sin_clave (db : SQLiteRepository.DB) (u c : str) :
  paso_categorias db (sin_clave db u c).
Proof.
  split; cbn [sin_clave SQLiteRepository.presupuestos
              SQLiteRepository.movimientos];
    apply Forall_forall; intros r Hr; apply filter_In in Hr as [Hr _];
    left; [exists r; auto | exact Hr].
Qed.

Lemma tipo_gasto_ingreso_l : py "gasto" = py "gasto" \/ py "gasto" = py "ingreso".
Proof. left; reflexivity. Qed.

Lemma tipo_gasto_ingreso_r :
  py "ingreso" = py "gasto" \/ py "ingreso" = py "ingreso".
Proof. right; reflexivity. Qed.

Lemma paso_ejecutar (op : operacion) (db : SQLiteRepository.DB) :
  paso_categorias db (ejecutar op db).
Proof.
  destruct op as [ahora u c monto per | u c monto per | u c
                 | ahora u c monto concepto | ahora u c monto concepto
                 | ahora u c].
  - destruct (crear_store ahora u c monto per db) as [-> | ->];
      [apply paso_refl | apply paso_con_presupuesto].
  - destruct (actualizar_store u c monto per db) as [-> | [set [Hset ->]]];
      [apply paso_refl | apply paso_con_update; exact Hset].
  - destruct (eliminar_store u c db) as [-> | ->];
      [apply paso_refl | apply paso_sin_clave].
  - unfold ejecutar, MonevoFacade.registrar_gasto,
      MovimientoService.registrar_gasto.
    destruct (registrar_store ahora u c (py "gasto") monto concepto db
                tipo_gasto_ingreso_l) as [-> | ->];
      [apply paso_refl | apply paso_con_movimiento].
  - unfold ejecutar, MonevoFacade.registrar_ingreso,
      MovimientoService.registrar_ingreso.
    destruct (registrar_store ahora u c (py "ingreso") monto concepto db
                tipo_gasto_ingreso_r) as [-> | ->];
      [apply paso_refl | apply paso_con_movimiento].
  - rewrite historial_store; apply paso_refl.
Qed.

Lemma paso_preserva (db db' : SQLiteRepository.DB) :
  categorias_normalizadas db -> paso_categorias db db' ->
  categorias_normalizadas db'.
Proof.
  intros [Hp Hm] [Sp Sm]; split.
  - rewrite Forall_forall in *. intros r' Hr'.
    destruct (Sp r' Hr') as [[r [Hr [_ Hc]]] | H]; [|exact H].
    rewrite <- Hc; apply Hp; exact Hr.
  - rewrite Forall_forall in *. intros r' Hr'.
    destruct (Sm r' Hr') as [Hr | H]; [apply Hm; exact Hr | exact H].
Qed.

Lemma normalizadas_ejecutar_todas (ops : list operacion)
    (db : SQLiteRepository.DB) :
  categorias_normalizadas db -> categorias_normalizadas (ejecutar_todas ops db).
Proof.
  revert db; induction ops as [|op ops IH]; intros db H; [exact H|].
  simpl. apply IH. apply (paso_preserva db); [exact H | apply paso_ejecutar].
Qed.

(** C10.  Both entity constructors put the category in normal form;
    every public operation leaves each stored row with the category it
    had or writes a row whose category is in normal form; and so in
    every store reachable from the empty one through the public
    operations each budget row and each movement row holds a category
    equal to its own lowercased, trimmed form. *)
Theorem C10_stored_categories_normalized :
  (forall ahora c monto per u id creado_en,
     normalizar (Presupuesto.categoria
                   (Presupuesto.init ahora c monto per u id creado_en))
     = Presupuesto.categoria
         (Presupuesto.init ahora c monto per u id creado_en))
  /\ (forall ahora c tipo monto u concepto fecha id,
        match Movimiento.init ahora c tipo monto u concepto fecha id with
        | Ok m => normalizar (Movimiento.categoria m) = Movimiento.categoria m
        | Raise _ => True
        end)
  /\ (forall op db, paso_categorias db (ejecutar op db))
  /\ (forall ops,
        categorias_normalizadas
          (ejecutar_todas ops SQLiteRepository.init_db)).
Proof.
  split; [intros; apply normalizar_idem|].
  split.
  { intros. unfold Movimiento.init.
    destruct (negb (Str.mem tipo [py "gasto"; py "ingreso"])); [exact I|].
    apply normalizar_idem. }
  split; [apply paso_ejecutar|].
  intros ops. apply normalizadas_ejecutar_todas.
  split; constructor.
Qed.

(* ================================================================= *)
(** ** History of a budget *)

Lemma insert_desc_perm (x : SQLiteRepository.FilaMovimiento)
    (l : list SQLiteRepository.FilaMovimiento) :
  Permutation (x :: l) (SQLiteRepository.insert_desc x l).
Proof.
  induction l as [|y l IH]; simpl; [apply Permutation_refl|].
  destruct (SQLiteRepository.m_fecha y <=? SQLiteRepository.m_fecha x)%Z.
  - apply Permutation_refl.
  - apply perm_trans with (y :: x :: l); [apply perm_swap|].
    apply perm_skip; exact IH.
Qed.

Lemma order_by_perm (l : list SQLiteRepository.FilaMovimiento) :
  Permutation l (SQLiteRepository.order_by_fecha_desc l).
Proof.
  induction l as [|x l IH]; simpl; [apply perm_nil|].
  apply perm_trans with (x :: SQLiteRepository.order_by_fecha_desc l).
  - apply perm_skip; exact IH.
  - apply insert_desc_perm.
Qed.

Lemma insert_desc_sorted (x : SQLiteRepository.FilaMovimiento)
    (l : list SQLiteRepository.FilaMovimiento) :
  StronglySorted fecha_desc l ->
  StronglySorted fecha_desc (SQLiteRepository.insert_desc x l).
Proof.
  induction l as [|y l IH]; intros Hs; simpl.
  - constructor; constructor.
  - inversion Hs as [|? ? Hl Hy]; subst.
    destruct (SQLiteRepository.m_fecha y <=? SQLiteRepository.m_fecha x)%Z
      eqn:E.
    + apply Z.leb_le in E. constructor; [exact Hs|].
      constructor; [exact E|].
      rewrite Forall_forall in *. intros z Hz.
      unfold fecha_desc in *. specialize (Hy z Hz). lia.
    + apply Z.leb_gt in E. constructor; [apply IH; exact Hl|].
      apply (Permutation_Forall (insert_desc_perm x l)).
      constructor; [unfold fecha_desc; lia | exact Hy].
Qed.

Lemma order_by_sorted (l : list SQLiteRepository.FilaMovimiento) :
  StronglySorted fecha_desc (SQLiteRepository.order_by_fecha_desc l).
Proof.
  induction l as [|x l IH]; simpl; [constructor|].
  apply insert_desc_sorted; exact IH.
Qed.

Lemma insert_desc_snoc (x : SQLiteRepository.FilaMovimiento)
    (l : list SQLiteRepository.FilaMovimiento) :
  Forall (fun y => (SQLiteRepository.m_fecha x
                    < SQLiteRepository.m_fecha y)%Z) l ->
  SQLiteRepository.insert_desc x l = l ++ [x].
Proof.
  induction 1 as [|y l Hy Hl IH]; simpl; [reflexivity|].
  destruct (SQLiteRepository.m_fecha y <=? SQLiteRepository.m_fecha x)%Z
    eqn:E; [apply Z.leb_le in E; lia|].
  rewrite IH; reflexivity.
Qed.

(** Rows inserted with increasing dates come back in reverse. *)
Lemma order_by_increasing (l : list SQLiteRepository.FilaMovimiento) :
  StronglySorted (fun a b => (SQLiteRepository.m_fecha a
                              < SQLiteRepository.m_fecha b)%Z) l ->
  SQLiteRepository.order_by_fecha_desc l = rev l.
Proof.
  induction 1 as [|x l Hl IH Hx]; simpl; [reflexivity|].
  rewrite IH. apply insert_desc_snoc.
  apply Forall_forall; intros y Hy. apply in_rev in Hy.
  rewrite Forall_forall in Hx. apply Hx; exact Hy.
Qed.

Lemma construir_ok (ahora : datetime) (u c : str)
    (rows : list SQLiteRepository.FilaMovimiento) :
  Forall (fun r => Str.mem (SQLiteRepository.m_tipo r)
                           [py "gasto"; py "ingreso"] = true) rows ->
  SQLiteRepository.construir ahora u c rows
  = Ok (map (movimiento_de_fila u c) rows).
Proof.
  induction 1 as [|r rows Hr Hrows IH]; [reflexivity|].
  cbn [SQLiteRepository.construir map]. unfold Movimiento.init.
  rewrite Hr, IH. reflexivity.
Qed.

Lemma sorted_map_fecha (l : list SQLiteRepository.FilaMovimiento)
    (u c : str) :
  StronglySorted fecha_desc l ->
  StronglySorted (fun a b => (Movimiento.fecha b <= Movimiento.fecha a)%Z)
                 (map (movimiento_de_fila u c) l).
Proof.
  induction 1 as [|x l Hl IH Hx]; simpl; constructor; [exact IH|].
  apply Forall_forall; intros m Hm.
  apply in_map_iff in Hm as [y [<- Hy]].
  rewrite Forall_forall in Hx. exact (Hx y Hy).
Qed.

Lemma mensajes_historial_distintos (c : str) :
  py "No existe presupuesto '" ++ c ++ py "'"
  <> py "No hay movimientos registrados para '" ++ c ++ py "'".
Proof.
  intros H.
  apply (f_equal (fun s => nth 3 s 0%N)) in H.
  vm_compute in H. discriminate H.
Qed.

Lemma historial_repo (ahora : datetime) (u c : str)
    (db : SQLiteRepository.DB) :
  tipos_validos db ->
  SQLiteRepository.obtener_historial ahora u c db
  = Ok (map (movimiento_de_fila u c)
          (SQLiteRepository.order_by_fecha_desc (filas_de db u c)), db).
Proof.
  intros Ht. unfold SQLiteRepository.obtener_historial.
  fold (normalizar c). fold (filas_de db u c).
  rewrite construir_ok; [reflexivity|].
  apply (Permutation_Forall (order_by_perm _)).
  apply Forall_forall; intros r Hr.
  apply filter_In in Hr as [Hr _].
  unfold tipos_validos in Ht; rewrite Forall_forall in Ht.
  apply Ht; exact Hr.
Qed.

Lemma tipos_ejecutar (op : operacion) (db : SQLiteRepository.DB) :
  tipos_validos db -> tipos_validos (ejecutar op db).
Proof.
  intros Ht.
  assert (Hcon : forall ahora u c tipo monto concepto,
            tipo = py "gasto" \/ tipo = py "ingreso" ->
            tipos_validos (con_movimiento db ahora u c tipo monto concepto)).
  { intros ahora u c tipo monto concepto Htipo.
    unfold tipos_validos, con_movimiento;
      cbn [SQLiteRepository.movimientos].
    apply Forall_app; split; [exact Ht|].
    constructor; [|constructor].
    cbn [SQLiteRepository.m_tipo]. apply mem_tipos; exact Htipo. }
  destruct op as [ahora u c monto per | u c monto per | u c
                 | ahora u c monto concepto | ahora u c monto concepto
                 | ahora u c].
  - destruct (crear_store ahora u c monto per db) as [-> | ->];
      exact Ht.
  - destruct (actualizar_store u c monto per db) as [-> | [set [_ ->]]];
      exact Ht.
  - destruct (eliminar_store u c db) as [-> | ->]; [exact Ht|].
    unfold tipos_validos, sin_clave; cbn [SQLiteRepository.movimientos].
    apply Forall_forall; intros r Hr. apply filter_In in Hr as [Hr _].
    unfold tipos_validos in Ht; rewrite Forall_forall in Ht; auto.
  - unfold ejecutar, MonevoFacade.registrar_gasto,
      MovimientoService.registrar_gasto.
    destruct (registrar_store ahora u c (py "gasto") monto concepto db
                tipo_gasto_ingreso_l) as [-> | ->];
      [exact Ht | apply Hcon; left; reflexivity].
  - unfold ejecutar, MonevoFacade.registrar_ingreso,
      MovimientoService.registrar_ingreso.
    destruct (registrar_store ahora u c (py "ingreso") monto concepto db
                tipo_gasto_ingreso_r) as [-> | ->];
      [exact Ht | apply Hcon; right; reflexivity].
  - rewrite historial_store; exact Ht.
Qed.

Lemma tipos_ejecutar_todas (ops : list operacion)
    (db : SQLiteRepository.DB) :
  tipos_validos db -> tipos_validos (ejecutar_todas ops db).
Proof.
  revert db; induction ops as [|op ops IH]; intros db H; [exact H|].
  simpl. apply IH, tipos_ejecutar, H.
Qed.

Lemma filas_de_clave (db : SQLiteRepository.DB) (u c : str) :
  filas_de db u c = movimientos_clave db u (normalizar c).
Proof. unfold filas_de. rewrite movimientos_clave_where. reflexivity. Qed.

(** C7.  On a store whose movement rows satisfy the table's CHECK
    constraint (every store the public operations reach): the history
    of a key for which no budget is stored fails with the
    budget-not-found message; the history of a key with a budget and no
    movement row fails with the no-movements message, a different
    message; otherwise it succeeds and returns the movements stored
    under that user and the normal form of that category, all of them
    and no other, in order of descending date; and when those rows were
    inserted with increasing dates the result is exactly those rows in
    reverse order of insertion.  The store is returned as it was. *)
Theorem C7_history (ahora : datetime) (u c : str)
    (db : SQLiteRepository.DB) :
  tipos_validos db ->
  (~ hay_presupuesto db u c ->
   MonevoFacade.obtener_historial ahora u c db
   = Ok ((false, py "No existe presupuesto '" ++ c ++ py "'", []), db))
  /\ (hay_presupuesto db u c ->
      movimientos_clave db u (normalizar c) = [] ->
      MonevoFacade.obtener_historial ahora u c db
      = Ok ((false,
             py "No hay movimientos registrados para '" ++ c ++ py "'", []),
            db))
  /\ py "No existe presupuesto '" ++ c ++ py "'"
     <> py "No hay movimientos registrados para '" ++ c ++ py "'"
  /\ (hay_presupuesto db u c ->
      movimientos_clave db u (normalizar c) <> [] ->
      exists ms,
        MonevoFacade.obtener_historial ahora u c db
        = Ok ((true, py "Historial obtenido exitosamente", ms), db)
        /\ Permutation
             (map (movimiento_de_fila u c)
                  (movimientos_clave db u (normalizar c))) ms
        /\ StronglySorted
             (fun a b => (Movimiento.fecha b <= Movimiento.fecha a)%Z) ms
        /\ (StronglySorted
              (fun a b => (SQLiteRepository.m_fecha a
                           < SQLiteRepository.m_fecha b)%Z)
              (movimientos_clave db u (normalizar c)) ->
            ms = map (movimiento_de_fila u c)
                     (rev (movimientos_clave db u (normalizar c))))).
Proof.
  intros Ht.
  rewrite <- filas_de_clave.
  unfold MonevoFacade.obtener_historial,
    MovimientoService.obtener_historial, PresupuestoService.presupuesto_existe,
    bind, query, ret.
  split.
  { intros Hno. apply no_hay_presupuesto_existe in Hno. rewrite Hno.
    reflexivity. }
  split.
  { intros He Hrows. apply hay_presupuesto_existe in He. rewrite He.
    cbv beta iota delta [negb].
    rewrite (historial_repo ahora u c db Ht), Hrows. reflexivity. }
  split; [apply mensajes_historial_distintos|].
  intros He Hrows. apply hay_presupuesto_existe in He. rewrite He.
  cbv beta iota delta [negb].
  rewrite (historial_repo ahora u c db Ht).
  exists (map (movimiento_de_fila u c)
            (SQLiteRepository.order_by_fecha_desc (filas_de db u c))).
  split.
  { destruct (SQLiteRepository.order_by_fecha_desc (filas_de db u c))
      as [|r rs] eqn:E; [|reflexivity].
    exfalso; apply Hrows.
    apply Permutation_nil. rewrite <- E.
    apply Permutation_sym, order_by_perm. }
  split; [apply Permutation_map, order_by_perm|].
  split; [apply sorted_map_fecha, order_by_sorted|].
  intros Hinc. rewrite (order_by_increasing _ Hinc). reflexivity.
Qed.

Lemma tipos_validos_init : tipos_validos SQLiteRepository.init_db.
Proof. constructor. Qed.

Lemma C7_history_witness :
  tipos_validos db_varios
  /\ hay_presupuesto db_varios (py "u1") (py " Moto")
  /\ map SQLiteRepository.m_id (SQLiteRepository.movimientos db_varios)
     = [1; 2; 3; 4; 5]%N
  /\ map SQLiteRepository.m_id
         (movimientos_clave db_varios (py "u1") (normalizar (py " Moto")))
     = [1; 3]%N
  /\ exists ms,
       MonevoFacade.obtener_historial 30%Z (py "u1") (py " Moto") db_varios
       = Ok ((true, py "Historial obtenido exitosamente", ms), db_varios)
       /\ Permutation
            (map (movimiento_de_fila (py "u1") (py " Moto"))
                 (movimientos_clave db_varios (py "u1")
                    (normalizar (py " Moto")))) ms
       /\ StronglySorted
            (fun a b => (Movimiento.fecha b <= Movimiento.fecha a)%Z) ms
       /\ (StronglySorted
             (fun a b => (SQLiteRepository.m_fecha a
                          < SQLiteRepository.m_fecha b)%Z)
             (movimientos_clave db_varios (py "u1")
                (normalizar (py " Moto"))) ->
           ms = map (movimiento_de_fila (py "u1") (py " Moto"))
                    (rev (movimientos_clave db_varios (py "u1")
                            (normalizar (py " Moto"))))).
Proof.
  assert (Ht : tipos_validos db_varios)
    by (apply tipos_ejecutar_todas, tipos_validos_init).
  assert (He : hay_presupuesto db_varios (py "u1") (py " Moto"))
    by (apply hay_presupuesto_existe; vm_compute; reflexivity).
  assert (Hf : movimientos_clave db_varios (py "u1")
                 (normalizar (py " Moto")) <> [])
    by (intros H; vm_compute in H; discriminate H).
  split; [exact Ht|]. split; [exact He|].
  split; [vm_compute; reflexivity|].
  split; [vm_compute; reflexivity|].
  exact (proj2 (proj2 (proj2
           (C7_history 30%Z (py "u1") (py " Moto") db_varios Ht))) He Hf).
Defined.

(** The history of [u1] for ["moto"] in the store of two users: the
    two movements of that user and category, the later one first. *)
Example historial_varios :
  MonevoFacade.obtener_historial 30%Z (py "u1") (py " Moto") db_varios
  = Ok ((true, py "Historial obtenido exitosamente",
         [ Movimiento.mk (py "moto") (py "ingreso") 5000 (py "u1") []
             20%Z (Some 3%N);
           Movimiento.mk (py "moto") (py "gasto") 15000 (py "u1")
             (py "gasolina") 10%Z (Some 1%N) ]),
        db_varios).
Proof. vm_compute; reflexivity. Qed.

Example historial_ejemplo :
  MonevoFacade.obtener_historial 30%Z (py "u1") (py " Moto") db_ejemplo
  = Ok ((true, py "Historial obtenido exitosamente",
         [ Movimiento.mk (py "moto") (py "ingreso") 5000 (py "u1") []
             20%Z (Some 2%N);
           Movimiento.mk (py "moto") (py "gasto") 15000 (py "u1")
             (py "gasolina") 10%Z (Some 1%N) ]),
        db_ejemplo).
Proof. vm_compute; reflexivity. Qed.

(* ================================================================= *)
(** ** Summary of a user's budgets *)

Lemma filter_filter {A} (f g : A -> bool) (l : list A) :
  filter f (filter g l) = filter (fun x => g x && f x) l.
Proof.
  induction l as [|x l IH]; simpl; [reflexivity|].
  destruct (g x); simpl; [destruct (f x)|]; rewrite IH; reflexivity.
Qed.

Lemma fold_left_suma (l : list Q) (a : Q) :
  fold_left Qplus l a == a + suma l.
Proof.
  revert a; induction l as [|x l IH]; intros a; simpl.
  - ring.
  - rewrite IH. ring.
Qed.

Lemma coalesce_sum_suma (l : list Q) :
  SQLiteRepository.coalesce (SQLiteRepository.sql_sum l) 0 == suma l.
Proof.
  destruct l as [|x l]; simpl; [reflexivity|].
  apply fold_left_suma.
Qed.

Lemma suma_movimientos_spec (db : SQLiteRepository.DB) (u c tipo : str) :
  SQLiteRepository.suma_movimientos db u c tipo
  = SQLiteRepository.coalesce
      (SQLiteRepository.sql_sum (montos_de db u c tipo)) 0.
Proof.
  unfold SQLiteRepository.suma_movimientos, montos_de.
  rewrite movimientos_clave_where, filter_filter.
  do 3 f_equal. apply filter_ext. intros r.
  rewrite igual_eqb. reflexivity.
Qed.

Lemma Forall2_map_r {A B} (P : A -> B -> Prop) (f : A -> B) (l : list A) :
  (forall x, P x (f x)) -> Forall2 P l (map f l).
Proof. intros H; induction l; simpl; constructor; auto. Qed.

Lemma presupuestos_de_select (db : SQLiteRepository.DB) (u : str) :
  presupuestos_de db u
  = filter (fun r => Str.eqb (SQLiteRepository.p_usuario_id r) u)
           (SQLiteRepository.presupuestos db).
Proof.
  unfold presupuestos_de. apply filter_ext. intros r. apply igual_eqb.
Qed.

(** C1.  For every store and user, the summary lists, in order, one
    entry per budget row the user owns; in each entry the expenses are
    the sum of the amounts of the movements of kind [gasto] stored
    under that user and that category, and the income the sum of those
    of kind [ingreso], each [0] when there is none; the balance is
    initial amount plus income minus expenses; the used percentage is
    expenses over initial amount times 100, and [0] when the initial
    amount is [0].  The rows a user owns and the movements of a key
    are stated on the stored rows by equality of texts, and amounts are
    exact rationals.  In particular, in a store where two users hold a
    budget of the same category, a budget of 100000 with one expense of
    15000 and one income of 5000 has balance 90000 and used percentage
    15, and the movements of the other user and of the other category
    are not counted in it. *)
Theorem C1_summary (db : SQLiteRepository.DB) (u : str) :
  Forall2 (resumen_correcto db u) (presupuestos_de db u)
          (MonevoFacade.obtener_resumen db u)
  /\ MonevoFacade.obtener_resumen db_varios (py "u1")
     = [ ResumenPresupuesto.mk (py "moto") 100000 15000 5000 90000
           (py "mensual");
         ResumenPresupuesto.mk (py "comida") 300 20 0 280 (py "diario") ]
  /\ MonevoFacade.obtener_resumen db_varios (py "u2")
     = [ ResumenPresupuesto.mk (py "moto") 500 70 9 439 (py "semanal") ]
  /\ ResumenPresupuesto.porcentaje_usado
       (ResumenPresupuesto.mk (py "moto") 100000 15000 5000 90000
          (py "mensual")) == 15.
Proof.
  split; [|evalua].
  unfold MonevoFacade.obtener_resumen, PresupuestoService.obtener_resumen,
    SQLiteRepository.obtener_resumen.
  rewrite <- presupuestos_de_select.
  apply Forall2_map_r. intros p.
  unfold resumen_correcto;
    cbn [ResumenPresupuesto.categoria ResumenPresupuesto.monto_inicial
         ResumenPresupuesto.periodicidad ResumenPresupuesto.gastos
         ResumenPresupuesto.ingresos ResumenPresupuesto.saldo].
  rewrite !suma_movimientos_spec.
  repeat split.
  - apply coalesce_sum_suma.
  - apply coalesce_sum_suma.
  - intros ->; reflexivity.
  - intros ->; reflexivity.
  - intros H0. unfold ResumenPresupuesto.porcentaje_usado;
      cbn [ResumenPresupuesto.monto_inicial].
    apply Qeq_bool_iff in H0. rewrite H0. reflexivity.
  - intros H0. unfold ResumenPresupuesto.porcentaje_usado;
      cbn [ResumenPresupuesto.monto_inicial ResumenPresupuesto.gastos].
    destruct (Qeq_bool (SQLiteRepository.p_monto p) 0) eqn:E;
      [apply Qeq_bool_iff in E; contradiction | reflexivity].
Qed.

Lemma C1_summary_witness :
  map SQLiteRepository.p_categoria (presupuestos_de db_varios (py "u1"))
  = [py "moto"; py "comida"]
  /\ montos_de db_varios (py "u1") (py "moto") (py "gasto") = [15000]
  /\ montos_de db_varios (py "u1") (py "moto") (py "ingreso") = [5000]
  /\ montos_de db_varios (py "u1") (py "comida") (py "gasto") = [20]
  /\ montos_de db_varios (py "u1") (py "comida") (py "ingreso") = []
  /\ List.length (SQLiteRepository.movimientos db_varios) = 5%nat
  /\ Forall2 (resumen_correcto db_varios (py "u1"))
             (presupuestos_de db_varios (py "u1"))
             (MonevoFacade.obtener_resumen db_varios (py "u1")).
Proof.
  split; [vm_compute; reflexivity|].
  split; [vm_compute; reflexivity|].
  split; [vm_compute; reflexivity|].
  split; [vm_compute; reflexivity|].
  split; [vm_compute; reflexivity|].
  split; [vm_compute; reflexivity|].
  exact (proj1 (C1_summary db_varios (py "u1"))).
Defined.

(* ================================================================= *)
(** ** Update and delete under a spelling that is not in normal form *)

Lemma where_p_false (db : SQLiteRepository.DB) (u c : str) :
  categorias_normalizadas db -> normalizar c <> c ->
  forall r, In r (SQLiteRepository.presupuestos db) ->
            SQLiteRepository.where_p u c r = false.
Proof.
  intros [Hp _] Hc r Hr. rewrite Forall_forall in Hp.
  unfold SQLiteRepository.where_p.
  destruct (Str.eqb (SQLiteRepository.p_categoria r) c) eqn:E;
    [|apply andb_false_r].
  apply eqb_eq in E. exfalso; apply Hc.
  rewrite <- E. apply Hp; exact Hr.
Qed.

Lemma where_m_false (db : SQLiteRepository.DB) (u c : str) :
  categorias_normalizadas db -> normalizar c <> c ->
  forall r, In r (SQLiteRepository.movimientos db) ->
            SQLiteRepository.where_m u c r = false.
Proof.
  intros [_ Hm] Hc r Hr. rewrite Forall_forall in Hm.
  unfold SQLiteRepository.where_m.
  destruct (Str.eqb (SQLiteRepository.m_categoria r) c) eqn:E;
    [|apply andb_false_r].
  apply eqb_eq in E. exfalso; apply Hc.
  rewrite <- E. apply Hm; exact Hr.
Qed.

Lemma filter_all {A} (f : A -> bool) (l : list A) :
  (forall x, In x l -> f x = true) -> filter f l = l.
Proof.
  induction l as [|x l IH]; intros H; simpl; [reflexivity|].
  rewrite (H x (or_introl eq_refl)), IH; [reflexivity|].
  intros y Hy; apply H; right; exact Hy.
Qed.

Lemma map_if_false {A} (f : A -> bool) (g : A -> A) (l : list A) :
  (forall x, In x l -> f x = false) ->
  map (fun x => if f x then g x else x) l = l.
Proof.
  induction l as [|x l IH]; intros H; simpl; [reflexivity|].
  rewrite (H x (or_introl eq_refl)), IH; [reflexivity|].
  intros y Hy; apply H; right; exact Hy.
Qed.

(** In a store whose categories are in normal form, the UPDATE and the
    two DELETE statements run with a category that is not in normal
    form touch no row. *)
Lemma sentencias_sin_efecto (db : SQLiteRepository.DB) (u c : str)
    (set : SQLiteRepository.FilaPresupuesto
           -> SQLiteRepository.FilaPresupuesto) :
  categorias_normalizadas db -> normalizar c <> c ->
  con_update db set u c = db /\ sin_clave db u c = db.
Proof.
  intros Hn Hc.
  pose proof (where_p_false db u c Hn Hc) as Hp.
  pose proof (where_m_false db u c Hn Hc) as Hm.
  destruct db as [ps ms sp sm]; unfold con_update, sin_clave;
    cbn [SQLiteRepository.presupuestos SQLiteRepository.movimientos
         SQLiteRepository.seq_presupuestos SQLiteRepository.seq_movimientos]
      in *.
  split.
  - rewrite map_if_false by exact Hp. reflexivity.
  - rewrite !filter_all; [reflexivity| |].
    + intros r Hr; rewrite (Hm r Hr); reflexivity.
    + intros r Hr; rewrite (Hp r Hr); reflexivity.
Qed.

(** C3, the code at the failing input.  The budget created as
    ["  Moto "] exists under ["moto"] and under ["MOTO "], and
    movements recorded and listed under ["MOTO "] resolve to it; but
    updating it as ["MOTO "] reports success and leaves the amount at
    100000, and deleting it as ["MOTO "] reports success and leaves the
    budget in place, while the same calls with ["moto"] change the
    amount and remove the row. *)
Theorem C3_raw_category_in_update_and_delete :
  MonevoFacade.presupuesto_existe db_moto (py "u1") (py "moto") = true
  /\ MonevoFacade.presupuesto_existe db_moto (py "u1") (py "MOTO ") = true
  /\ MonevoFacade.actualizar_presupuesto (py "u1") (py "MOTO ") 500 None
       db_moto
     = Ok ((true, py "Presupuesto 'MOTO ' actualizado exitosamente"),
           db_moto)
  /\ MonevoFacade.eliminar_presupuesto (py "u1") (py "MOTO ") db_moto
     = Ok ((true, py "Presupuesto 'MOTO ' eliminado exitosamente"), db_moto)
  /\ map SQLiteRepository.p_monto (SQLiteRepository.presupuestos db_moto)
     = [100000]
  /\ map SQLiteRepository.p_monto
       (SQLiteRepository.presupuestos
          (ejecutar (OpActualizar (py "u1") (py "moto") 500 None) db_moto))
     = [500]
  /\ SQLiteRepository.presupuestos
       (ejecutar (OpEliminar (py "u1") (py "moto")) db_moto) = []
  /\ map SQLiteRepository.m_categoria
       (SQLiteRepository.movimientos
          (ejecutar (OpGasto 5%Z (py "u1") (py "MOTO ") 3000 []) db_moto))
     = [py "moto"].
Proof. evalua. Qed.

(** The same for every store in normal form and every spelling that is
    not: update and delete report success and return the store as it
    was. *)
Lemma actualizar_eliminar_sin_efecto (db : SQLiteRepository.DB)
    (u c : str) (monto : Q) :
  categorias_normalizadas db -> normalizar c <> c ->
  MonevoFacade.presupuesto_existe db u c = true -> 0 < monto ->
  MonevoFacade.actualizar_presupuesto u c monto None db
  = Ok ((true, py "Presupuesto '" ++ c ++ py "' actualizado exitosamente"),
        db)
  /\ MonevoFacade.eliminar_presupuesto u c db
     = Ok ((true, py "Presupuesto '" ++ c ++ py "' eliminado exitosamente"),
           db).
Proof.
  intros Hn Hc He Hm.
  unfold MonevoFacade.presupuesto_existe,
    PresupuestoService.presupuesto_existe in He.
  unfold MonevoFacade.actualizar_presupuesto,
    PresupuestoService.actualizar_presupuesto,
    MonevoFacade.eliminar_presupuesto,
    PresupuestoService.eliminar_presupuesto, bind, ret.
  rewrite (Qle_bool_false _ Hm), actualizar_repo, eliminar_repo, He.
  destruct (sentencias_sin_efecto db u c (SQLiteRepository.set_monto monto)
              Hn Hc) as [-> ->].
  split; reflexivity.
Qed.

(** C4, the code at the failing input.  In the example store the
    budget of [u1] exists under ["MOTO "]; deleting it under that
    spelling reports success and returns the store as it was, with the
    budget row and both movements still there, and the history of the
    key afterwards is not a budget-not-found failure. *)
Theorem C4_delete_raw_category :
  MonevoFacade.presupuesto_existe db_ejemplo (py "u1") (py "MOTO ") = true
  /\ MonevoFacade.eliminar_presupuesto (py "u1") (py "MOTO ") db_ejemplo
     = Ok ((true, py "Presupuesto 'MOTO ' eliminado exitosamente"),
           db_ejemplo)
  /\ List.length (SQLiteRepository.presupuestos db_ejemplo) = 1%nat
  /\ List.length (SQLiteRepository.movimientos db_ejemplo) = 2%nat
  /\ MonevoFacade.obtener_historial 30%Z (py "u1") (py "MOTO ")
       (ejecutar (OpEliminar (py "u1") (py "MOTO ")) db_ejemplo)
     = Ok ((true, py "Historial obtenido exitosamente",
            [ Movimiento.mk (py "moto") (py "ingreso") 5000 (py "u1") []
                20%Z (Some 2%N);
              Movimiento.mk (py "moto") (py "gasto") 15000 (py "u1")
                (py "gasolina") 10%Z (Some 1%N) ]),
           db_ejemplo).
Proof. evalua. Qed.

(* ================================================================= *)
(** ** Delete under the normal form of the key *)

Lemma existsb_filter_neg {A} (f : A -> bool) (l : list A) :
  existsb f (filter (fun x => negb (f x)) l) = false.
Proof.
  induction l as [|x l IH]; simpl; [reflexivity|].
  destruct (f x) eqn:E; simpl; [exact IH | rewrite E, IH; reflexivity].
Qed.

Lemma filter_filter_neg {A} (f : A -> bool) (l : list A) :
  filter f (filter (fun x => negb (f x)) l) = [].
Proof.
  induction l as [|x l IH]; simpl; [reflexivity|].
  destruct (f x) eqn:E; simpl; [exact IH | rewrite E; exact IH].
Qed.

Lemma eliminar_fallo_sin_fallo (u c : str) (db : SQLiteRepository.DB) :
  SQLiteRepository.eliminar_presupuesto_fallo None u c db
  = SQLiteRepository.eliminar_presupuesto u c db.
Proof.
  rewrite eliminar_repo. unfold SQLiteRepository.eliminar_presupuesto_fallo.
  destruct (SQLiteRepository.presupuesto_existe db u c); reflexivity.
Qed.

(** With the category in normal form the cascade is as specified: the
    budget row and the movements of the key go together, the history
    of the key then reports the budget as not found, and a storage
    fault at either DELETE statement raises without committing. *)
Lemma eliminar_clave_normal (ahora : datetime) (u c : str)
    (db : SQLiteRepository.DB) :
  normalizar c = c ->
  MonevoFacade.presupuesto_existe db u c = true ->
  MonevoFacade.eliminar_presupuesto u c db
  = Ok ((true, py "Presupuesto '" ++ c ++ py "' eliminado exitosamente"),
        sin_clave db u c)
  /\ MonevoFacade.presupuesto_existe (sin_clave db u c) u c = false
  /\ filas_de (sin_clave db u c) u c = []
  /\ MonevoFacade.obtener_historial ahora u c (sin_clave db u c)
     = Ok ((false, py "No existe presupuesto '" ++ c ++ py "'", []),
           sin_clave db u c)
  /\ (forall fallo,
        SQLiteRepository.eliminar_presupuesto_fallo fallo u c db
        = Ok (true, sin_clave db u c)
        \/ SQLiteRepository.eliminar_presupuesto_fallo fallo u c db
           = Raise OperationalError).
Proof.
  intros Hc He.
  unfold MonevoFacade.presupuesto_existe,
    PresupuestoService.presupuesto_existe in *.
  assert (He' : SQLiteRepository.presupuesto_existe (sin_clave db u c) u c
                = false).
  { unfold SQLiteRepository.presupuesto_existe, sin_clave;
      cbn [SQLiteRepository.presupuestos].
    fold (normalizar c); rewrite Hc. apply existsb_filter_neg. }
  split.
  { unfold MonevoFacade.eliminar_presupuesto,
      PresupuestoService.eliminar_presupuesto, bind, ret.
    rewrite eliminar_repo, He. reflexivity. }
  split; [exact He'|].
  split.
  { unfold filas_de, sin_clave; cbn [SQLiteRepository.movimientos].
    rewrite Hc. apply filter_filter_neg. }
  split.
  { unfold MonevoFacade.obtener_historial,
      MovimientoService.obtener_historial, bind, query, ret,
      PresupuestoService.presupuesto_existe.
    rewrite He'. reflexivity. }
  intros fallo. unfold SQLiteRepository.eliminar_presupuesto_fallo.
  rewrite He; cbv beta iota delta [negb].
  destruct fallo as [[|[|n]]|]; [right|right|left|left]; reflexivity.
Qed.

Lemma eliminar_ausente (u c : str) (db : SQLiteRepository.DB) :
  MonevoFacade.presupuesto_existe db u c = false ->
  MonevoFacade.eliminar_presupuesto u c db
  = Ok ((false, py "No existe presupuesto '" ++ c ++ py "'"), db).
Proof.
  intros He.
  unfold MonevoFacade.eliminar_presupuesto,
    PresupuestoService.eliminar_presupuesto, bind, ret.
  rewrite eliminar_repo.
  unfold MonevoFacade.presupuesto_existe,
    PresupuestoService.presupuesto_existe in He.
  rewrite He. reflexivity.
Qed.

(* ================================================================= *)
(** ** Updating a budget *)






(* ================================================================= *)
(** ** Further properties: normal form of a category *)

Lemma in_lstrip (x : N) (s : str) : In x (lstrip s) -> In x s.
Proof.
  induction s as [|c s IH]; simpl; [tauto|].
  destruct (isspace c); [intros H; right; apply IH; exact H | tauto].
Qed.

Lemma in_strip (x : N) (s : str) : In x (strip s) -> In x s.
Proof.
  unfold strip, rstrip. intros H.
  apply in_rev, in_lstrip in H. apply in_rev in H.
  apply in_lstrip; exact H.
Qed.

(** X1.  The normal form both constructors compute is a fixed point of
    normalisation, neither begins nor ends with white space, and holds
    no character that lowercasing would change. *)
Theorem X1_normal_form (c : str) :
  normalizar (normalizar c) = normalizar c
  /\ sin_espacio_inicial (normalizar c)
  /\ sin_espacio_inicial (rev (normalizar c))
  /\ Forall (fun x => lower_cp x = x) (normalizar c).
Proof.
  split; [apply normalizar_idem|].
  split; [apply rstrip_sin_espacio, lstrip_sin_espacio|].
  split.
  { unfold normalizar, strip, rstrip. rewrite rev_involutive.
    apply lstrip_sin_espacio. }
  apply Forall_forall; intros x Hx.
  apply in_strip in Hx. unfold lower in Hx.
  apply in_map_iff in Hx as [y [<- _]]. apply lower_cp_idem.
Qed.

(* ================================================================= *)
(** ** Further properties: validation in the budget service *)

(** X2.  Creation checks the category first: a category that is blank
    after trimming is rejected with the empty-category message whatever
    the amount and the periodicity.  With a non-blank category and a
    positive amount, a periodicity that is none of the four names in
    any letter case is rejected with the periodicity message.  Both
    rejections return the store as it was. *)
Theorem X2_create_validation (ahora : datetime) (u c : str) (monto : Q)
    (per : str) (db : SQLiteRepository.DB) :
  (truthy (strip c) = false ->
   MonevoFacade.crear_presupuesto ahora u c monto per db
   = Ok ((false, py "La categoría no puede estar vacía"), db))
  /\ (truthy (strip c) = true -> 0 < monto ->
      Str.mem (lower per) periodicidades = false ->
      MonevoFacade.crear_presupuesto ahora u c monto per db
      = Ok ((false,
             py "Periodicidad debe ser: diario, semanal, mensual, anual"),
            db)).
Proof.
  unfold MonevoFacade.crear_presupuesto,
    PresupuestoService.crear_presupuesto.
  split.
  - intros ->. reflexivity.
  - intros -> Hm ->. rewrite (Qle_bool_false _ Hm). reflexivity.
Qed.

Lemma X2_create_validation_witness :
  truthy (strip (py "   ")) = false
  /\ MonevoFacade.crear_presupuesto 1%Z (py "u1") (py "   ") (-3)
       (py "nunca") SQLiteRepository.init_db
     = Ok ((false, py "La categoría no puede estar vacía"),
           SQLiteRepository.init_db).
Proof.
  assert (H : truthy (strip (py "   ")) = false) by (vm_compute; reflexivity).
  split; [exact H|].
  exact (proj1 (X2_create_validation 1%Z (py "u1") (py "   ") (-3)
                  (py "nunca") SQLiteRepository.init_db) H).
Defined.



(* ================================================================= *)
(** ** Further properties: invariants of the reachable stores *)

Lemma alcanzable_ind (P : SQLiteRepository.DB -> Prop) :
  P SQLiteRepository.init_db ->
  (forall op db, P db -> P (ejecutar op db)) ->
  forall ops, P (ejecutar_todas ops SQLiteRepository.init_db).
Proof.
  intros H0 Hstep ops. unfold ejecutar_todas.
  generalize SQLiteRepository.init_db H0.
  induction ops as [|op ops IH]; intros db Hdb; [exact Hdb|].
  simpl. apply IH, Hstep, Hdb.
Qed.

(** The four shapes a store can take after one command. *)
Lemma formas_de_paso (op : operacion) (db : SQLiteRepository.DB) :
  ejecutar op db = db
  \/ (exists ahora c monto per,
        SQLiteRepository.presupuesto_existe db (usuario_de op) c = false
        /\ ejecutar op db
           = con_presupuesto db ahora (usuario_de op) c monto per)
  \/ (exists set c,
        (forall r, SQLiteRepository.p_id (set r) = SQLiteRepository.p_id r
                   /\ clave_p (set r) = clave_p r)
        /\ ejecutar op db = con_update db set (usuario_de op) c)
  \/ (exists c, ejecutar op db = sin_clave db (usuario_de op) c)
  \/ (exists ahora c tipo monto concepto,
        SQLiteRepository.presupuesto_existe db (usuario_de op) c = true
        /\ (tipo = py "gasto" \/ tipo = py "ingreso")
        /\ ejecutar op db
           = con_movimiento db ahora (usuario_de op) c tipo monto concepto).
Proof.
  assert (Hreg : forall ahora u c tipo monto concepto,
            tipo = py "gasto" \/ tipo = py "ingreso" ->
            store_of db (MovimientoService._registrar_movimiento ahora u c
                           tipo monto concepto db) = db
            \/ (SQLiteRepository.presupuesto_existe db u c = true
                /\ store_of db (MovimientoService._registrar_movimiento
                                  ahora u c tipo monto concepto db)
                   = con_movimiento db ahora u c tipo monto concepto)).
  { intros ahora u c tipo monto concepto Ht.
    destruct (PresupuestoService.presupuesto_existe db u c) eqn:He.
    - destruct (registrar_store ahora u c tipo monto concepto db Ht)
        as [H|H]; [left; exact H | right; split; [exact He | exact H]].
    - left. rewrite registrar_sin_presupuesto by exact He. reflexivity. }
  destruct op as [ahora u c monto per | u c monto per | u c
                 | ahora u c monto concepto | ahora u c monto concepto
                 | ahora u c]; cbn [usuario_de].
  - destruct (SQLiteRepository.presupuesto_existe db u c) eqn:He.
    + left. destruct (crear_store ahora u c monto per db) as [H|H];
        [exact H|].
      unfold ejecutar, MonevoFacade.crear_presupuesto,
        PresupuestoService.crear_presupuesto.
      destruct (truthy (strip c)); [|reflexivity].
      destruct (Qle_bool monto 0); [reflexivity|].
      destruct (Str.mem (lower per) periodicidades); [|reflexivity].
      cbv beta iota delta [negb]. unfold bind.
      rewrite (crear_repo_existente db ahora u c monto (lower per) He).
      reflexivity.
    + destruct (crear_store ahora u c monto per db) as [H|H];
        [left; exact H|].
      right; left. exists ahora, c, monto, (lower per). split; assumption.
  - destruct (actualizar_store u c monto per db) as [H|[set [Hset H]]];
      [left; exact H|].
    unfold ejecutar, MonevoFacade.actualizar_presupuesto,
      PresupuestoService.actualizar_presupuesto.
    destruct (Qle_bool monto 0); [left; reflexivity|].
    match goal with |- context [if ?b then ret _ else _] => destruct b end;
      [left; reflexivity|].
    unfold bind. rewrite actualizar_repo.
    destruct (SQLiteRepository.presupuesto_existe db u c);
      [|left; reflexivity].
    right; right; left. eexists; exists c. split; [|reflexivity].
    intros r; destruct per as [p|]; [destruct (truthy p)|];
      split; reflexivity.
  - destruct (eliminar_store u c db) as [H|H]; [left; exact H|].
    right; right; right; left. exists c; exact H.
  - unfold ejecutar, MonevoFacade.registrar_gasto,
      MovimientoService.registrar_gasto.
    destruct (Hreg ahora u c (py "gasto") monto concepto
                tipo_gasto_ingreso_l) as [H|[He H]]; [left; exact H|].
    right; right; right; right.
    exists ahora, c, (py "gasto"), monto, concepto.
    split; [exact He|]. split; [left; reflexivity | exact H].
  - unfold ejecutar, MonevoFacade.registrar_ingreso,
      MovimientoService.registrar_ingreso.
    destruct (Hreg ahora u c (py "ingreso") monto concepto
                tipo_gasto_ingreso_r) as [H|[He H]]; [left; exact H|].
    right; right; right; right.
    exists ahora, c, (py "ingreso"), monto, concepto.
    split; [exact He|]. split; [right; reflexivity | exact H].
  - left. apply historial_store.
Qed.

Lemma where_p_clave (u c : str) (r : SQLiteRepository.FilaPresupuesto) :
  SQLiteRepository.where_p u c r = true <-> clave_p r = (u, c).
Proof.
  unfold SQLiteRepository.where_p, clave_p.
  rewrite andb_true_iff, !eqb_eq.
  split; [intros [-> ->]; reflexivity | intros H; inversion H; auto].
Qed.

Lemma where_p_ext (u c : str) (r r' : SQLiteRepository.FilaPresupuesto) :
  clave_p r' = clave_p r ->
  SQLiteRepository.where_p u c r' = SQLiteRepository.where_p u c r.
Proof.
  unfold clave_p, SQLiteRepository.where_p. intros H; inversion H.
  reflexivity.
Qed.

Lemma existsb_false_not_in (u c : str)
    (l : list SQLiteRepository.FilaPresupuesto) :
  existsb (SQLiteRepository.where_p u c) l = false ->
  ~ In (u, c) (map clave_p l).
Proof.
  intros He Hin. apply in_map_iff in Hin as [r [Hk Hr]].
  assert (H : existsb (SQLiteRepository.where_p u c) l = true).
  { apply existsb_exists. exists r; split; [exact Hr|].
    apply where_p_clave; exact Hk. }
  congruence.
Qed.

Lemma NoDup_map_filter {A B} (f : A -> B) (g : A -> bool) (l : list A) :
  NoDup (map f l) -> NoDup (map f (filter g l)).
Proof.
  induction l as [|x l IH]; simpl; intros H; [constructor|].
  inversion H as [|? ? Hx Hl]; subst.
  destruct (g x); simpl; [|apply IH; exact Hl].
  constructor; [|apply IH; exact Hl].
  intros Hin; apply Hx.
  apply in_map_iff in Hin as [y [Hy Hy']].
  apply filter_In in Hy' as [Hy' _].
  apply in_map_iff; exists y; auto.
Qed.

Lemma map_con_update {B} (f : SQLiteRepository.FilaPresupuesto -> B)
    (set : SQLiteRepository.FilaPresupuesto
           -> SQLiteRepository.FilaPresupuesto) (u c : str)
    (db : SQLiteRepository.DB) :
  (forall r, f (set r) = f r) ->
  map f (SQLiteRepository.presupuestos (con_update db set u c))
  = map f (SQLiteRepository.presupuestos db).
Proof.
  intros H. cbn [con_update SQLiteRepository.presupuestos].
  rewrite map_map. apply map_ext. intros r.
  destruct (SQLiteRepository.where_p u c r); [apply H | reflexivity].
Qed.

Lemma NoDup_snoc {A} (l : list A) (x : A) :
  NoDup l -> ~ In x l -> NoDup (l ++ [x]).
Proof.
  induction l as [|y l IH]; simpl; intros Hl Hx.
  - constructor; [tauto | constructor].
  - inversion Hl as [|? ? Hy Hl']; subst.
    constructor; [|apply IH; tauto].
    rewrite in_app_iff; simpl. intros [H|[H|[]]]; [tauto|].
    apply Hx; left; symmetry; exact H.
Qed.

Lemma claves_unicas_paso (op : operacion) (db : SQLiteRepository.DB) :
  claves_unicas db -> claves_unicas (ejecutar op db).
Proof.
  intros Hu. unfold claves_unicas in *.
  destruct (formas_de_paso op db)
    as [-> | [(ahora & c & monto & per & He & ->)
           | [(set & c & Hset & ->)
             | [(c & ->) | (ahora & c & tipo & monto & concepto & _ & _ & ->)]]]].
  - exact Hu.
  - cbn [con_presupuesto SQLiteRepository.presupuestos].
    rewrite map_app. cbn [map clave_p SQLiteRepository.p_usuario_id
                          SQLiteRepository.p_categoria].
    apply NoDup_snoc; [exact Hu|].
    fold (clave_p (SQLiteRepository.mkFilaP
                     (SQLiteRepository.seq_presupuestos db + 1)
                     (usuario_de op) (normalizar c) monto per ahora)).
    apply existsb_false_not_in. exact He.
  - rewrite map_con_update; [exact Hu | intros r; apply Hset].
  - cbn [sin_clave SQLiteRepository.presupuestos].
    apply NoDup_map_filter; exact Hu.
  - exact Hu.
Qed.

Lemma insert_clave_presente (db : SQLiteRepository.DB) (ahora : datetime)
    (u c : str) (monto : Q) (per : str) :
  hay_presupuesto db u c ->
  SQLiteRepository.insert_presupuesto
    (Presupuesto.init ahora c monto per u None None) db
  = Raise IntegrityError.
Proof.
  intros He. apply hay_presupuesto_existe in He.
  unfold SQLiteRepository.insert_presupuesto, Presupuesto.init; simpl.
  fold (normalizar c).
  change (existsb (SQLiteRepository.where_p u (normalizar c))
            (SQLiteRepository.presupuestos db))
    with (SQLiteRepository.presupuesto_existe db u c).
  rewrite He. reflexivity.
Qed.

(** X4.  In every store reachable through the public operations no two
    budget rows share a user and a category, and the check in
    [crear_presupuesto] is what keeps the INSERT from violating the
    table's UNIQUE constraint: for a key that has a budget the INSERT
    alone raises IntegrityError, while [crear_presupuesto] returns
    false without running it and returns the store as it was; for a
    key that has none, [crear_presupuesto] returns true and the store
    it leaves again has no two rows with the same key. *)
Theorem X4_unique_budget_keys (ops : list operacion) :
  let db := ejecutar_todas ops SQLiteRepository.init_db in
  claves_unicas db
  /\ (forall ahora u c monto per,
        hay_presupuesto db u c ->
        SQLiteRepository.insert_presupuesto
          (Presupuesto.init ahora c monto per u None None) db
        = Raise IntegrityError
        /\ SQLiteRepository.crear_presupuesto
             (Presupuesto.init ahora c monto per u None None) db
           = Ok (false, db))
  /\ (forall ahora u c monto per,
        ~ hay_presupuesto db u c ->
        exists db',
          SQLiteRepository.crear_presupuesto
            (Presupuesto.init ahora c monto per u None None) db
          = Ok (true, db')
          /\ claves_unicas db').
Proof.
  intros db.
  assert (Hu : claves_unicas db)
    by (apply alcanzable_ind; [constructor | apply claves_unicas_paso]).
  split; [exact Hu|]. split.
  - intros ahora u c monto per He.
    split; [apply insert_clave_presente; exact He|].
    apply crear_repo_existente, hay_presupuesto_existe; exact He.
  - intros ahora u c monto per Hno.
    apply no_hay_presupuesto_existe in Hno.
    exists (con_presupuesto db ahora u c monto per).
    split; [apply crear_repo_nuevo; exact Hno|].
    unfold claves_unicas in *.
    cbn [con_presupuesto SQLiteRepository.presupuestos].
    rewrite map_app. cbn [map clave_p SQLiteRepository.p_usuario_id
                          SQLiteRepository.p_categoria].
    apply NoDup_snoc; [exact Hu|].
    fold (clave_p (SQLiteRepository.mkFilaP
                     (SQLiteRepository.seq_presupuestos db + 1)
                     u (normalizar c) monto per ahora)).
    apply existsb_false_not_in. exact Hno.
Qed.

Lemma X4_unique_budget_keys_witness :
  hay_presupuesto db_varios (py "u2") (py "MOTO")
  /\ SQLiteRepository.insert_presupuesto
       (Presupuesto.init 40%Z (py "MOTO") 10 (py "anual") (py "u2")
          None None) db_varios
     = Raise IntegrityError
  /\ SQLiteRepository.crear_presupuesto
       (Presupuesto.init 40%Z (py "MOTO") 10 (py "anual") (py "u2")
          None None) db_varios
     = Ok (false, db_varios).
Proof.
  assert (He : hay_presupuesto db_varios (py "u2") (py "MOTO"))
    by (apply hay_presupuesto_existe; vm_compute; reflexivity).
  split; [exact He|].
  exact (proj1 (proj2
           (X4_unique_budget_keys ops_varios))
           40%Z (py "u2") (py "MOTO") 10 (py "anual") He).
Defined.

Lemma sorted_snoc (l : list N) (x : N) :
  StronglySorted N.lt l -> Forall (fun y => (y < x)%N) l ->
  StronglySorted N.lt (l ++ [x]).
Proof.
  induction 1 as [|y l Hl IH Hy]; simpl; intros Hx.
  - constructor; constructor.
  - inversion Hx as [|? ? Hyx Hlx]; subst.
    constructor; [apply IH; exact Hlx|].
    apply Forall_app; split; [exact Hy | constructor; [exact Hyx|constructor]].
Qed.

Lemma sorted_map_filter {A} (f : A -> N) (g : A -> bool) (l : list A) :
  StronglySorted N.lt (map f l) ->
  StronglySorted N.lt (map f (filter g l)).
Proof.
  induction l as [|x l IH]; simpl; intros H; [constructor|].
  inversion H as [|? ? Hl Hx]; subst.
  destruct (g x); simpl; [|apply IH; exact Hl].
  constructor; [apply IH; exact Hl|].
  apply Forall_forall; intros y Hy.
  apply in_map_iff in Hy as [z [<- Hz]].
  apply filter_In in Hz as [Hz _].
  rewrite Forall_forall in Hx. apply Hx.
  apply in_map_iff; exists z; auto.
Qed.

Lemma forall_le_lt_succ {A} (f : A -> N) (n : N) (l : list A) :
  Forall (fun r => (f r <= n)%N) l ->
  Forall (fun y => (y < n + 1)%N) (map f l)
  /\ Forall (fun r => (f r <= n + 1)%N) l.
Proof.
  intros H; split.
  - apply Forall_forall; intros y Hy.
    apply in_map_iff in Hy as [r [<- Hr]].
    rewrite Forall_forall in H. specialize (H r Hr). lia.
  - eapply Forall_impl; [|exact H]. cbv beta; intros; lia.
Qed.

Lemma rowids_paso (op : operacion) (db : SQLiteRepository.DB) :
  rowids_crecientes db -> rowids_crecientes (ejecutar op db).
Proof.
  intros (Sp & Bp & Sm & Bm). unfold rowids_crecientes.
  destruct (formas_de_paso op db)
    as [-> | [(ahora & c & monto & per & He & ->)
           | [(set & c & Hset & ->)
             | [(c & ->) | (ahora & c & tipo & monto & concepto & _ & _ & ->)]]]].
  - auto.
  - cbn [con_presupuesto SQLiteRepository.presupuestos
         SQLiteRepository.movimientos SQLiteRepository.seq_presupuestos
         SQLiteRepository.seq_movimientos].
    destruct (forall_le_lt_succ SQLiteRepository.p_id _ _ Bp) as [H1 H2].
    rewrite map_app. cbn [map SQLiteRepository.p_id].
    split; [apply sorted_snoc; assumption|].
    split; [|split; assumption].
    apply Forall_app; split; [exact H2|].
    constructor; [cbn [SQLiteRepository.p_id]; lia | constructor].
  - rewrite map_con_update by (intros r; apply Hset).
    split; [exact Sp|]. split; [|split; assumption].
    cbn [con_update SQLiteRepository.presupuestos
         SQLiteRepository.seq_presupuestos].
    apply Forall_forall; intros r' Hr'.
    apply in_map_iff in Hr' as [r [<- Hr]].
    rewrite Forall_forall in Bp. specialize (Bp r Hr).
    destruct (SQLiteRepository.where_p _ c r); [|exact Bp].
    destruct (Hset r) as [-> _]; exact Bp.
  - cbn [sin_clave SQLiteRepository.presupuestos
         SQLiteRepository.movimientos SQLiteRepository.seq_presupuestos
         SQLiteRepository.seq_movimientos].
    split; [apply sorted_map_filter; exact Sp|].
    split; [apply Forall_forall; intros r Hr;
            apply filter_In in Hr as [Hr _];
            rewrite Forall_forall in Bp; apply Bp; exact Hr|].
    split; [apply sorted_map_filter; exact Sm|].
    apply Forall_forall; intros r Hr. apply filter_In in Hr as [Hr _].
    rewrite Forall_forall in Bm; apply Bm; exact Hr.
  - cbn [con_movimiento SQLiteRepository.presupuestos
         SQLiteRepository.movimientos SQLiteRepository.seq_presupuestos
         SQLiteRepository.seq_movimientos].
    destruct (forall_le_lt_succ SQLiteRepository.m_id _ _ Bm) as [H1 H2].
    rewrite map_app. cbn [map SQLiteRepository.m_id].
    split; [exact Sp|]. split; [exact Bp|].
    split; [apply sorted_snoc; assumption|].
    apply Forall_app; split; [exact H2|].
    constructor; [cbn [SQLiteRepository.m_id]; lia | constructor].
Qed.

(** X5.  In every reachable store the rowids of each table increase
    strictly in table order and none exceeds the table's AUTOINCREMENT
    counter: rows are stored in the order they were inserted, rowids
    are pairwise distinct, and the rowid of a deleted row is not handed
    out again. *)
Theorem X5_rowids_increase (ops : list operacion) :
  rowids_crecientes (ejecutar_todas ops SQLiteRepository.init_db).
Proof.
  apply alcanzable_ind; [|apply rowids_paso].
  repeat split; constructor.
Qed.

Lemma sin_huerfanos_paso (op : operacion) (db : SQLiteRepository.DB) :
  sin_huerfanos db -> sin_huerfanos (ejecutar op db).
Proof.
  intros Hh. unfold sin_huerfanos in *.
  destruct (formas_de_paso op db)
    as [-> | [(ahora & c & monto & per & He & ->)
           | [(set & c & Hset & ->)
             | [(c & ->) | (ahora & c & tipo & monto & concepto & He & _ & ->)]]]].
  - exact Hh.
  - cbn [con_presupuesto SQLiteRepository.presupuestos
         SQLiteRepository.movimientos].
    eapply Forall_impl; [|exact Hh]. cbv beta; intros m Hm.
    rewrite existsb_app, Hm. reflexivity.
  - cbn [con_update SQLiteRepository.presupuestos
         SQLiteRepository.movimientos].
    eapply Forall_impl; [|exact Hh]. cbv beta; intros m Hm.
    apply existsb_exists in Hm as [r [Hr Hw]].
    apply existsb_exists.
    exists (if SQLiteRepository.where_p (usuario_de op) c r
            then set r else r).
    split; [apply in_map_iff; exists r; auto|].
    destruct (SQLiteRepository.where_p (usuario_de op) c r); [|exact Hw].
    rewrite (where_p_ext _ _ r (set r)); [exact Hw | apply Hset].
  - cbn [sin_clave SQLiteRepository.presupuestos
         SQLiteRepository.movimientos].
    apply Forall_forall; intros m Hm.
    apply filter_In in Hm as [Hm Hnm].
    rewrite Forall_forall in Hh. specialize (Hh m Hm).
    apply existsb_exists in Hh as [r [Hr Hw]].
    apply existsb_exists. exists r; split; [|exact Hw].
    apply filter_In; split; [exact Hr|].
    apply where_p_clave in Hw. unfold clave_p in Hw; inversion Hw as [[Hu Hc]].
    unfold SQLiteRepository.where_p. rewrite Hu, Hc.
    exact Hnm.
  - cbn [con_movimiento SQLiteRepository.presupuestos
         SQLiteRepository.movimientos].
    apply Forall_app; split; [exact Hh|].
    constructor; [|constructor].
    cbn [SQLiteRepository.m_usuario_id SQLiteRepository.m_categoria].
    exact He.
Qed.

(** X6.  In every reachable store each movement row is stored under
    the key of an existing budget row: movements are only recorded for
    budgets that exist, and deleting a budget takes its movements with
    it, so no movement is left without its budget. *)
Theorem X6_no_orphan_movements (ops : list operacion) :
  sin_huerfanos (ejecutar_todas ops SQLiteRepository.init_db).
Proof.
  apply alcanzable_ind; [constructor | apply sin_huerfanos_paso].
Qed.

Lemma crear_retorna (ahora : datetime) (u c : str) (monto : Q) (per : str)
    (db : SQLiteRepository.DB) :
  retorna (MonevoFacade.crear_presupuesto ahora u c monto per db).
Proof.
  unfold MonevoFacade.crear_presupuesto,
    PresupuestoService.crear_presupuesto.
  destruct (truthy (strip c)); [|exact I].
  destruct (Qle_bool monto 0); [exact I|].
  destruct (Str.mem (lower per) periodicidades); [|exact I].
  cbv beta iota delta [negb]. unfold bind.
  destruct (SQLiteRepository.presupuesto_existe db u c) eqn:He.
  - rewrite (crear_repo_existente db ahora u c monto (lower per) He).
    exact I.
  - rewrite (crear_repo_nuevo db ahora u c monto (lower per) He).
    exact I.
Qed.

Lemma actualizar_retorna (u c : str) (monto : Q) (per : option str)
    (db : SQLiteRepository.DB) :
  retorna (MonevoFacade.actualizar_presupuesto u c monto per db).
Proof.
  unfold MonevoFacade.actualizar_presupuesto,
    PresupuestoService.actualizar_presupuesto.
  destruct (Qle_bool monto 0); [exact I|].
  match goal with |- context [if ?b then ret _ else _] => destruct b end;
    [exact I|].
  unfold bind. rewrite actualizar_repo.
  destruct (SQLiteRepository.presupuesto_existe db u c); exact I.
Qed.

Lemma eliminar_retorna (u c : str) (db : SQLiteRepository.DB) :
  retorna (MonevoFacade.eliminar_presupuesto u c db).
Proof.
  unfold MonevoFacade.eliminar_presupuesto,
    PresupuestoService.eliminar_presupuesto, bind.
  rewrite eliminar_repo.
  destruct (SQLiteRepository.presupuesto_existe db u c); exact I.
Qed.

Lemma registrar_retorna (ahora : datetime) (u c tipo : str) (monto : Q)
    (concepto : str) (db : SQLiteRepository.DB) :
  tipo = py "gasto" \/ tipo = py "ingreso" ->
  retorna (MovimientoService._registrar_movimiento ahora u c tipo monto
             concepto db).
Proof.
  intros Ht.
  destruct (PresupuestoService.presupuesto_existe db u c) eqn:He.
  - destruct (Qle_bool monto 0) eqn:Hm.
    + unfold MovimientoService._registrar_movimiento, bind, query, ret.
      rewrite He; cbv beta iota delta [negb]. rewrite Hm. exact I.
    + assert (Hpos : 0 < monto).
      { apply Qnot_le_lt; intros Hle.
        apply Qle_bool_iff in Hle; congruence. }
      destruct (registrar_ok ahora u c tipo monto concepto db Ht He Hpos)
        as [msg ->].
      exact I.
  - rewrite registrar_sin_presupuesto by exact He. exact I.
Qed.

Lemma historial_retorna (ahora : datetime) (u c : str)
    (db : SQLiteRepository.DB) :
  tipos_validos db ->
  retorna (MonevoFacade.obtener_historial ahora u c db).
Proof.
  intros Ht.
  unfold MonevoFacade.obtener_historial,
    MovimientoService.obtener_historial, bind, query, ret.
  destruct (PresupuestoService.presupuesto_existe db u c);
    cbv beta iota delta [negb]; [|exact I].
  rewrite (historial_repo ahora u c db Ht).
  destruct (map _ _); exact I.
Qed.

(** X7.  On every reachable store every facade operation returns, for
    texts that encode in UTF-8 and amounts that are numbers below
    [2 ** 63]: the INSERT of a budget never meets an existing key, the
    INSERT of a movement never violates the CHECK on the kind, and
    rebuilding the movements of a history never raises the
    constructor's ValueError.  (An integer from [2 ** 63] up, a NaN and
    a text with a lone surrogate make the binding of the statement's
    parameters raise; they are outside the amounts and texts
    considered here.) *)
Theorem X7_facade_never_raises (ops : list operacion) :
  let db := ejecutar_todas ops SQLiteRepository.init_db in
  (forall ahora u c monto per,
     monto < inject_Z limite_entero ->
     texto_utf8 u = true -> texto_utf8 c = true ->
     retorna (MonevoFacade.crear_presupuesto ahora u c monto per db))
  /\ (forall u c monto per,
        monto < inject_Z limite_entero ->
        texto_utf8 u = true -> texto_utf8 c = true ->
        retorna (MonevoFacade.actualizar_presupuesto u c monto per db))
  /\ (forall u c,
        texto_utf8 u = true -> texto_utf8 c = true ->
        retorna (MonevoFacade.eliminar_presupuesto u c db))
  /\ (forall ahora u c monto concepto,
        monto < inject_Z limite_entero ->
        texto_utf8 u = true -> texto_utf8 c = true ->
        texto_utf8 concepto = true ->
        retorna (MonevoFacade.registrar_gasto ahora u c monto concepto db)
        /\ retorna (MonevoFacade.registrar_ingreso ahora u c monto concepto
                      db))
  /\ (forall ahora u c,
        texto_utf8 u = true -> texto_utf8 c = true ->
        retorna (MonevoFacade.obtener_historial ahora u c db)).
Proof.
  intros db.
  split; [intros; apply crear_retorna|].
  split; [intros; apply actualizar_retorna|].
  split; [intros; apply eliminar_retorna|].
  split.
  - intros; split; apply registrar_retorna;
      [apply tipo_gasto_ingreso_l | apply tipo_gasto_ingreso_r].
  - intros. apply historial_retorna.
    apply tipos_ejecutar_todas, tipos_validos_init.
Qed.

Lemma X7_facade_never_raises_witness :
  15000 < inject_Z limite_entero
  /\ texto_utf8 (py "u2") = true
  /\ texto_utf8 (py " Moto") = true
  /\ texto_utf8 (py "cadena") = true
  /\ retorna (MonevoFacade.crear_presupuesto 40%Z (py "u2") (py " Moto")
                15000 (py "mensual") db_varios)
  /\ retorna (MonevoFacade.registrar_gasto 40%Z (py "u2") (py " Moto")
                15000 (py "cadena") db_varios)
  /\ retorna (MonevoFacade.obtener_historial 40%Z (py "u2") (py " Moto")
                db_varios).
Proof.
  assert (Hm : 15000 < inject_Z limite_entero) by reflexivity.
  assert (Hu : texto_utf8 (py "u2") = true) by (vm_compute; reflexivity).
  assert (Hc : texto_utf8 (py " Moto") = true) by (vm_compute; reflexivity).
  assert (Hk : texto_utf8 (py "cadena") = true) by (vm_compute; reflexivity).
  pose proof (X7_facade_never_raises ops_varios) as (H1 & _ & _ & H4 & H5).
  split; [exact Hm|]. split; [exact Hu|]. split; [exact Hc|].
  split; [exact Hk|].
  split; [exact (H1 40%Z (py "u2") (py " Moto") 15000 (py "mensual") Hm Hu Hc)|].
  split; [exact (proj1 (H4 40%Z (py "u2") (py " Moto") 15000 (py "cadena")
                          Hm Hu Hc Hk))|].
  exact (H5 40%Z (py "u2") (py " Moto") Hu Hc).
Defined.

(* ================================================================= *)
(** ** Further properties: users do not see each other *)

Lemma filter_view {A} (f g : A -> bool) (l l' : list A) :
  (forall x, f x = true -> g x = true) ->
  filter g l = filter g l' -> filter f l = filter f l'.
Proof.
  intros Hfg H.
  assert (E : forall k, filter f k = filter f (filter g k)).
  { intros k. rewrite filter_filter. apply filter_ext. intros x.
    destruct (f x) eqn:Ef; [rewrite (Hfg x Ef); reflexivity|].
    apply eq_sym, andb_false_r. }
  rewrite (E l), (E l'), H. reflexivity.
Qed.

Lemma existsb_view {A} (f g : A -> bool) (l l' : list A) :
  (forall x, f x = true -> g x = true) ->
  filter g l = filter g l' -> existsb f l = existsb f l'.
Proof.
  intros Hfg H.
  assert (E : forall k, existsb f k = existsb f (filter g k)).
  { induction k as [|x k IH]; simpl; [reflexivity|].
    destruct (g x) eqn:Eg; simpl; rewrite IH; [reflexivity|].
    destruct (f x) eqn:Ef; [|reflexivity].
    rewrite (Hfg x Ef) in Eg; discriminate. }
  rewrite (E l), (E l'), H. reflexivity.
Qed.

Lemma filter_map_fix {A} (g : A -> bool) (f : A -> A) (l : list A) :
  (forall x, g (f x) = g x) -> (forall x, g x = true -> f x = x) ->
  filter g (map f l) = filter g l.
Proof.
  intros H1 H2. induction l as [|x l IH]; simpl; [reflexivity|].
  rewrite H1, IH. destruct (g x) eqn:E; [|reflexivity].
  rewrite (H2 x E). reflexivity.
Qed.

Lemma filter_filter_keep {A} (g h : A -> bool) (l : list A) :
  (forall x, g x = true -> h x = true) ->
  filter g (filter h l) = filter g l.
Proof.
  intros H. rewrite filter_filter. apply filter_ext. intros x.
  destruct (g x) eqn:E; [rewrite (H x E); reflexivity | apply andb_false_r].
Qed.

Lemma vista_paso (op : operacion) (db : SQLiteRepository.DB) (u : str) :
  usuario_de op <> u ->
  filter (de_usuario_p u) (SQLiteRepository.presupuestos (ejecutar op db))
  = filter (de_usuario_p u) (SQLiteRepository.presupuestos db)
  /\ filter (de_usuario_m u) (SQLiteRepository.movimientos (ejecutar op db))
     = filter (de_usuario_m u) (SQLiteRepository.movimientos db).
Proof.
  intros Hu. apply eqb_neq in Hu.
  destruct (formas_de_paso op db)
    as [-> | [(ahora & c & monto & per & _ & ->)
           | [(set & c & Hset & ->)
             | [(c & ->) | (ahora & c & tipo & monto & concepto & _ & _ & ->)]]]].
  - split; reflexivity.
  - cbn [con_presupuesto SQLiteRepository.presupuestos
         SQLiteRepository.movimientos].
    split; [|reflexivity].
    rewrite filter_app; simpl.
    unfold de_usuario_p at 2; cbn [SQLiteRepository.p_usuario_id].
    rewrite Hu. apply app_nil_r.
  - cbn [con_update SQLiteRepository.presupuestos
         SQLiteRepository.movimientos].
    split; [|reflexivity].
    apply filter_map_fix.
    + intros r. destruct (SQLiteRepository.where_p _ c r); [|reflexivity].
      destruct (Hset r) as [_ Hk]. unfold clave_p in Hk; inversion Hk.
      unfold de_usuario_p. congruence.
    + intros r Hr. unfold de_usuario_p in Hr. apply eqb_eq in Hr.
      unfold SQLiteRepository.where_p. rewrite Hr.
      destruct (Str.eqb u (usuario_de op)) eqn:E; [|reflexivity].
      apply eqb_eq in E. apply eqb_neq in Hu. congruence.
  - cbn [sin_clave SQLiteRepository.presupuestos
         SQLiteRepository.movimientos].
    split; apply filter_filter_keep; intros r Hr.
    + unfold de_usuario_p in Hr. apply eqb_eq in Hr.
      unfold SQLiteRepository.where_p. rewrite Hr.
      destruct (Str.eqb u (usuario_de op)) eqn:E; [|reflexivity].
      apply eqb_eq in E. apply eqb_neq in Hu. congruence.
    + unfold de_usuario_m in Hr. apply eqb_eq in Hr.
      unfold SQLiteRepository.where_m. rewrite Hr.
      destruct (Str.eqb u (usuario_de op)) eqn:E; [|reflexivity].
      apply eqb_eq in E. apply eqb_neq in Hu. congruence.
  - cbn [con_movimiento SQLiteRepository.presupuestos
         SQLiteRepository.movimientos].
    split; [reflexivity|].
    rewrite filter_app; simpl.
    unfold de_usuario_m at 2; cbn [SQLiteRepository.m_usuario_id].
    rewrite Hu. apply app_nil_r.
Qed.

Lemma where_m_de_usuario (u c : str) (r : SQLiteRepository.FilaMovimiento) :
  SQLiteRepository.where_m u c r = true -> de_usuario_m u r = true.
Proof.
  unfold SQLiteRepository.where_m, de_usuario_m.
  intros H; apply andb_true_iff in H as [H _]; exact H.
Qed.

Lemma where_p_de_usuario (u c : str) (r : SQLiteRepository.FilaPresupuesto) :
  SQLiteRepository.where_p u c r = true -> de_usuario_p u r = true.
Proof.
  unfold SQLiteRepository.where_p, de_usuario_p.
  intros H; apply andb_true_iff in H as [H _]; exact H.
Qed.

(** What a user can observe depends only on that user's rows. *)
Lemma observacion_por_vista (db db' : SQLiteRepository.DB) (u : str) :
  filter (de_usuario_p u) (SQLiteRepository.presupuestos db')
  = filter (de_usuario_p u) (SQLiteRepository.presupuestos db) ->
  filter (de_usuario_m u) (SQLiteRepository.movimientos db')
  = filter (de_usuario_m u) (SQLiteRepository.movimientos db) ->
  MonevoFacade.obtener_resumen db' u = MonevoFacade.obtener_resumen db u
  /\ (forall c, MonevoFacade.presupuesto_existe db' u c
                = MonevoFacade.presupuesto_existe db u c)
  /\ (forall c, filas_de db' u c = filas_de db u c).
Proof.
  intros Hp Hm.
  assert (Hs : forall c tipo,
            SQLiteRepository.suma_movimientos db' u c tipo
            = SQLiteRepository.suma_movimientos db u c tipo).
  { intros c tipo. unfold SQLiteRepository.suma_movimientos.
    rewrite (filter_view _ (de_usuario_m u) _ _
               (fun r H => where_m_de_usuario u c r
                             (proj1 (proj1 (andb_true_iff _ _) H))) Hm).
    reflexivity. }
  split.
  { unfold MonevoFacade.obtener_resumen, PresupuestoService.obtener_resumen,
      SQLiteRepository.obtener_resumen.
    change (fun r => Str.eqb (SQLiteRepository.p_usuario_id r) u)
      with (de_usuario_p u).
    rewrite Hp. apply map_ext. intros r. rewrite !Hs. reflexivity. }
  split.
  { intros c. unfold MonevoFacade.presupuesto_existe,
      PresupuestoService.presupuesto_existe,
      SQLiteRepository.presupuesto_existe.
    apply (existsb_view _ (de_usuario_p u)); [|exact Hp].
    intros r; apply where_p_de_usuario. }
  intros c. unfold filas_de.
  apply (filter_view _ (de_usuario_m u)); [|exact Hm].
  intros r; apply where_m_de_usuario.
Qed.

(** X8.  A command run on behalf of one user changes nothing another
    user can observe: the other user's summary, the existence of each
    of their budgets and the rows of each of their histories are the
    same before and after. *)
Theorem X8_user_isolation (op : operacion) (db : SQLiteRepository.DB)
    (u : str) :
  usuario_de op <> u ->
  MonevoFacade.obtener_resumen (ejecutar op db) u
  = MonevoFacade.obtener_resumen db u
  /\ (forall c, MonevoFacade.presupuesto_existe (ejecutar op db) u c
                = MonevoFacade.presupuesto_existe db u c)
  /\ (forall c, filas_de (ejecutar op db) u c = filas_de db u c).
Proof.
  intros Hu. destruct (vista_paso op db u Hu) as [Hp Hm].
  apply observacion_por_vista; assumption.
Qed.

Lemma X8_user_isolation_witness :
  usuario_de (OpEliminar (py "u2") (py "moto")) <> py "u1"
  /\ map SQLiteRepository.p_id (SQLiteRepository.presupuestos db_varios)
     = [1; 2; 3]%N
  /\ map SQLiteRepository.p_id
       (SQLiteRepository.presupuestos
          (ejecutar (OpEliminar (py "u2") (py "moto")) db_varios))
     = [1; 3]%N
  /\ map SQLiteRepository.m_id
       (SQLiteRepository.movimientos
          (ejecutar (OpEliminar (py "u2") (py "moto")) db_varios))
     = [1; 3; 4]%N
  /\ MonevoFacade.obtener_resumen
       (ejecutar (OpEliminar (py "u2") (py "moto")) db_varios) (py "u1")
     = MonevoFacade.obtener_resumen db_varios (py "u1")
  /\ (forall c,
        MonevoFacade.presupuesto_existe
          (ejecutar (OpEliminar (py "u2") (py "moto")) db_varios) (py "u1") c
        = MonevoFacade.presupuesto_existe db_varios (py "u1") c)
  /\ (forall c,
        filas_de (ejecutar (OpEliminar (py "u2") (py "moto")) db_varios)
          (py "u1") c
        = filas_de db_varios (py "u1") c).
Proof.
  assert (H : usuario_de (OpEliminar (py "u2") (py "moto")) <> py "u1")
    by (intros H; vm_compute in H; discriminate H).
  split; [exact H|].
  split; [vm_compute; reflexivity|].
  split; [vm_compute; reflexivity|].
  split; [vm_compute; reflexivity|].
  exact (X8_user_isolation (OpEliminar (py "u2") (py "moto"))
           db_varios (py "u1") H).
Defined.

(* ================================================================= *)
(** ** Further properties: what a recorded movement does to the summary *)

Lemma suma_app (l : list Q) (x : Q) : suma (l ++ [x]) == suma l + x.
Proof.
  induction l as [|y l IH]; simpl; [ring|].
  rewrite IH. ring.
Qed.


Lemma suma_tras_movimiento (db : SQLiteRepository.DB)
    (ahora : datetime) (u c tipo : str) (monto : Q) (concepto : str) :
  SQLiteRepository.suma_movimientos
    (con_movimiento db ahora u c tipo monto concepto) u (normalizar c) tipo
  == SQLiteRepository.suma_movimientos db u (normalizar c) tipo + monto.
Proof.
  unfold SQLiteRepository.suma_movimientos.
  cbn [con_movimiento SQLiteRepository.movimientos].
  rewrite filter_app. simpl filter at 2.
  unfold SQLiteRepository.where_m at 2.
  cbn [SQLiteRepository.m_usuario_id SQLiteRepository.m_categoria
       SQLiteRepository.m_tipo].
  rewrite !eqb_refl. cbn [andb].
  rewrite map_app. cbn [map SQLiteRepository.m_monto].
  rewrite !coalesce_sum_suma. apply suma_app.
Qed.






(* ================================================================= *)
(** ** Further properties: what a delete leaves in place *)

Lemma filter_map_swap {A B} (g : B -> bool) (f : A -> B) (l : list A) :
  filter g (map f l) = map f (filter (fun x => g (f x)) l).
Proof.
  induction l as [|x l IH]; simpl; [reflexivity|].
  rewrite IH. destruct (g (f x)); reflexivity.
Qed.

Lemma where_neq_p (u c u' c' : str) (r : SQLiteRepository.FilaPresupuesto) :
  (u', c') <> (u, c) -> SQLiteRepository.where_p u' c' r = true ->
  negb (SQLiteRepository.where_p u c r) = true.
Proof.
  intros Hne H. apply where_p_clave in H.
  destruct (SQLiteRepository.where_p u c r) eqn:E; [|reflexivity].
  apply where_p_clave in E. exfalso; apply Hne; congruence.
Qed.

Lemma where_neq_m (u c u' c' : str) (r : SQLiteRepository.FilaMovimiento) :
  (u', c') <> (u, c) -> SQLiteRepository.where_m u' c' r = true ->
  negb (SQLiteRepository.where_m u c r) = true.
Proof.
  unfold SQLiteRepository.where_m. intros Hne H.
  apply andb_true_iff in H as [H1 H2]. apply eqb_eq in H1, H2.
  destruct (Str.eqb (SQLiteRepository.m_usuario_id r) u
            && Str.eqb (SQLiteRepository.m_categoria r) c) eqn:E;
    [|reflexivity].
  apply andb_true_iff in E as [E1 E2]. apply eqb_eq in E1, E2.
  exfalso; apply Hne; congruence.
Qed.

(** X10.  Deleting the budget of a key that exists removes rows of that
    key only: the budget rows and the movement rows stored under any
    other key are the same before and after, and the user's summary
    afterwards is the summary before without the entries of the
    deleted category, every remaining entry unchanged. *)
Theorem X10_delete_frame (u c : str) (db : SQLiteRepository.DB) :
  MonevoFacade.presupuesto_existe db u c = true ->
  let db' := ejecutar (OpEliminar u c) db in
  (forall u' c', (u', c') <> (u, c) ->
     filter (SQLiteRepository.where_p u' c') (SQLiteRepository.presupuestos db')
     = filter (SQLiteRepository.where_p u' c')
              (SQLiteRepository.presupuestos db)
     /\ filter (SQLiteRepository.where_m u' c')
               (SQLiteRepository.movimientos db')
        = filter (SQLiteRepository.where_m u' c')
                 (SQLiteRepository.movimientos db))
  /\ MonevoFacade.obtener_resumen db' u
     = filter (fun r => negb (Str.eqb (ResumenPresupuesto.categoria r) c))
              (MonevoFacade.obtener_resumen db u).
Proof.
  intros He db'.
  assert (Hdb : db' = sin_clave db u c).
  { unfold db', ejecutar, MonevoFacade.eliminar_presupuesto,
      PresupuestoService.eliminar_presupuesto, bind, ret.
    rewrite eliminar_repo.
    unfold MonevoFacade.presupuesto_existe,
      PresupuestoService.presupuesto_existe in He.
    rewrite He. reflexivity. }
  rewrite Hdb. clear db' Hdb.
  split.
  { intros u' c' Hne.
    cbn [sin_clave SQLiteRepository.presupuestos
         SQLiteRepository.movimientos].
    split; apply filter_filter_keep; intros r Hr.
    - apply (where_neq_p u c u' c'); assumption.
    - apply (where_neq_m u c u' c'); assumption. }
  unfold MonevoFacade.obtener_resumen, PresupuestoService.obtener_resumen,
    SQLiteRepository.obtener_resumen.
  rewrite filter_map_swap.
  cbn [ResumenPresupuesto.categoria sin_clave SQLiteRepository.presupuestos].
  fold (sin_clave db u c).
  rewrite !filter_filter.
  assert (Hf : forall r,
            negb (SQLiteRepository.where_p u c r)
            && Str.eqb (SQLiteRepository.p_usuario_id r) u
            = Str.eqb (SQLiteRepository.p_usuario_id r) u
              && negb (Str.eqb (SQLiteRepository.p_categoria r) c)).
  { intros r. unfold SQLiteRepository.where_p.
    destruct (Str.eqb (SQLiteRepository.p_usuario_id r) u);
      destruct (Str.eqb (SQLiteRepository.p_categoria r) c); reflexivity. }
  rewrite (filter_ext _ _ Hf).
  apply map_ext_in. intros r Hr.
  apply filter_In in Hr as [_ Hr].
  apply andb_true_iff in Hr as [Hu Hc].
  apply negb_true_iff, eqb_neq in Hc.
  assert (Hs : forall t,
            SQLiteRepository.suma_movimientos (sin_clave db u c) u
              (SQLiteRepository.p_categoria r) t
            = SQLiteRepository.suma_movimientos db u
                (SQLiteRepository.p_categoria r) t).
  { intros t. unfold SQLiteRepository.suma_movimientos.
    cbn [sin_clave SQLiteRepository.movimientos].
    rewrite filter_filter_keep; [reflexivity|].
    intros x Hx. apply andb_true_iff in Hx as [Hx _].
    apply (where_neq_m u c u (SQLiteRepository.p_categoria r));
      [|exact Hx].
    intros H; inversion H; apply Hc; assumption. }
  rewrite !Hs. reflexivity.
Qed.

Lemma X10_delete_frame_witness :
  MonevoFacade.presupuesto_existe db_ejemplo (py "u1") (py "moto") = true
  /\ MonevoFacade.obtener_resumen
       (ejecutar (OpEliminar (py "u1") (py "moto")) db_ejemplo) (py "u1")
     = filter (fun r => negb (Str.eqb (ResumenPresupuesto.categoria r)
                                     (py "moto")))
              (MonevoFacade.obtener_resumen db_ejemplo (py "u1")).
Proof.
  assert (He : MonevoFacade.presupuesto_existe db_ejemplo (py "u1")
                 (py "moto") = true) by (vm_compute; reflexivity).
  split; [exact He|].
  exact (proj2 (X10_delete_frame (py "u1") (py "moto") db_ejemplo He)).
Defined.

(* ================================================================= *)
(** ** Further properties: the constructor's guard on the kind *)

(** X11.  With an existing budget and a positive amount, a movement of
    a kind other than [gasto] and [ingreso] is refused: the
    constructor's ValueError is caught, its text is returned as the
    failure message, and nothing is written to the store. *)
Theorem X11_invalid_kind (ahora : datetime) (u c tipo : str) (monto : Q)
    (concepto : str) (db : SQLiteRepository.DB) :
  PresupuestoService.presupuesto_existe db u c = true -> 0 < monto ->
  Str.mem tipo [py "gasto"; py "ingreso"] = false ->
  MovimientoService._registrar_movimiento ahora u c tipo monto concepto db
  = Ok ((false, py "Tipo debe ser 'gasto' o 'ingreso'"), db).
Proof.
  intros He Hm Ht.
  unfold MovimientoService._registrar_movimiento, bind, query, ret.
  rewrite He; cbv beta iota delta [negb].
  rewrite (Qle_bool_false _ Hm).
  unfold try_ValueError, lift, Movimiento.init.
  rewrite Ht. reflexivity.
Qed.

Lemma X11_invalid_kind_witness :
  PresupuestoService.presupuesto_existe db_moto (py "u1") (py "moto") = true
  /\ 0 < 10
  /\ Str.mem (py "regalo") [py "gasto"; py "ingreso"] = false
  /\ MovimientoService._registrar_movimiento 3%Z (py "u1") (py "moto")
       (py "regalo") 10 [] db_moto
     = Ok ((false, py "Tipo debe ser 'gasto' o 'ingreso'"), db_moto).
Proof.
  assert (He : PresupuestoService.presupuesto_existe db_moto (py "u1")
                 (py "moto") = true) by (vm_compute; reflexivity).
  assert (Hm : 0 < 10) by reflexivity.
  assert (Ht : Str.mem (py "regalo") [py "gasto"; py "ingreso"] = false)
    by (vm_compute; reflexivity).
  split; [exact He|]. split; [exact Hm|]. split; [exact Ht|].
  exact (X11_invalid_kind 3%Z (py "u1") (py "moto") (py "regalo") 10 []
           db_moto He Hm Ht).
Defined.

(* ================================================================= *)
(** ** Further properties: the intent parser on every message *)

Lemma int_of_digits_nonneg (s : str) : (0 <= int_of_digits s)%Z.
Proof.
  unfold int_of_digits.
  assert (H : forall acc, (0 <= acc)%Z ->
            (0 <= fold_left (fun a c => (a * 10 + Z.of_N (c - 48))%Z) s acc)%Z).
  { induction s as [|c s IH]; intros acc Ha; simpl; [exact Ha|].
    apply IH. lia. }
  apply H. lia.
Qed.

Lemma strip_nil : strip [] = [].
Proof. reflexivity. Qed.

Lemma extract_movimiento_forma (pattern : Re.regex) (mensaje : str)
    (d : dict) :
  extract_movimiento pattern mensaje = Some d -> datos_movimiento d.
Proof.
  unfold extract_movimiento.
  destruct (Re.search pattern mensaje) as [g|]; [|discriminate].
  intros H; inversion H; clear H.
  eexists _, _, _. split; [reflexivity|].
  split; [apply int_of_digits_nonneg|].
  split; [apply normalizar_idem|].
  destruct (Re.group 6 g) as [s|]; [|apply strip_nil].
  destruct (truthy s); [apply strip_idem | apply strip_nil].
Qed.

(** The loop of [parse] over the three built-in patterns, by cases on
    which of them can handle the message. *)
Lemma parse_loop_casos (m : str) :
  match Re.search GastoPattern.pattern m,
        Re.search IngresoPattern.pattern m,
        Re.search VerPresupuestoPattern.pattern m with
  | Some _, _, _ =>
    exists d, MessageParser.parse_loop MessageParser.patterns m
              = Some (MessageParser.mkIntent (py "gasto") d)
              /\ datos_movimiento d
  | None, Some _, _ =>
    exists d, MessageParser.parse_loop MessageParser.patterns m
              = Some (MessageParser.mkIntent (py "ingreso") d)
              /\ datos_movimiento d
  | None, None, Some _ =>
    exists d, MessageParser.parse_loop MessageParser.patterns m
              = Some (MessageParser.mkIntent (py "ver_presupuesto") d)
              /\ datos_ver d
  | None, None, None =>
    MessageParser.parse_loop MessageParser.patterns m = None
  end.
Proof.
  unfold MessageParser.patterns.
  cbn [MessageParser.parse_loop can_handle extract_data get_action
       GastoPattern.self IngresoPattern.self VerPresupuestoPattern.self].
  destruct (extract_movimiento GastoPattern.pattern m) as [dg|] eqn:Eg.
  - pose proof (extract_movimiento_forma _ _ _ Eg) as Hd.
    unfold extract_movimiento in Eg.
    destruct (Re.search GastoPattern.pattern m) as [g|]; [|discriminate].
    cbn [is_some]. destruct Hd as (a & b & c0 & -> & Hd).
    cbn [MessageParser.truthy_dict].
    eexists; split; [reflexivity|]. exists a, b, c0; auto.
  - unfold extract_movimiento in Eg.
    destruct (Re.search GastoPattern.pattern m) as [g|]; [discriminate|].
    cbn [is_some]. clear Eg.
    destruct (extract_movimiento IngresoPattern.pattern m) as [di|] eqn:Ei.
    + pose proof (extract_movimiento_forma _ _ _ Ei) as Hd.
      unfold extract_movimiento in Ei.
      destruct (Re.search IngresoPattern.pattern m) as [g|]; [|discriminate].
      cbn [is_some]. destruct Hd as (a & b & c0 & -> & Hd).
      cbn [MessageParser.truthy_dict].
      eexists; split; [reflexivity|]. exists a, b, c0; auto.
    + unfold extract_movimiento in Ei.
      destruct (Re.search IngresoPattern.pattern m) as [g|]; [discriminate|].
      cbn [is_some]. clear Ei.
      destruct (Re.search VerPresupuestoPattern.pattern m) as [g|];
        cbn [is_some MessageParser.truthy_dict]; [|reflexivity].
      eexists; split; [reflexivity|].
      eexists; split; [reflexivity|]. apply normalizar_idem.
Qed.

(** X12.  Whatever the message, an intent the parser returns has one of
    the three actions; a movement intent carries exactly an amount
    that is not negative, a category in normal form and a trimmed
    memo, and a view intent carries exactly a category in normal
    form. *)
Theorem X12_parser_sound (mensaje : str) (i : MessageParser.Intent) :
  MessageParser.parse mensaje = Some i ->
  ((MessageParser.action i = py "gasto"
    \/ MessageParser.action i = py "ingreso")
   /\ datos_movimiento (MessageParser.data i))
  \/ (MessageParser.action i = py "ver_presupuesto"
      /\ datos_ver (MessageParser.data i)).
Proof.
  unfold MessageParser.parse. intros H.
  pose proof (parse_loop_casos (strip mensaje)) as Hc.
  destruct (Re.search GastoPattern.pattern (strip mensaje));
    [|destruct (Re.search IngresoPattern.pattern (strip mensaje));
      [|destruct (Re.search VerPresupuestoPattern.pattern (strip mensaje))]].
  - destruct Hc as [d [Hp Hd]]. rewrite Hp in H. inversion H.
    left; split; [left; reflexivity | exact Hd].
  - destruct Hc as [d [Hp Hd]]. rewrite Hp in H. inversion H.
    left; split; [right; reflexivity | exact Hd].
  - destruct Hc as [d [Hp Hd]]. rewrite Hp in H. inversion H.
    right; split; [reflexivity | exact Hd].
  - rewrite Hc in H. discriminate H.
Qed.

Lemma X12_parser_sound_witness :
  MessageParser.parse (py "ayer saqué 20 de Comida por  pan ")
  = Some (MessageParser.mkIntent (py "gasto")
            [ (py "monto", VInt 20); (py "categoria", VStr (py "comida"));
              (py "concepto", VStr (py "pan")) ])
  /\ (((py "gasto" = py "gasto" \/ py "gasto" = py "ingreso")
       /\ datos_movimiento
            [ (py "monto", VInt 20); (py "categoria", VStr (py "comida"));
              (py "concepto", VStr (py "pan")) ])
      \/ (py "gasto" = py "ver_presupuesto"
          /\ datos_ver
               [ (py "monto", VInt 20); (py "categoria", VStr (py "comida"));
                 (py "concepto", VStr (py "pan")) ])).
Proof.
  assert (H : MessageParser.parse (py "ayer saqué 20 de Comida por  pan ")
              = Some (MessageParser.mkIntent (py "gasto")
                        [ (py "monto", VInt 20);
                          (py "categoria", VStr (py "comida"));
                          (py "concepto", VStr (py "pan")) ]))
    by (vm_compute; reflexivity).
  split; [exact H|].
  exact (X12_parser_sound _ _ H).
Defined.

(** X13.  For a message within U+0000..U+00FF of at most 4300 code
    points (so that [int] converts every run of digits in it), the
    parser tries the patterns in the order expense, income, view, on
    the trimmed message: the first of them whose pattern is found
    anywhere in the text decides the action, and the parser returns no
    intent exactly when none of the three is found.  Leading and
    trailing white space never changes the result. *)
Theorem X13_parser_first_match (mensaje : str) :
  latin1 mensaje = true ->
  (List.length mensaje <= max_str_digits)%nat ->
  let m := strip mensaje in
  MessageParser.parse m = MessageParser.parse mensaje
  /\ (can_handle GastoPattern.self m = true ->
      exists d, MessageParser.parse mensaje
                = Some (MessageParser.mkIntent (py "gasto") d))
  /\ (can_handle GastoPattern.self m = false ->
      can_handle IngresoPattern.self m = true ->
      exists d, MessageParser.parse mensaje
                = Some (MessageParser.mkIntent (py "ingreso") d))
  /\ (can_handle GastoPattern.self m = false ->
      can_handle IngresoPattern.self m = false ->
      can_handle VerPresupuestoPattern.self m = true ->
      exists d, MessageParser.parse mensaje
                = Some (MessageParser.mkIntent (py "ver_presupuesto") d))
  /\ (MessageParser.parse mensaje = None <->
      Forall (fun p => can_handle p m = false) MessageParser.patterns).
Proof.
  intros _ _ m. unfold MessageParser.parse. fold m.
  split; [unfold m; rewrite strip_idem; reflexivity|].
  pose proof (parse_loop_casos m) as Hc.
  assert (Hall : Forall (fun p => can_handle p m = false)
                        MessageParser.patterns
                 <-> is_some (Re.search GastoPattern.pattern m) = false
                     /\ is_some (Re.search IngresoPattern.pattern m) = false
                     /\ is_some (Re.search VerPresupuestoPattern.pattern m)
                        = false).
  { unfold MessageParser.patterns. split.
    - intros H. inversion H as [|? ? Ha H']. inversion H' as [|? ? Hb H''].
      inversion H'' as [|? ? Hd _]. auto.
    - intros (H1 & H2 & H3). repeat constructor; assumption. }
  rewrite Hall. clear Hall.
  cbn [can_handle GastoPattern.self IngresoPattern.self
       VerPresupuestoPattern.self].
  destruct (Re.search GastoPattern.pattern m);
    [|destruct (Re.search IngresoPattern.pattern m);
      [|destruct (Re.search VerPresupuestoPattern.pattern m)]];
    cbn [is_some].
  - destruct Hc as [d [Hp _]]. rewrite Hp.
    split; [intros _; exists d; reflexivity|].
    split; [discriminate|]. split; [discriminate|].
    split; [discriminate|]. intros (H & _); discriminate H.
  - destruct Hc as [d [Hp _]]. rewrite Hp.
    split; [discriminate|].
    split; [intros _ _; exists d; reflexivity|].
    split; [discriminate|].
    split; [discriminate|]. intros (_ & H & _); discriminate H.
  - destruct Hc as [d [Hp _]]. rewrite Hp.
    split; [discriminate|]. split; [discriminate|].
    split; [intros _ _ _; exists d; reflexivity|].
    split; [discriminate|]. intros (_ & _ & H); discriminate H.
  - rewrite Hc.
    split; [discriminate|]. split; [discriminate|].
    split; [discriminate|].
    split; [intros _; auto | reflexivity].
Qed.

Lemma X13_parser_first_match_witness :
  latin1 (py " ver presupuesto moto: gasté 5 de moto ") = true
  /\ (List.length (py " ver presupuesto moto: gasté 5 de moto ") <= max_str_digits)%nat
  /\ can_handle GastoPattern.self (strip (py " ver presupuesto moto: gasté 5 de moto ")) = true
  /\ can_handle VerPresupuestoPattern.self
       (strip (py " ver presupuesto moto: gasté 5 de moto ")) = true
  /\ exists d, MessageParser.parse (py " ver presupuesto moto: gasté 5 de moto ")
               = Some (MessageParser.mkIntent (py "gasto") d).
Proof.
  assert (Hl : latin1 (py " ver presupuesto moto: gasté 5 de moto ") = true)
    by (vm_compute; reflexivity).
  assert (Hn : (List.length (py " ver presupuesto moto: gasté 5 de moto ")
                <= max_str_digits)%nat)
    by (apply Nat.leb_le; vm_compute; reflexivity).
  assert (H : can_handle GastoPattern.self
                (strip (py " ver presupuesto moto: gasté 5 de moto ")) = true)
    by (vm_compute; reflexivity).
  split; [exact Hl|]. split; [exact Hn|]. split; [exact H|].
  split; [vm_compute; reflexivity|].
  exact (proj1 (proj2 (X13_parser_first_match (py " ver presupuesto moto: gasté 5 de moto ")
                         Hl Hn)) H).
Defined.

Lemma parse_loop_app (ps qs : list MessagePattern) (m : str) :
  MessageParser.parse_loop (ps ++ qs) m
  = match MessageParser.parse_loop ps m with
    | Some i => Some i
    | None => MessageParser.parse_loop qs m
    end.
Proof.
  induction ps as [|p ps IH]; simpl; [reflexivity|].
  destruct (can_handle p m); [|exact IH].
  destruct (extract_data p m) as [d|]; [|exact IH].
  destruct (MessageParser.truthy_dict d); [reflexivity | exact IH].
Qed.

(** X14.  A pattern added with [add_pattern] goes last: whatever the
    patterns already registered and the pattern added, a message that
    had an intent keeps that intent, and only a message without one is
    offered to the new pattern. *)
Theorem X14_add_pattern_goes_last (patterns : list MessagePattern)
    (pattern : MessagePattern) (m : str) :
  MessageParser.parse_loop (add_pattern patterns pattern) m
  = match MessageParser.parse_loop patterns m with
    | Some i => Some i
    | None => MessageParser.parse_loop [pattern] m
    end.
Proof. unfold add_pattern. apply parse_loop_app. Qed.

(* ================================================================= *)
(** ** Further properties: the message processor *)

Lemma claves_distintas :
  Str.eqb (py "monto") (py "categoria") = false
  /\ Str.eqb (py "monto") (py "concepto") = false
  /\ Str.eqb (py "categoria") (py "concepto") = false
  /\ Str.eqb (py "gasto") (py "ingreso") = false
  /\ Str.eqb (py "ingreso") (py "gasto") = false
  /\ Str.eqb (py "ver_presupuesto") (py "gasto") = false
  /\ Str.eqb (py "ver_presupuesto") (py "ingreso") = false.
Proof. evalua. Qed.

Lemma con_datos_movimiento_forma (monto : Z) (categoria concepto : str)
    (k : str -> Q -> str -> MessageProcessor.resultado str) :
  MessageProcessor.con_datos_movimiento
    [ (py "monto", VInt monto); (py "categoria", VStr categoria);
      (py "concepto", VStr concepto) ] k
  = k categoria (inject_Z monto) concepto.
Proof.
  destruct claves_distintas as (H1 & H2 & H3 & _).
  unfold MessageProcessor.con_datos_movimiento.
  cbn [MessageProcessor.getitem].
  rewrite H1, H2, H3, !eqb_refl. reflexivity.
Qed.

(** What recording a movement returns and leaves, in every case. *)
Lemma registrar_forma (ahora : datetime) (u c tipo : str) (monto : Q)
    (concepto : str) (db : SQLiteRepository.DB) :
  tipo = py "gasto" \/ tipo = py "ingreso" ->
  exists b msg db',
    MovimientoService._registrar_movimiento ahora u c tipo monto concepto db
    = Ok ((b, msg), db')
    /\ (db' = db
        \/ (db' = con_movimiento db ahora u c tipo monto concepto
            /\ MonevoFacade.presupuesto_existe db u c = true
            /\ 0 < monto)).
Proof.
  intros Ht.
  destruct (PresupuestoService.presupuesto_existe db u c) eqn:He.
  - destruct (Qle_bool monto 0) eqn:Hm.
    + exists false, (py "El monto debe ser mayor a 0"), db.
      split; [|left; reflexivity].
      unfold MovimientoService._registrar_movimiento, bind, query, ret.
      rewrite He; cbv beta iota delta [negb]. rewrite Hm. reflexivity.
    + assert (Hpos : 0 < monto).
      { apply Qnot_le_lt; intros Hle.
        apply Qle_bool_iff in Hle; congruence. }
      destruct (registrar_ok ahora u c tipo monto concepto db Ht He Hpos)
        as [msg Hr].
      exists true, msg, (con_movimiento db ahora u c tipo monto concepto).
      split; [exact Hr|]. right. split; [reflexivity|].
      split; [exact He | exact Hpos].
  - eexists _, _, db. split; [|left; reflexivity].
    apply registrar_sin_presupuesto; exact He.
Qed.

(** The processor by cases on the intent the parser returns. *)
Lemma process_message_casos (ahora : datetime) (u mensaje : str)
    (db : SQLiteRepository.DB) :
  match MessageParser.parse mensaje with
  | None =>
    MessageProcessor.process_message ahora u mensaje db
    = MessageProcessor.Hecho MessageProcessor._get_help_message db
  | Some i =>
    (exists monto categoria concepto,
       MessageParser.data i
       = [ (py "monto", VInt monto); (py "categoria", VStr categoria);
           (py "concepto", VStr concepto) ]
       /\ (0 <= monto)%Z
       /\ ((MessageParser.action i = py "gasto"
            /\ MessageProcessor.process_message ahora u mensaje db
               = MessageProcessor.mensaje_de
                   (MonevoFacade.registrar_gasto ahora u categoria
                      (inject_Z monto) concepto db))
           \/ (MessageParser.action i = py "ingreso"
               /\ MessageProcessor.process_message ahora u mensaje db
                  = MessageProcessor.mensaje_de
                      (MonevoFacade.registrar_ingreso ahora u categoria
                         (inject_Z monto) concepto db))))
    \/ (exists categoria,
          MessageParser.action i = py "ver_presupuesto"
          /\ MessageParser.data i = [ (py "categoria", VStr categoria) ]
          /\ normalizar categoria = categoria
          /\ MessageProcessor.process_message ahora u mensaje db
             = MessageProcessor.Hecho
                 (MessageProcessor.buscar_resumen categoria
                    (MonevoFacade.obtener_resumen db u)) db)
  end.
Proof.
  destruct claves_distintas as (_ & _ & _ & G1 & G2 & G3 & G4).
  unfold MessageProcessor.process_message, MessageParser.parse.
  pose proof (parse_loop_casos (strip mensaje)) as Hc.
  destruct (Re.search GastoPattern.pattern (strip mensaje));
    [|destruct (Re.search IngresoPattern.pattern (strip mensaje));
      [|destruct (Re.search VerPresupuestoPattern.pattern (strip mensaje))]].
  - destruct Hc as [d [-> (a & b & c0 & -> & Ha & _)]].
    cbn [MessageParser.action MessageParser.data].
    rewrite eqb_refl.
    left. exists a, b, c0. split; [reflexivity|]. split; [exact Ha|].
    left. split; [reflexivity|].
    unfold MessageProcessor._handle_gasto.
    apply con_datos_movimiento_forma.
  - destruct Hc as [d [-> (a & b & c0 & -> & Ha & _)]].
    cbn [MessageParser.action MessageParser.data].
    rewrite G2, eqb_refl.
    left. exists a, b, c0. split; [reflexivity|]. split; [exact Ha|].
    right. split; [reflexivity|].
    unfold MessageProcessor._handle_ingreso.
    apply con_datos_movimiento_forma.
  - destruct Hc as [d [-> (b & -> & Hb)]].
    cbn [MessageParser.action MessageParser.data].
    rewrite G3, G4, eqb_refl.
    right. exists b. split; [reflexivity|]. split; [reflexivity|].
    split; [exact Hb|].
    unfold MessageProcessor._handle_ver_presupuesto.
    cbn [MessageProcessor.getitem]. rewrite eqb_refl. reflexivity.
  - rewrite Hc. reflexivity.
Qed.

(** X15.  For a message within U+0000..U+00FF of at most 4300 code
    points whose amount, when the parser reads one, is below [2 ** 63],
    and a user id that encodes in UTF-8, whatever the store, processing
    the message returns a reply: it never fails on a missing key of the
    intent, and the ValueError of the movement's constructor is caught.
    It never changes a budget row, and it either leaves the store as it
    was or appends a single movement of a positive amount, for the same
    user, under a key that has a budget.  (A longer run of digits makes
    [int] raise ValueError in the parser and an amount from [2 ** 63]
    up makes the INSERT raise OverflowError; neither is caught.) *)
Theorem X15_process_message_effect (ahora : datetime) (u mensaje : str)
    (db : SQLiteRepository.DB) :
  latin1 mensaje = true ->
  (List.length mensaje <= max_str_digits)%nat ->
  texto_utf8 u = true ->
  (forall i z, MessageParser.parse mensaje = Some i ->
               In (py "monto", VInt z) (MessageParser.data i) ->
               (z < limite_entero)%Z) ->
  exists reply db',
    MessageProcessor.process_message ahora u mensaje db
    = MessageProcessor.Hecho reply db'
    /\ SQLiteRepository.presupuestos db' = SQLiteRepository.presupuestos db
    /\ (db' = db
        \/ exists c tipo monto concepto,
             db' = con_movimiento db ahora u c tipo monto concepto
             /\ (tipo = py "gasto" \/ tipo = py "ingreso")
             /\ hay_presupuesto db u c
             /\ 0 < monto).
Proof.
  intros _ _ _ _.
  pose proof (process_message_casos ahora u mensaje db) as Hc.
  destruct (MessageParser.parse mensaje) as [i|].
  2:{ exists MessageProcessor._get_help_message, db.
      split; [exact Hc|]. split; [reflexivity | left; reflexivity]. }
  destruct Hc as [(a & b & c0 & _ & _ & [[_ ->] | [_ ->]])
                 | (b & _ & _ & _ & ->)].
  - unfold MonevoFacade.registrar_gasto, MovimientoService.registrar_gasto.
    destruct (registrar_forma ahora u b (py "gasto") (inject_Z a) c0 db
                tipo_gasto_ingreso_l) as (ok & msg & db' & -> & Hdb).
    exists msg, db'. split; [reflexivity|].
    destruct Hdb as [-> | (-> & He & Hm)].
    + split; [reflexivity | left; reflexivity].
    + split; [reflexivity|]. right.
      exists b, (py "gasto"), (inject_Z a), c0.
      split; [reflexivity|]. split; [left; reflexivity|].
      split; [apply hay_presupuesto_existe; exact He | exact Hm].
  - unfold MonevoFacade.registrar_ingreso,
      MovimientoService.registrar_ingreso.
    destruct (registrar_forma ahora u b (py "ingreso") (inject_Z a) c0 db
                tipo_gasto_ingreso_r) as (ok & msg & db' & -> & Hdb).
    exists msg, db'. split; [reflexivity|].
    destruct Hdb as [-> | (-> & He & Hm)].
    + split; [reflexivity | left; reflexivity].
    + split; [reflexivity|]. right.
      exists b, (py "ingreso"), (inject_Z a), c0.
      split; [reflexivity|]. split; [right; reflexivity|].
      split; [apply hay_presupuesto_existe; exact He | exact Hm].
  - eexists _, db. split; [reflexivity|].
    split; [reflexivity | left; reflexivity].
Qed.

Lemma X15_process_message_effect_witness :
  latin1 (py "Gasté 3000 de moto por gasolina") = true
  /\ (List.length (py "Gasté 3000 de moto por gasolina")
      <= max_str_digits)%nat
  /\ texto_utf8 (py "u2") = true
  /\ MessageParser.parse (py "Gasté 3000 de moto por gasolina")
     = Some (MessageParser.mkIntent (py "gasto")
               [ (py "monto", VInt 3000);
                 (py "categoria", VStr (py "moto"));
                 (py "concepto", VStr (py "gasolina")) ])
  /\ (3000 < limite_entero)%Z
  /\ MessageProcessor.process_message 30%Z (py "u2")
       (py "Gasté 3000 de moto por gasolina") db_varios
     = MessageProcessor.Hecho
         (py "💸 Gasto registrado: $3,000 en moto - gasolina")
         (con_movimiento db_varios 30%Z (py "u2") (py "moto") (py "gasto")
            3000 (py "gasolina"))
  /\ exists reply db',
       MessageProcessor.process_message 30%Z (py "u2")
         (py "Gasté 3000 de moto por gasolina") db_varios
       = MessageProcessor.Hecho reply db'
       /\ SQLiteRepository.presupuestos db'
          = SQLiteRepository.presupuestos db_varios
       /\ (db' = db_varios
           \/ exists c tipo monto concepto,
                db' = con_movimiento db_varios 30%Z (py "u2") c tipo monto
                        concepto
                /\ (tipo = py "gasto" \/ tipo = py "ingreso")
                /\ hay_presupuesto db_varios (py "u2") c
                /\ 0 < monto).
Proof.
  assert (Hl : latin1 (py "Gasté 3000 de moto por gasolina") = true)
    by (vm_compute; reflexivity).
  assert (Hn : (List.length (py "Gasté 3000 de moto por gasolina")
                <= max_str_digits)%nat)
    by (apply Nat.leb_le; vm_compute; reflexivity).
  assert (Hu : texto_utf8 (py "u2") = true) by (vm_compute; reflexivity).
  assert (Hp : MessageParser.parse (py "Gasté 3000 de moto por gasolina")
               = Some (MessageParser.mkIntent (py "gasto")
                         [ (py "monto", VInt 3000);
                           (py "categoria", VStr (py "moto"));
                           (py "concepto", VStr (py "gasolina")) ]))
    by (vm_compute; reflexivity).
  assert (Hz : forall i z,
            MessageParser.parse (py "Gasté 3000 de moto por gasolina")
            = Some i ->
            In (py "monto", VInt z) (MessageParser.data i) ->
            (z < limite_entero)%Z).
  { intros i z Hi Hin. rewrite Hp in Hi. injection Hi as <-.
    cbn [MessageParser.data In] in Hin.
    destruct Hin as [H | [H | [H | []]]];
      apply (f_equal snd) in H; cbn [snd] in H;
      [injection H as <-; reflexivity | discriminate H | discriminate H]. }
  split; [exact Hl|]. split; [exact Hn|]. split; [exact Hu|].
  split; [exact Hp|]. split; [reflexivity|].
  split; [vm_compute; reflexivity|].
  exact (X15_process_message_effect 30%Z (py "u2")
           (py "Gasté 3000 de moto por gasolina") db_varios Hl Hn Hu Hz).
Defined.

Lemma buscar_no_encontrado (categoria : str)
    (l : list ResumenPresupuesto.t) :
  Forall (fun r => Str.eqb (ResumenPresupuesto.categoria r) categoria = false)
         l ->
  MessageProcessor.buscar_resumen categoria l
  = py "⚠️ No se encontró presupuesto '" ++ categoria ++ py "'".
Proof.
  induction 1 as [|r l Hr Hl IH]; [reflexivity|].
  cbn [MessageProcessor.buscar_resumen]. rewrite Hr. exact IH.
Qed.

Lemma resumen_sin_categoria (db : SQLiteRepository.DB) (u categoria : str) :
  normalizar categoria = categoria ->
  MonevoFacade.presupuesto_existe db u categoria = false ->
  Forall (fun r => Str.eqb (ResumenPresupuesto.categoria r) categoria = false)
         (MonevoFacade.obtener_resumen db u).
Proof.
  intros Hn He.
  unfold MonevoFacade.presupuesto_existe,
    PresupuestoService.presupuesto_existe,
    SQLiteRepository.presupuesto_existe in He.
  fold (normalizar categoria) in He. rewrite Hn in He.
  unfold MonevoFacade.obtener_resumen, PresupuestoService.obtener_resumen,
    SQLiteRepository.obtener_resumen.
  apply Forall_forall. intros s Hs.
  apply in_map_iff in Hs as [r [<- Hr]].
  apply filter_In in Hr as [Hr Hu].
  cbn [ResumenPresupuesto.categoria].
  destruct (Str.eqb (SQLiteRepository.p_categoria r) categoria) eqn:E;
    [|reflexivity].
  assert (Hx : existsb (SQLiteRepository.where_p u categoria)
                       (SQLiteRepository.presupuestos db) = true).
  { apply existsb_exists. exists r. split; [exact Hr|].
    unfold SQLiteRepository.where_p. rewrite Hu, E. reflexivity. }
  congruence.
Qed.

Lemma buscar_encontrado (categoria : str) (l : list ResumenPresupuesto.t) :
  (exists r, In r l /\ ResumenPresupuesto.categoria r = categoria) ->
  exists r saldo usado,
    In r l /\ ResumenPresupuesto.categoria r = categoria
    /\ MessageProcessor.buscar_resumen categoria l
       = py "📊 Presupuesto " ++ capitalize categoria ++ py ":" ++ nl
         ++ py "💰 Saldo: $" ++ saldo ++ nl
         ++ py "📅 Periodicidad: " ++ ResumenPresupuesto.periodicidad r ++ nl
         ++ py "📈 Usado: " ++ usado ++ py "%".
Proof.
  induction l as [|x l IH]; intros [r [Hr Hc]]; [destruct Hr|].
  cbn [MessageProcessor.buscar_resumen].
  destruct (Str.eqb (ResumenPresupuesto.categoria x) categoria) eqn:E.
  - apply eqb_eq in E.
    exists x, (format_miles (ResumenPresupuesto.saldo x)),
      (format_1f (ResumenPresupuesto.porcentaje_usado x)).
    split; [left; reflexivity|]. split; [exact E | reflexivity].
  - destruct Hr as [<- | Hr].
    + apply eqb_neq in E. contradiction.
    + destruct (IH (ex_intro _ r (conj Hr Hc))) as (r' & sa & us & Hin & Hc' & ->).
      exists r', sa, us. split; [right; exact Hin|].
      split; [exact Hc' | reflexivity].
Qed.

(** X16.  A message within U+0000..U+00FF that the parser reads as a
    request to view a budget, from a user id that encodes in UTF-8, is
    answered and never writes to the store.  When no budget is stored
    for the user under the category read, the reply is the not-found
    text naming it; when one is, the reply opens with the capitalised
    category and the balance line, and its periodicity line carries the
    periodicity of a budget row stored for that user and category. *)
Theorem X16_view_budget (ahora : datetime) (u mensaje : str)
    (db : SQLiteRepository.DB) (i : MessageParser.Intent) :
  latin1 mensaje = true -> texto_utf8 u = true ->
  MessageParser.parse mensaje = Some i ->
  MessageParser.action i = py "ver_presupuesto" ->
  exists categoria reply,
    MessageParser.data i = [ (py "categoria", VStr categoria) ]
    /\ MessageProcessor.process_message ahora u mensaje db
       = MessageProcessor.Hecho reply db
    /\ (~ hay_presupuesto db u categoria ->
        reply = py "⚠️ No se encontró presupuesto '" ++ categoria ++ py "'")
    /\ (hay_presupuesto db u categoria ->
        exists r saldo usado,
          In r (SQLiteRepository.presupuestos db)
          /\ SQLiteRepository.p_usuario_id r = u
          /\ SQLiteRepository.p_categoria r = categoria
          /\ reply
             = py "📊 Presupuesto " ++ capitalize categoria ++ py ":" ++ nl
               ++ py "💰 Saldo: $" ++ saldo ++ nl
               ++ py "📅 Periodicidad: " ++ SQLiteRepository.p_periodicidad r
               ++ nl ++ py "📈 Usado: " ++ usado ++ py "%").
Proof.
  intros _ _ Hp Ha.
  destruct claves_distintas as (_ & _ & _ & _ & _ & G3 & G4).
  pose proof (process_message_casos ahora u mensaje db) as Hc.
  rewrite Hp in Hc.
  destruct Hc as [(a & b & c0 & _ & _ & [[Hg _] | [Hg _]])
                 | (b & _ & Hd & Hn & Hr)].
  - rewrite Ha in Hg. rewrite Hg, eqb_refl in G3. discriminate G3.
  - rewrite Ha in Hg. rewrite Hg, eqb_refl in G4. discriminate G4.
  - exists b, (MessageProcessor.buscar_resumen b
                 (MonevoFacade.obtener_resumen db u)).
    split; [exact Hd|]. split; [exact Hr|]. split.
    + intros Hno. apply no_hay_presupuesto_existe in Hno.
      apply buscar_no_encontrado, resumen_sin_categoria; assumption.
    + intros (row & Hrow & Hu & Hcat). rewrite Hn in Hcat.
      destruct (buscar_encontrado b (MonevoFacade.obtener_resumen db u))
        as (r & sa & us & Hin & Hc & ->).
      { unfold MonevoFacade.obtener_resumen,
          PresupuestoService.obtener_resumen,
          SQLiteRepository.obtener_resumen.
        eexists. split.
        - apply in_map. apply filter_In. split; [exact Hrow|].
          apply eqb_eq; exact Hu.
        - exact Hcat. }
      unfold MonevoFacade.obtener_resumen,
        PresupuestoService.obtener_resumen,
        SQLiteRepository.obtener_resumen in Hin.
      apply in_map_iff in Hin as (row' & <- & Hrow').
      apply filter_In in Hrow' as [Hrow' Hu'].
      apply eqb_eq in Hu'.
      exists row', sa, us.
      split; [exact Hrow'|]. split; [exact Hu'|].
      split; [exact Hc | reflexivity].
Qed.

Lemma X16_view_budget_witness :
  latin1 (py "quiero ver presupuesto Moto") = true
  /\ texto_utf8 (py "u2") = true
  /\ MessageParser.parse (py "quiero ver presupuesto Moto")
     = Some (MessageParser.mkIntent (py "ver_presupuesto")
               [ (py "categoria", VStr (py "moto")) ])
  /\ hay_presupuesto db_varios (py "u2") (py "moto")
  /\ ~ hay_presupuesto db_varios (py "u2") (py "comida")
  /\ exists categoria reply,
       [ (py "categoria", VStr (py "moto")) ]
       = [ (py "categoria", VStr categoria) ]
       /\ MessageProcessor.process_message 5%Z (py "u2")
            (py "quiero ver presupuesto Moto") db_varios
          = MessageProcessor.Hecho reply db_varios
       /\ (~ hay_presupuesto db_varios (py "u2") categoria ->
           reply = py "⚠️ No se encontró presupuesto '" ++ categoria
                   ++ py "'")
       /\ (hay_presupuesto db_varios (py "u2") categoria ->
           exists r saldo usado,
             In r (SQLiteRepository.presupuestos db_varios)
             /\ SQLiteRepository.p_usuario_id r = py "u2"
             /\ SQLiteRepository.p_categoria r = categoria
             /\ reply
                = py "📊 Presupuesto " ++ capitalize categoria ++ py ":" ++ nl
                  ++ py "💰 Saldo: $" ++ saldo ++ nl
                  ++ py "📅 Periodicidad: "
                  ++ SQLiteRepository.p_periodicidad r
                  ++ nl ++ py "📈 Usado: " ++ usado ++ py "%").
Proof.
  assert (Hl : latin1 (py "quiero ver presupuesto Moto") = true)
    by (vm_compute; reflexivity).
  assert (Hu : texto_utf8 (py "u2") = true) by (vm_compute; reflexivity).
  assert (H : MessageParser.parse (py "quiero ver presupuesto Moto")
              = Some (MessageParser.mkIntent (py "ver_presupuesto")
                        [ (py "categoria", VStr (py "moto")) ]))
    by (vm_compute; reflexivity).
  split; [exact Hl|]. split; [exact Hu|]. split; [exact H|].
  split; [apply hay_presupuesto_existe; vm_compute; reflexivity|].
  split; [apply no_hay_presupuesto_existe; vm_compute; reflexivity|].
  exact (X16_view_budget 5%Z (py "u2") (py "quiero ver presupuesto Moto")
           db_varios _ Hl Hu H eq_refl).
Defined.

(** X17.  The patterns accept the amount [0], the service does not: a
    message read as an expense or an income of [0] against a budget
    that exists is answered with the amount message and writes
    nothing. *)
Theorem X17_zero_amount_from_text (ahora : datetime) (u mensaje : str)
    (db : SQLiteRepository.DB) (accion categoria concepto : str) :
  MessageParser.parse mensaje
  = Some (MessageParser.mkIntent accion
            [ (py "monto", VInt 0); (py "categoria", VStr categoria);
              (py "concepto", VStr concepto) ]) ->
  MonevoFacade.presupuesto_existe db u categoria = true ->
  MessageProcessor.process_message ahora u mensaje db
  = MessageProcessor.Hecho (py "El monto debe ser mayor a 0") db.
Proof.
  intros Hp He.
  pose proof (process_message_casos ahora u mensaje db) as Hc.
  rewrite Hp in Hc. cbn [MessageParser.action MessageParser.data] in Hc.
  assert (H0 : inject_Z 0 <= 0) by (unfold Qle; simpl; lia).
  destruct Hc as [(a & b & c0 & Hd & _ & [[_ ->] | [_ ->]])
                 | (b & _ & Hd & _)];
    [| |discriminate Hd];
    inversion Hd; subst a b c0.
  - unfold MonevoFacade.registrar_gasto, MovimientoService.registrar_gasto.
    rewrite (registrar_monto_invalido ahora u categoria (py "gasto")
               (inject_Z 0) concepto db H0 He).
    reflexivity.
  - unfold MonevoFacade.registrar_ingreso,
      MovimientoService.registrar_ingreso.
    rewrite (registrar_monto_invalido ahora u categoria (py "ingreso")
               (inject_Z 0) concepto db H0 He).
    reflexivity.
Qed.

Lemma X17_zero_amount_from_text_witness :
  MessageParser.parse (py "gasté 0 de moto")
  = Some (MessageParser.mkIntent (py "gasto")
            [ (py "monto", VInt 0); (py "categoria", VStr (py "moto"));
              (py "concepto", VStr []) ])
  /\ MonevoFacade.presupuesto_existe db_moto (py "u1") (py "moto") = true
  /\ MessageProcessor.process_message 5%Z (py "u1") (py "gasté 0 de moto")
       db_moto
     = MessageProcessor.Hecho (py "El monto debe ser mayor a 0") db_moto.
Proof.
  assert (H : MessageParser.parse (py "gasté 0 de moto")
              = Some (MessageParser.mkIntent (py "gasto")
                        [ (py "monto", VInt 0);
                          (py "categoria", VStr (py "moto"));
                          (py "concepto", VStr []) ]))
    by (vm_compute; reflexivity).
  assert (He : MonevoFacade.presupuesto_existe db_moto (py "u1") (py "moto")
               = true) by (vm_compute; reflexivity).
  split; [exact H|]. split; [exact He|].
  exact (X17_zero_amount_from_text 5%Z (py "u1") (py "gasté 0 de moto")
           db_moto _ _ _ H He).
Defined.

(* ================================================================= *)
(** ** Further properties: the used percentage *)

Lemma porcentaje_positivo (r : ResumenPresupuesto.t) :
  0 < ResumenPresupuesto.monto_inicial r ->
  ResumenPresupuesto.porcentaje_usado r
  = ResumenPresupuesto.gastos r / ResumenPresupuesto.monto_inicial r * 100.
Proof.
  intros Hm. unfold ResumenPresupuesto.porcentaje_usado.
  destruct (Qeq_bool (ResumenPresupuesto.monto_inicial r) 0) eqn:E;
    [|reflexivity].
  apply Qeq_bool_iff in E. rewrite E in Hm.
  exfalso; apply (Qlt_irrefl 0); exact Hm.
Qed.

(** X18.  For a budget with a positive initial amount the used
    percentage compares with 100 as the expenses compare with the
    initial amount: it is above 100 exactly when the expenses exceed
    the initial amount, it is not negative when the expenses are not,
    and income plays no part in it. *)
Theorem X18_used_percentage (r : ResumenPresupuesto.t) :
  0 < ResumenPresupuesto.monto_inicial r ->
  (100 < ResumenPresupuesto.porcentaje_usado r
   <-> ResumenPresupuesto.monto_inicial r < ResumenPresupuesto.gastos r)
  /\ (0 <= ResumenPresupuesto.gastos r ->
      0 <= ResumenPresupuesto.porcentaje_usado r)
  /\ (forall ingresos saldo,
        ResumenPresupuesto.porcentaje_usado
          (ResumenPresupuesto.mk (ResumenPresupuesto.categoria r)
             (ResumenPresupuesto.monto_inicial r)
             (ResumenPresupuesto.gastos r) ingresos saldo
             (ResumenPresupuesto.periodicidad r))
        = ResumenPresupuesto.porcentaje_usado r).
Proof.
  intros Hm.
  rewrite (porcentaje_positivo r Hm).
  set (m := ResumenPresupuesto.monto_inicial r) in *.
  set (g := ResumenPresupuesto.gastos r) in *.
  assert (Hne : ~ m == 0).
  { intros E. rewrite E in Hm. apply (Qlt_irrefl 0); exact Hm. }
  assert (E : g / m * 100 * m == g * 100) by (field; exact Hne).
  split.
  { rewrite <- (Qmult_lt_r 100 (g / m * 100) m Hm), E.
    rewrite (Qmult_comm 100 m).
    apply Qmult_lt_r. reflexivity. }
  split.
  { intros Hg.
    apply (Qmult_le_r 0 (g / m * 100) m Hm). rewrite E.
    rewrite Qmult_0_l. apply Qmult_le_0_compat; [exact Hg | discriminate]. }
  intros ingresos saldo.
  unfold ResumenPresupuesto.porcentaje_usado.
  cbn [ResumenPresupuesto.monto_inicial ResumenPresupuesto.gastos].
  fold m g.
  destruct (Qeq_bool m 0) eqn:Eb; [|reflexivity].
  apply Qeq_bool_iff in Eb. contradiction.
Qed.

Lemma X18_used_percentage_witness :
  0 < ResumenPresupuesto.monto_inicial
        (ResumenPresupuesto.mk (py "moto") 1000 1500 0 (-500) (py "mensual"))
  /\ (100 < ResumenPresupuesto.porcentaje_usado
              (ResumenPresupuesto.mk (py "moto") 1000 1500 0 (-500)
                 (py "mensual"))
      <-> ResumenPresupuesto.monto_inicial
            (ResumenPresupuesto.mk (py "moto") 1000 1500 0 (-500)
               (py "mensual"))
          < ResumenPresupuesto.gastos
              (ResumenPresupuesto.mk (py "moto") 1000 1500 0 (-500)
                 (py "mensual"))).
Proof.
  assert (H : 0 < ResumenPresupuesto.monto_inicial
                    (ResumenPresupuesto.mk (py "moto") 1000 1500 0 (-500)
                       (py "mensual"))) by reflexivity.
  split; [exact H|].
  exact (proj1 (X18_used_percentage _ H)).
Defined.

(* ================================================================= *)
(** ** Further properties: a new budget starts clean *)




(* ================================================================= *)
(** ** Further properties: a recorded movement in the history *)



